(** * dcsNet: the network configuration agent of the Data Channel Service

    A shallow embedding of
    [components/dataConnectionService/dcsNet/dcsNet.c]: the stack of
    default-gateway backups kept per client session, the DHCP lease file
    parser, the validation of route destinations and prefix lengths, and the
    public [le_net_*] operations built from them.

    Conventions of the embedding.
    - A C string is a [string]; a fixed-width [char] array whose raw bytes
      matter (the targets of [strncpy]) is a [list ascii].
    - A machine integer is a [Z] with its wrap-around written out.
    - The platform adapter ([pa_dcs_*]), the channel registry ([le_dcs*]),
      the IPC layer and the file system are not part of the component: what
      they answer during one public operation is given by an [Env], and
      every call made to them is recorded as an [Event].
    - An operation is a computation in the monad [M]: it reads and updates
      the list of backups, records events, and has no result ([None]) where
      the C code reads bytes that no statement of the program wrote. The
      DNS operations run in [MD], which adds the record of the name servers
      last installed. *)

From Stdlib Require Import List String Ascii ZArith NArith Bool Arith Lia.
From Stdlib Require Import DecimalString.
Import ListNotations.

Local Open Scope string_scope.
Local Open Scope list_scope.

(** ** Result codes, references, records *)

(** Modelled from the spec: [le_result_t] is declared in the framework's
    [legato.h]; these are the codes of the result taxonomy this component
    produces or forwards. *)
Inductive le_result_t : Type :=
| LE_OK
| LE_NOT_FOUND
| LE_OVERFLOW
| LE_FAULT
| LE_BAD_PARAMETER
| LE_DUPLICATE
| LE_UNSUPPORTED.

Definition le_result_eqb (a b : le_result_t) : bool :=
  match a, b with
  | LE_OK, LE_OK | LE_NOT_FOUND, LE_NOT_FOUND | LE_OVERFLOW, LE_OVERFLOW
  | LE_FAULT, LE_FAULT | LE_BAD_PARAMETER, LE_BAD_PARAMETER
  | LE_DUPLICATE, LE_DUPLICATE | LE_UNSUPPORTED, LE_UNSUPPORTED => true
  | _, _ => false
  end.

(** A session reference is a pointer; [0] is the internal client le_data. *)
Definition le_msg_SessionRef_t : Type := N.

(** A channel reference and a technology reference are opaque pointers. *)
Definition le_dcs_ChannelRef_t : Type := N.

(** [le_dcs_Technology_t] is a C enum, hence an [int]. *)
Definition le_dcs_Technology_t : Type := Z.

Record le_dcs_channelDb_t : Type := {
  channelName : string;
  technology : le_dcs_Technology_t;
  techRef : N
}.

(** [pa_dcs_DefaultGwBackup_t], with the fields dcsNet.c reads and writes.
    The four text fields are NUL-terminated arrays of one width on both
    sides of every [strncmp] and [le_utf8_Copy] of the file, so comparing
    them is comparing the strings and copying them keeps the string. *)
Record pa_dcs_DefaultGwBackup_t : Type := {
  appSessionRef : le_msg_SessionRef_t;
  defaultV4GW : string;
  defaultV4Interface : string;
  defaultV6GW : string;
  defaultV6Interface : string;
  setV4GwToSystem : bool;
  setV6GwToSystem : bool
}.

(** [DcsDefaultGwConfigDb_t] is the backup together with its list link; the
    link is the position of the element in [DcsDefaultGwConfigDbList], and a
    pointer to an element on the list is that position. *)
Definition DcsDefaultGwConfigDb_t : Type := pa_dcs_DefaultGwBackup_t.

Inductive pa_dcs_RouteAction_t : Type := PA_DCS_ROUTE_ADD | PA_DCS_ROUTE_DELETE.

Inductive DhcpAddress_t : Type :=
| LE_NET_DEFAULT_GATEWAY_ADDRESS
| LE_NET_DNS_SERVER_ADDRESS.

(** ** Events and the environment *)

(** The [LE_WARN] messages of the file. *)
Inductive Warning : Type :=
| WARN_restored_out_of_order
| WARN_not_backed_up
| WARN_newer_backup
| WARN_prefix_length_invalid (prefixLength : string)
| WARN_deprecated_network_mask.

Inductive Event : Type :=
| Ev_pa_dcs_GetDefaultGateway
| Ev_pa_dcs_SetDefaultGateway (interface gateway : string) (isIpv6 : bool)
| Ev_pa_dcs_ChangeRoute (action : pa_dcs_RouteAction_t)
                        (destAddr prefixLength interface : string)
| Ev_pa_dcs_GetDhcpLeaseFilePath (interface : string)
| Ev_le_flock_TryOpenStream (path : string)
| Ev_le_dcsTech_GetNetInterface (tech : le_dcs_Technology_t)
                                (channelRef : le_dcs_ChannelRef_t)
| Ev_le_dcsTech_GetDefaultGWAddress (tech : le_dcs_Technology_t) (ref : N)
| Ev_LE_WARN (w : Warning).

(** Modelled from the spec: what [pa_dcs_GetDefaultGateway] (platform
    adapter, not in this file) leaves in the structure it is handed: it
    fills the gateway address and the interface of each family and reports
    one result per family; it does not write the two [set..ToSystem] flags
    nor the session reference. *)
Record DefaultGateway_t : Type := {
  gwV4GW : string;
  gwV4Interface : string;
  gwV6GW : string;
  gwV6Interface : string;
  gwV4Result : le_result_t;
  gwV6Result : le_result_t
}.

(** The answers of the collaborators during one public operation. *)
Record Env : Type := {
  le_net_GetClientSessionRef : le_msg_SessionRef_t;
  ans_GetDefaultGateway : DefaultGateway_t;
  ans_SetDefaultGateway : string -> string -> bool -> le_result_t;
  ans_ChangeRoute :
    pa_dcs_RouteAction_t -> string -> string -> string -> le_result_t;
  ans_GetDhcpLeaseFilePath : string -> le_result_t * string;
  (** the stream ([None] is [NULL]) and the value left in [result] *)
  ans_TryOpenStream : string -> option string * le_result_t;
  ans_GetChannelDbFromRef : le_dcs_ChannelRef_t -> option le_dcs_channelDb_t;
  ans_GetNetInterface :
    le_dcs_Technology_t -> le_dcs_ChannelRef_t -> le_result_t * string;
  (** result, IPv4 gateway, IPv6 gateway *)
  ans_GetDefaultGWAddress :
    le_dcs_Technology_t -> N -> le_result_t * string * string
}.

(** ** The monad of operations *)

Definition State : Type := list DcsDefaultGwConfigDb_t.

Definition M (A : Type) : Type := State -> option (A * State * list Event).

Definition ret {A : Type} (a : A) : M A := fun st => Some (a, st, []).

Definition bind {A B : Type} (m : M A) (k : A -> M B) : M B :=
  fun st =>
    match m st with
    | None => None
    | Some (a, st1, ev1) =>
        match k a st1 with
        | None => None
        | Some (b, st2, ev2) => Some (b, st2, ev1 ++ ev2)
        end
    end.

Definition get : M State := fun st => Some (st, st, []).
Definition put (st : State) : M unit := fun _ => Some (tt, st, []).
Definition emit (e : Event) : M unit := fun st => Some (tt, st, [e]).
Definition undefined {A : Type} : M A := fun _ => None.
Definition when (b : bool) (m : M unit) : M unit := if b then m else ret tt.

Declare Scope dcs_scope.
Delimit Scope dcs_scope with dcs.
Notation "x <- m ;; k" := (bind m (fun x => k))
  (at level 61, m at next level, right associativity) : dcs_scope.
Notation "m ;; k" := (bind m (fun _ => k))
  (at level 61, right associativity) : dcs_scope.
Local Open Scope dcs_scope.

(** ** The stack of default-gateway backups *)

(** The initial value of the list, [LE_DLS_LIST_INIT] in [COMPONENT_INIT]. *)
Definition LE_DLS_LIST_INIT : State := [].

(** [le_dls_Remove]: unlink the element at a position. *)
Definition le_dls_Remove (l : State) (link : nat) : State :=
  firstn link l ++ skipn (S link) l.

(** [le_dls_Stack]: add at the start of the list. *)
Definition le_dls_Stack (l : State) (d : DcsDefaultGwConfigDb_t) : State :=
  d :: l.

(** The loop of [GetDefaultGwConfigDb]: the position and the content of the
    first element whose session reference is the given one. *)
Fixpoint GetDefaultGwConfigDb_scan (ref : le_msg_SessionRef_t) (l : State)
  : option (nat * DcsDefaultGwConfigDb_t) :=
  match l with
  | [] => None
  | d :: l' =>
      if N.eqb (appSessionRef d) ref then Some (O, d)
      else match GetDefaultGwConfigDb_scan ref l' with
           | Some (i, d') => Some (S i, d')
           | None => None
           end
  end.

(** [GetDefaultGwConfigDb]: the element found and [isRecent], which is
    [le_dls_IsHead] of the element found and [false] when none is. *)
Definition GetDefaultGwConfigDb (ref : le_msg_SessionRef_t) (l : State)
  : option (nat * DcsDefaultGwConfigDb_t) * bool :=
  match GetDefaultGwConfigDb_scan ref l with
  | Some (i, d) => (Some (i, d), Nat.eqb i 0)
  | None => (None, false)
  end.

(** [le_mem_ForceAlloc] followed by [memset] to zero. *)
Definition zeroed_DcsDefaultGwConfigDb : DcsDefaultGwConfigDb_t :=
  {| appSessionRef := 0%N;
     defaultV4GW := ""; defaultV4Interface := "";
     defaultV6GW := ""; defaultV6Interface := "";
     setV4GwToSystem := false; setV6GwToSystem := false |}.

(** [InsertDefaultGwBackupDb]: the backup of the session is taken off the
    list, or a new one is allocated; its two flags are set, the four text
    fields are copied from [backupDataPtr], and it goes to the start of the
    list. *)
Definition InsertDefaultGwBackupDb (ref : le_msg_SessionRef_t)
    (backupDataPtr : pa_dcs_DefaultGwBackup_t) : M unit :=
  l <- get ;;
  let '(archivedDbPtr, _) := GetDefaultGwConfigDb ref l in
  let '(found, archived, l1) :=
    match archivedDbPtr with
    | None =>
        (false,
         {| appSessionRef := ref;
            defaultV4GW := defaultV4GW zeroed_DcsDefaultGwConfigDb;
            defaultV4Interface := defaultV4Interface zeroed_DcsDefaultGwConfigDb;
            defaultV6GW := defaultV6GW zeroed_DcsDefaultGwConfigDb;
            defaultV6Interface := defaultV6Interface zeroed_DcsDefaultGwConfigDb;
            setV4GwToSystem := false; setV6GwToSystem := false |},
         l)
    | Some (link, d) => (true, d, le_dls_Remove l link)
    end in
  let setV4 :=
    if found then
      if String.eqb (defaultV4GW archived) (defaultV4GW backupDataPtr)
         && String.eqb (defaultV4Interface archived)
                       (defaultV4Interface backupDataPtr)
      then setV4GwToSystem backupDataPtr else false
    else false in
  let setV6 :=
    if found then
      if String.eqb (defaultV6GW archived) (defaultV6GW backupDataPtr)
         && String.eqb (defaultV6Interface archived)
                       (defaultV6Interface backupDataPtr)
      then setV6GwToSystem backupDataPtr else false
    else false in
  put (le_dls_Stack l1
         {| appSessionRef := appSessionRef archived;
            defaultV4GW := defaultV4GW backupDataPtr;
            defaultV4Interface := defaultV4Interface backupDataPtr;
            defaultV6GW := defaultV6GW backupDataPtr;
            defaultV6Interface := defaultV6Interface backupDataPtr;
            setV4GwToSystem := setV4;
            setV6GwToSystem := setV6 |}).

(** ** Calls to the platform adapter *)

Definition pa_dcs_GetDefaultGateway (E : Env) : M DefaultGateway_t :=
  emit Ev_pa_dcs_GetDefaultGateway ;; ret (ans_GetDefaultGateway E).

Definition pa_dcs_SetDefaultGateway (E : Env) (interface gateway : string)
    (isIpv6 : bool) : M le_result_t :=
  emit (Ev_pa_dcs_SetDefaultGateway interface gateway isIpv6) ;;
  ret (ans_SetDefaultGateway E interface gateway isIpv6).

(** ** Backup and restore *)

(** [DcsNetGetSessionRef]; the client's credentials and application name
    are looked up for [LE_DEBUG] only and are left out. *)
Definition DcsNetGetSessionRef (E : Env) : le_msg_SessionRef_t :=
  le_net_GetClientSessionRef E.

(** [le_net_BackupDefaultGW]: a zeroed structure is handed to the adapter,
    which fills in the current default gateways, and is then inserted for
    the calling session. The two results of the adapter are logged only. *)
Definition le_net_BackupDefaultGW (E : Env) : M unit :=
  let sessionRef := DcsNetGetSessionRef E in
  gw <- pa_dcs_GetDefaultGateway E ;;
  let defGwConfigBackup :=
    {| appSessionRef := appSessionRef zeroed_DcsDefaultGwConfigDb;
       defaultV4GW := gwV4GW gw;
       defaultV4Interface := gwV4Interface gw;
       defaultV6GW := gwV6GW gw;
       defaultV6Interface := gwV6Interface gw;
       setV4GwToSystem := setV4GwToSystem zeroed_DcsDefaultGwConfigDb;
       setV6GwToSystem := setV6GwToSystem zeroed_DcsDefaultGwConfigDb |} in
  InsertDefaultGwBackupDb sessionRef defGwConfigBackup.

(** [DcsDefaultGwConfigDbDestructor], on a pointer that is not NULL: the
    element is unlinked from the list. *)
Definition DcsDefaultGwConfigDbDestructor (link : nat) : M unit :=
  l <- get ;; put (le_dls_Remove l link).

(** Modelled from the spec: [le_mem_Release] (framework memory pool, not in
    this file) on a block that [le_mem_ForceAlloc] returned and nobody else
    holds: the block is freed, which runs the destructor that
    [COMPONENT_INIT] registered for the pool. *)
Definition le_mem_Release (link : nat) : M unit :=
  DcsDefaultGwConfigDbDestructor link.

(** [le_net_RestoreDefaultGW]: IPv4 first, then IPv6; a family that was not
    installed counts as restored. *)
Definition le_net_RestoreDefaultGW (E : Env) : M le_result_t :=
  let sessionRef := DcsNetGetSessionRef E in
  l <- get ;;
  let '(defGwConfigDbPtr, isRecent) := GetDefaultGwConfigDb sessionRef l in
  match defGwConfigDbPtr with
  | None => ret LE_NOT_FOUND
  | Some (link, defGwConfigBackup) =>
      when (negb isRecent) (emit (Ev_LE_WARN WARN_restored_out_of_order)) ;;
      v4Result <-
        (if setV4GwToSystem defGwConfigBackup
         then pa_dcs_SetDefaultGateway E
                (defaultV4Interface defGwConfigBackup)
                (defaultV4GW defGwConfigBackup) false
         else ret LE_OK) ;;
      v6Result <-
        (if setV6GwToSystem defGwConfigBackup
         then pa_dcs_SetDefaultGateway E
                (defaultV6Interface defGwConfigBackup)
                (defaultV6GW defGwConfigBackup) true
         else ret LE_OK) ;;
      le_mem_Release link ;;
      if le_result_eqb v4Result LE_OK || le_result_eqb v6Result LE_OK
      then ret LE_OK
      else ret LE_FAULT
  end.

(** ** C strings, character arrays and the libc functions used *)

Definition NUL : ascii := Ascii.zero.
Definition newline : ascii := ascii_of_nat 10.
Definition space : ascii := ascii_of_nat 32.
Definition colon : ascii := ascii_of_nat 58.
Definition semicolon : ascii := ascii_of_nat 59.

(** [isspace] and [isdigit] in the C locale. *)
Definition isspace (c : ascii) : bool :=
  let n := nat_of_ascii c in
  Nat.eqb n 32 || (Nat.leb 9 n && Nat.leb n 13).

Definition isdigit (c : ascii) : bool :=
  let n := nat_of_ascii c in
  Nat.leb 48 n && Nat.leb n 57.

(** The C string that starts a character array: the bytes before the first
    NUL. An array without a NUL holds no C string: reading one from it runs
    over its end. *)
Fixpoint c_str (buf : list ascii) : option string :=
  match buf with
  | [] => None
  | c :: buf' =>
      if Ascii.eqb c NUL then Some ""
      else match c_str buf' with
           | Some s => Some (String c s)
           | None => None
           end
  end.

(** What a C string function sees of a string that may hold NUL bytes. *)
Fixpoint c_trunc (s : string) : string :=
  match s with
  | EmptyString => EmptyString
  | String c s' => if Ascii.eqb c NUL then EmptyString else String c (c_trunc s')
  end.

(** [strncpy(dest, src, n)]: exactly [n] bytes are written, the bytes of
    [src] and then NULs; no NUL is written when [src] has [n] bytes or
    more. *)
Fixpoint strncpy (src : string) (n : nat) : list ascii :=
  match n with
  | O => []
  | S n' =>
      match src with
      | EmptyString => NUL :: strncpy EmptyString n'
      | String c src' => c :: strncpy src' n'
      end
  end.

(** [memset(p, 0, size * num)] on an array of [num] rows of [size] bytes. *)
Definition zero_rows (size num : nat) : list (list ascii) :=
  repeat (repeat NUL size) num.

(** Row [i] of an array, replaced. Used where the row is one of the array:
    the loop of [GetLeaseAddresses] copies to a row only while its counter
    is below [numAddresses]. Where a copy lands in memory, and that it lands
    inside the array, is the matter of [GetLeaseAddresses_loop_bytes]. *)
Fixpoint set_row (rows : list (list ascii)) (i : nat) (r : list ascii)
  : list (list ascii) :=
  match rows, i with
  | [], _ => []
  | _ :: rows', O => r :: rows'
  | r0 :: rows', S i' => r0 :: set_row rows' i' r
  end.

(** The C string at row [i] of a two-dimensional character array; it runs
    into the next rows when row [i] holds no NUL. *)
Definition row_str (rows : list (list ascii)) (i : nat) : option string :=
  c_str (List.concat (List.skipn i rows)).

(** [s + n] for a C string [s] and [n <= strlen(s)]. *)
Fixpoint string_drop (n : nat) (s : string) : string :=
  match n, s with
  | O, _ => s
  | S n', String _ s' => string_drop n' s'
  | S _, EmptyString => EmptyString
  end.

(** [strstr] and [strchr], as the offset of the first occurrence. *)
Definition strstr (haystack needle : string) : option nat :=
  String.index 0 needle haystack.

Definition strchr (s : string) (c : ascii) : option nat :=
  String.index 0 (String c EmptyString) s.

(** Modelled from the spec: [le_utf8_Copy] (framework string library, not in
    this file): copy as much of [src] as fits in [destSize] bytes with its
    terminator, and report [LE_OVERFLOW] when it was cut. The result is the
    code, the string left in [dest] and the number of bytes copied. The
    model cuts at a byte; the framework cuts before a multi-byte character
    that would not fit whole, which is the same on ASCII text. *)
Definition le_utf8_Copy (src : string) (destSize : nat)
  : le_result_t * string * nat :=
  if Nat.ltb (String.length src) destSize
  then (LE_OK, src, String.length src)
  else (LE_OVERFLOW, String.substring 0 (destSize - 1) src, destSize - 1).

(** Successive [fgets(line, n, stream)] up to the end of the stream: each
    call stores at most [n - 1] characters and stops after a newline.
    [line] is what the current call has stored so far. ([n] is at least 50
    in this file.) *)
Fixpoint fgets_lines (n : nat) (stream : string) (line : string) : list string :=
  match stream with
  | EmptyString =>
      match line with EmptyString => [] | _ => [line] end
  | String c stream' =>
      let line' := (line ++ String c EmptyString)%string in
      if Ascii.eqb c newline || Nat.leb (n - 1) (String.length line')
      then line' :: fgets_lines n stream' EmptyString
      else fgets_lines n stream' line'
  end.

(** [strtok_r(s, " ", &s)]: skip the delimiters, then cut at the next one.
    The result is the token and the new value of the save pointer. *)
Fixpoint skip_spaces (s : string) : string :=
  match s with
  | EmptyString => EmptyString
  | String c s' => if Ascii.eqb c space then skip_spaces s' else s
  end.

Fixpoint cut_at_space (s : string) : string * string :=
  match s with
  | EmptyString => (EmptyString, EmptyString)
  | String c s' =>
      if Ascii.eqb c space then (EmptyString, s')
      else let '(token, rest) := cut_at_space s' in (String c token, rest)
  end.

Definition strtok_r (s : string) : option (string * string) :=
  match skip_spaces s with
  | EmptyString => None
  | s1 => Some (cut_at_space s1)
  end.

Notation "' pat <- m ;; k" :=
  (bind m (fun x => match x with pat => k end))
  (at level 61, pat pattern, m at next level, right associativity) : dcs_scope.

(** ** Calls to the channel registry, the technology and the file system *)

Definition pa_dcs_GetDhcpLeaseFilePath (E : Env) (interface : string)
  : M (le_result_t * string) :=
  emit (Ev_pa_dcs_GetDhcpLeaseFilePath interface) ;;
  ret (ans_GetDhcpLeaseFilePath E interface).

Definition le_flock_TryOpenStream (E : Env) (path : string)
  : M (option string * le_result_t) :=
  emit (Ev_le_flock_TryOpenStream path) ;; ret (ans_TryOpenStream E path).

Definition le_dcs_GetChannelDbFromRef (E : Env) (channelRef : le_dcs_ChannelRef_t)
  : option le_dcs_channelDb_t :=
  ans_GetChannelDbFromRef E channelRef.

Definition le_dcsTech_GetNetInterface (E : Env) (tech : le_dcs_Technology_t)
    (channelRef : le_dcs_ChannelRef_t) : M (le_result_t * string) :=
  emit (Ev_le_dcsTech_GetNetInterface tech channelRef) ;;
  ret (ans_GetNetInterface E tech channelRef).

Definition le_dcsTech_GetDefaultGWAddress (E : Env) (tech : le_dcs_Technology_t)
    (ref : N) : M (le_result_t * string * string) :=
  emit (Ev_le_dcsTech_GetDefaultGWAddress tech ref) ;;
  ret (ans_GetDefaultGWAddress E tech ref).

(** ** Updating a backup that is on the list *)

Definition with_setV4GwToSystem (d : DcsDefaultGwConfigDb_t) (b : bool)
  : DcsDefaultGwConfigDb_t :=
  {| appSessionRef := appSessionRef d;
     defaultV4GW := defaultV4GW d; defaultV4Interface := defaultV4Interface d;
     defaultV6GW := defaultV6GW d; defaultV6Interface := defaultV6Interface d;
     setV4GwToSystem := b; setV6GwToSystem := setV6GwToSystem d |}.

Definition with_setV6GwToSystem (d : DcsDefaultGwConfigDb_t) (b : bool)
  : DcsDefaultGwConfigDb_t :=
  {| appSessionRef := appSessionRef d;
     defaultV4GW := defaultV4GW d; defaultV4Interface := defaultV4Interface d;
     defaultV6GW := defaultV6GW d; defaultV6Interface := defaultV6Interface d;
     setV4GwToSystem := setV4GwToSystem d; setV6GwToSystem := b |}.

(** A store through a pointer to the element at position [link]. *)
Fixpoint update_at (l : State) (link : nat)
    (f : DcsDefaultGwConfigDb_t -> DcsDefaultGwConfigDb_t) : State :=
  match l, link with
  | [], _ => []
  | d :: l', O => f d :: l'
  | d :: l', S link' => d :: update_at l' link' f
  end.

Definition store (link : nat)
    (f : DcsDefaultGwConfigDb_t -> DcsDefaultGwConfigDb_t) : M unit :=
  l <- get ;; put (update_at l link f).

(** ** The component, over the constants its headers declare *)

Section DcsNet.

(** Widths of the address arrays, from [pa_dcs.h]. *)
Variable PA_DCS_IPV4_ADDR_MAX_BYTES : nat.
Variable PA_DCS_IPV6_ADDR_MAX_BYTES : nat.

(** [sizeof] of the IPv4 and of the IPv6 address arrays of the [le_net]
    structures, from the generated interface header. *)
Variable sizeof_ipv4Addr : nat.
Variable sizeof_ipv6Addr : nat.

(** Enumerators of [le_dcs_Technology_t], from the [le_dcs] interface. *)
Variable LE_DCS_TECH_UNKNOWN : le_dcs_Technology_t.
Variable LE_DCS_TECH_CELLULAR : le_dcs_Technology_t.
Variable LE_DCS_TECH_MAX : le_dcs_Technology_t.

(** [inet_pton(AF_INET6, s, _) != 0], libc's parser of IPv6 literals. *)
Variable inet_pton_AF_INET6 : string -> bool.

Definition DEFAULT_GW_OPTION : string := "routers".
Definition DNS_ADDRESS_OPTION : string := "domain-name-servers".
Definition MAX_NUM_DEFAULT_GATEWAY_ADDRESS_BY_TYPE : nat := 1.
Definition MAX_NUM_DNS_ADDRESS_BY_TYPE : nat := 2.
Definition DHCP_LEASE_OPTION_MAX_LEN_BYTES : nat := 50.

Definition LEASE_FILE_MAX_LINE_LENGTH_BYTES : nat :=
  DHCP_LEASE_OPTION_MAX_LEN_BYTES
  + MAX_NUM_DNS_ADDRESS_BY_TYPE * PA_DCS_IPV6_ADDR_MAX_BYTES
  + MAX_NUM_DNS_ADDRESS_BY_TYPE * PA_DCS_IPV4_ADDR_MAX_BYTES.

(** ** The lease file parser *)

(** The [while (fgets ...)] loop of [GetDhcpLeaseFileEntry]: the first line
    read in which [strstr] finds the option, and where. *)
Fixpoint find_line (lines : list string) (searchStr : string)
  : option (string * nat) :=
  match lines with
  | [] => None
  | line :: lines' =>
      match strstr (c_trunc line) searchStr with
      | Some pos => Some (line, pos)
      | None => find_line lines' searchStr
      end
  end.

(** [GetDhcpLeaseFileEntry]: the result, the string left in [destPtr] and
    the value left in [*destSizeBytes]. [infoType] has no third value, so
    the [default] label of the [switch] has no counterpart. The value is
    read from one byte past the option; when what [fgets] stored ends with
    the option, that byte is past the terminator [fgets] wrote. *)
Definition GetDhcpLeaseFileEntry (E : Env) (interfaceStrPtr : string)
    (infoType : DhcpAddress_t) (destSizeBytes : nat)
  : M (le_result_t * string * nat) :=
  ' (result, pathBuff) <- pa_dcs_GetDhcpLeaseFilePath E interfaceStrPtr ;;
  if negb (le_result_eqb result LE_OK) then ret (LE_FAULT, EmptyString, destSizeBytes)
  else
    let '(_, searchStr, _) :=
      le_utf8_Copy
        match infoType with
        | LE_NET_DNS_SERVER_ADDRESS => DNS_ADDRESS_OPTION
        | LE_NET_DEFAULT_GATEWAY_ADDRESS => DEFAULT_GW_OPTION
        end
        DHCP_LEASE_OPTION_MAX_LEN_BYTES in
    ' (leaseFile, result) <- le_flock_TryOpenStream E pathBuff ;;
    match leaseFile with
    | None => ret (result, EmptyString, destSizeBytes)
    | Some stream =>
        match find_line
                (fgets_lines LEASE_FILE_MAX_LINE_LENGTH_BYTES stream EmptyString)
                searchStr with
        | None => ret (result, EmptyString, destSizeBytes)
        | Some (line, pos) =>
            let off :=
              pos + Nat.min (String.length searchStr)
                            DHCP_LEASE_OPTION_MAX_LEN_BYTES + 1 in
            if Nat.ltb (String.length line) off then undefined
            else
              let '(result, dest, n) :=
                le_utf8_Copy (c_trunc (string_drop off line)) destSizeBytes in
              match strchr dest semicolon with
              | Some i => ret (result, String.substring 0 i dest, n - 1)
              | None => ret (result, dest, n)
              end
        end
    end.

(** The [while ((token = strtok_r(rest, " ", &rest)))] loop of
    [GetLeaseAddresses]. Each token removes at least one character from
    [rest], so [fuel] above the length of [rest] is never used up. *)
Fixpoint GetLeaseAddresses_loop (fuel : nat) (rest : string)
    (v4AddrSize v6AddrSize numAddresses : nat)
    (v4 : list (list ascii)) (ipv4AddrCnt : nat)
    (v6 : list (list ascii)) (ipv6AddrCnt : nat)
  : option (list (list ascii) * list (list ascii)) :=
  match fuel with
  | O => None
  | S fuel' =>
      match strtok_r rest with
      | None => Some (v4, v6)
      | Some (token, rest') =>
          let isIpv6 :=
            match strchr token colon with None => false | Some _ => true end in
          if negb isIpv6 && Nat.ltb ipv4AddrCnt numAddresses then
            GetLeaseAddresses_loop fuel' rest' v4AddrSize v6AddrSize numAddresses
              (set_row v4 ipv4AddrCnt (strncpy token v4AddrSize)) (S ipv4AddrCnt)
              v6 ipv6AddrCnt
          else if isIpv6 && Nat.ltb ipv6AddrCnt numAddresses then
            GetLeaseAddresses_loop fuel' rest' v4AddrSize v6AddrSize numAddresses
              v4 ipv4AddrCnt
              (set_row v6 ipv6AddrCnt (strncpy token v6AddrSize)) (S ipv6AddrCnt)
          else
            GetLeaseAddresses_loop fuel' rest' v4AddrSize v6AddrSize numAddresses
              v4 ipv4AddrCnt v6 ipv6AddrCnt
      end
  end.

(** [strncpy(dest + off, src, n)] on the bytes of an array: the [n] bytes
    from offset [off] are overwritten. A copy that does not lie inside the
    array writes past its end: no result. *)
Definition strncpy_at (dest : list ascii) (off : nat) (src : string) (n : nat)
  : option (list ascii) :=
  if Nat.leb (off + n) (List.length dest)
  then Some (firstn off dest ++ strncpy src n ++ skipn (off + n) dest)
  else None.

(** The same loop on the two arrays as the bytes they are. [v4AddrPtr] and
    [v6AddrPtr] are the offsets of the two pointers from the start of their
    arrays; each copy writes one row width at the pointer and advances the
    pointer by it ([v4AddrPtr += v4AddrSize]). *)
Fixpoint GetLeaseAddresses_loop_bytes (fuel : nat) (rest : string)
    (v4AddrSize v6AddrSize numAddresses : nat)
    (v4 : list ascii) (v4AddrPtr ipv4AddrCnt : nat)
    (v6 : list ascii) (v6AddrPtr ipv6AddrCnt : nat)
  : option (list ascii * list ascii) :=
  match fuel with
  | O => None
  | S fuel' =>
      match strtok_r rest with
      | None => Some (v4, v6)
      | Some (token, rest') =>
          let isIpv6 :=
            match strchr token colon with None => false | Some _ => true end in
          if negb isIpv6 && Nat.ltb ipv4AddrCnt numAddresses then
            match strncpy_at v4 v4AddrPtr token v4AddrSize with
            | Some v4' =>
                GetLeaseAddresses_loop_bytes fuel' rest'
                  v4AddrSize v6AddrSize numAddresses
                  v4' (v4AddrPtr + v4AddrSize) (S ipv4AddrCnt)
                  v6 v6AddrPtr ipv6AddrCnt
            | None => None
            end
          else if isIpv6 && Nat.ltb ipv6AddrCnt numAddresses then
            match strncpy_at v6 v6AddrPtr token v6AddrSize with
            | Some v6' =>
                GetLeaseAddresses_loop_bytes fuel' rest'
                  v4AddrSize v6AddrSize numAddresses
                  v4 v4AddrPtr ipv4AddrCnt
                  v6' (v6AddrPtr + v6AddrSize) (S ipv6AddrCnt)
            | None => None
            end
          else
            GetLeaseAddresses_loop_bytes fuel' rest'
              v4AddrSize v6AddrSize numAddresses
              v4 v4AddrPtr ipv4AddrCnt v6 v6AddrPtr ipv6AddrCnt
      end
  end.

(** [GetLeaseAddresses]: the result and the two output arrays, as rows of
    [v4AddrSize] and of [v6AddrSize] bytes. *)
Definition GetLeaseAddresses (E : Env) (interfaceStrPtr : string)
    (infoType : DhcpAddress_t)
    (v4AddrPtr : list (list ascii)) (v4AddrSize : nat)
    (v6AddrPtr : list (list ascii)) (v6AddrSize : nat)
    (numAddresses : nat)
  : M (le_result_t * list (list ascii) * list (list ascii)) :=
  let addrBufferSizeBytes :=
    MAX_NUM_DNS_ADDRESS_BY_TYPE
    * (PA_DCS_IPV4_ADDR_MAX_BYTES + PA_DCS_IPV6_ADDR_MAX_BYTES + 1) in
  if Nat.ltb MAX_NUM_DNS_ADDRESS_BY_TYPE numAddresses
  then ret (LE_FAULT, v4AddrPtr, v6AddrPtr)
  else
    let v4 := zero_rows v4AddrSize numAddresses in
    let v6 := zero_rows v6AddrSize numAddresses in
    ' (result, addressBuffer, _) <-
      GetDhcpLeaseFileEntry E interfaceStrPtr infoType addrBufferSizeBytes ;;
    if le_result_eqb result LE_OK then
      match GetLeaseAddresses_loop (S (String.length addressBuffer)) addressBuffer
              v4AddrSize v6AddrSize numAddresses v4 0 v6 0 with
      | Some (v4', v6') => ret (result, v4', v6')
      | None => undefined
      end
    else ret (result, v4, v6).

(** ** Setting and reading the default gateway *)

Definition unsupported_technology (tech : le_dcs_Technology_t) : bool :=
  Z.eqb LE_DCS_TECH_UNKNOWN tech || Z.leb LE_DCS_TECH_MAX tech.

(** One family of [le_net_SetDefaultGW]: when an address was obtained, ask
    the adapter to install it and, on success, mark the caller's backup. *)
Definition SetDefaultGW_family (E : Env) (intf gwAddr : string) (isIpv6 : bool)
    (defGwConfigDbPtr : option (nat * DcsDefaultGwConfigDb_t))
  : M le_result_t :=
  if Nat.ltb 0 (String.length gwAddr) then
    r <- pa_dcs_SetDefaultGateway E intf gwAddr isIpv6 ;;
    match le_result_eqb r LE_OK, defGwConfigDbPtr with
    | true, Some (link, _) =>
        store link (fun d => if isIpv6 then with_setV6GwToSystem d true
                             else with_setV4GwToSystem d true) ;;
        ret r
    | _, _ => ret r
    end
  else ret LE_FAULT.

(** [le_net_SetDefaultGW]. The two address arrays are locals that only the
    technology or [GetLeaseAddresses] writes. *)
Definition le_net_SetDefaultGW (E : Env) (channelRef : le_dcs_ChannelRef_t)
  : M le_result_t :=
  let sessionRef := DcsNetGetSessionRef E in
  match le_dcs_GetChannelDbFromRef E channelRef with
  | None => ret LE_FAULT
  | Some channelDb =>
      if unsupported_technology (technology channelDb) then ret LE_UNSUPPORTED
      else
        ' (r, intf) <-
          le_dcsTech_GetNetInterface E (technology channelDb) channelRef ;;
        if negb (le_result_eqb r LE_OK) then ret LE_FAULT
        else
          ' (r, v4GwAddr, v6GwAddr) <-
            (if Z.eqb (technology channelDb) LE_DCS_TECH_CELLULAR then
               ' (r, v4, v6) <-
                 le_dcsTech_GetDefaultGWAddress E (technology channelDb)
                   (techRef channelDb) ;;
               ret (r, Some v4, Some v6)
             else
               ' (r, v4, v6) <-
                 GetLeaseAddresses E intf LE_NET_DEFAULT_GATEWAY_ADDRESS
                   [] PA_DCS_IPV4_ADDR_MAX_BYTES [] PA_DCS_IPV6_ADDR_MAX_BYTES
                   MAX_NUM_DEFAULT_GATEWAY_ADDRESS_BY_TYPE ;;
               ret (r, row_str v4 0, row_str v6 0)) ;;
          if negb (le_result_eqb r LE_OK) then ret r
          else
            match v4GwAddr, v6GwAddr with
            | Some v4GwAddr, Some v6GwAddr =>
                if Nat.eqb (String.length v6GwAddr) 0
                   && Nat.eqb (String.length v4GwAddr) 0
                then ret LE_FAULT
                else
                  l <- get ;;
                  let '(defGwConfigDbPtr, isRecent) :=
                    GetDefaultGwConfigDb sessionRef l in
                  when (match defGwConfigDbPtr with None => true | _ => false end)
                       (emit (Ev_LE_WARN WARN_not_backed_up)) ;;
                  when (negb isRecent) (emit (Ev_LE_WARN WARN_newer_backup)) ;;
                  v6Ret <- SetDefaultGW_family E intf v6GwAddr true defGwConfigDbPtr ;;
                  v4Ret <- SetDefaultGW_family E intf v4GwAddr false defGwConfigDbPtr ;;
                  if le_result_eqb v4Ret LE_OK || le_result_eqb v6Ret LE_OK
                  then ret LE_OK
                  else ret LE_FAULT
            | _, _ => undefined
            end
  end.

(** [le_net_DefaultGatewayAddresses_t]: two character arrays. *)
Record le_net_DefaultGatewayAddresses_t : Type := {
  ipv4Addr : list ascii;
  ipv6Addr : list ascii
}.

Definition clear_first (buf : list ascii) : list ascii :=
  match buf with
  | [] => []
  | _ :: buf' => NUL :: buf'
  end.

(** [le_net_GetDefaultGW]: the result and what [*addr] holds on return;
    [addr] is [None] for a NULL pointer. *)
Definition le_net_GetDefaultGW (E : Env) (channelRef : le_dcs_ChannelRef_t)
    (addr : option le_net_DefaultGatewayAddresses_t)
  : M (le_result_t * option le_net_DefaultGatewayAddresses_t) :=
  match addr with
  | None => ret (LE_FAULT, None)
  | Some a =>
      match le_dcs_GetChannelDbFromRef E channelRef with
      | None => ret (LE_FAULT, Some a)
      | Some channelDb =>
          ' (r, intf) <-
            le_dcsTech_GetNetInterface E (technology channelDb) channelRef ;;
          if negb (le_result_eqb r LE_OK) then ret (LE_FAULT, Some a)
          else
            ' (r, v4, v6) <-
              GetLeaseAddresses E intf LE_NET_DEFAULT_GATEWAY_ADDRESS
                [clear_first (ipv4Addr a)] sizeof_ipv4Addr
                [clear_first (ipv6Addr a)] sizeof_ipv6Addr
                MAX_NUM_DEFAULT_GATEWAY_ADDRESS_BY_TYPE ;;
            ret (r, Some {| ipv4Addr := List.concat v4;
                            ipv6Addr := List.concat v6 |})
      end
  end.

(** ** Reading the DNS server addresses *)

Record le_net_DnsServerAddresses_t : Type := {
  ipv4Addr1 : string;
  ipv4Addr2 : string;
  ipv6Addr1 : string;
  ipv6Addr2 : string
}.

Definition zeroed_DnsServerAddresses : le_net_DnsServerAddresses_t :=
  {| ipv4Addr1 := ""; ipv4Addr2 := ""; ipv6Addr1 := ""; ipv6Addr2 := "" |}.

Definition copied (r : le_result_t * string * nat) : string := snd (fst r).

(** [le_net_GetDNS]: the result and what [*addr] holds on return; [addr] is
    [None] for a NULL pointer. The two local arrays have two rows each. *)
Definition le_net_GetDNS (E : Env) (channelRef : le_dcs_ChannelRef_t)
    (addr : option le_net_DnsServerAddresses_t)
  : M (le_result_t * option le_net_DnsServerAddresses_t) :=
  match addr with
  | None => ret (LE_FAULT, None)
  | Some a =>
      match le_dcs_GetChannelDbFromRef E channelRef with
      | None => ret (LE_FAULT, Some a)
      | Some channelDb =>
          ' (r, intf) <-
            le_dcsTech_GetNetInterface E (technology channelDb) channelRef ;;
          if negb (le_result_eqb r LE_OK) then ret (LE_FAULT, Some a)
          else
            ' (result, v4DnsAddrs, v6DnsAddrs) <-
              GetLeaseAddresses E intf LE_NET_DNS_SERVER_ADDRESS
                (zero_rows PA_DCS_IPV4_ADDR_MAX_BYTES 2) PA_DCS_IPV4_ADDR_MAX_BYTES
                (zero_rows PA_DCS_IPV6_ADDR_MAX_BYTES 2) PA_DCS_IPV6_ADDR_MAX_BYTES
                MAX_NUM_DNS_ADDRESS_BY_TYPE ;;
            if negb (le_result_eqb result LE_OK)
            then ret (LE_FAULT, Some zeroed_DnsServerAddresses)
            else
              match row_str v4DnsAddrs 0, row_str v4DnsAddrs 1,
                    row_str v6DnsAddrs 0, row_str v6DnsAddrs 1 with
              | Some a1, Some a2, Some b1, Some b2 =>
                  ret (result,
                       Some {| ipv4Addr1 := copied (le_utf8_Copy a1 sizeof_ipv4Addr);
                               ipv4Addr2 := copied (le_utf8_Copy a2 sizeof_ipv4Addr);
                               ipv6Addr1 := copied (le_utf8_Copy b1 sizeof_ipv6Addr);
                               ipv6Addr2 := copied (le_utf8_Copy b2 sizeof_ipv6Addr) |})
              | _, _, _, _ => undefined
              end
      end
  end.

(** ** Validation of addresses and prefix lengths *)

Definition IPV6_PREFIX_LENGTH_MAX : Z := 8 * 8 * 2.
Definition IPV6_PREFIX_LEN_STR_LENGTH : Z := 3.

(** Conversions to [uint16_t] and to [int16_t]. *)
Definition to_uint16 (z : Z) : Z := z mod 65536.
Definition to_int16 (z : Z) : Z := (z + 32768) mod 65536 - 32768.

(** [LONG_MAX] of the 32-bit targets; C allows no smaller value. *)
Definition LONG_MAX : Z := 2147483647.

Definition digit_value (c : ascii) : Z := Z.of_nat (nat_of_ascii c) - 48.

(** [strtol(s, &end, 10)]: white space, an optional sign, then the longest
    run of decimal digits; [0] when there is no digit; the value is clamped
    to the range of [long]. *)
Fixpoint skip_isspace (s : string) : string :=
  match s with
  | EmptyString => EmptyString
  | String c s' => if isspace c then skip_isspace s' else s
  end.

Fixpoint strtol_digits (s : string) (acc : Z) : Z :=
  match s with
  | EmptyString => acc
  | String c s' =>
      if isdigit c then strtol_digits s' (10 * acc + digit_value c) else acc
  end.

Definition strtol (s : string) : Z :=
  match skip_isspace s with
  | String c s' =>
      if Ascii.eqb c "-" then Z.max (- LONG_MAX - 1) (- strtol_digits s' 0)
      else if Ascii.eqb c "+" then Z.min LONG_MAX (strtol_digits s' 0)
      else Z.min LONG_MAX (strtol_digits (String c s') 0)
  | EmptyString => 0
  end.

(** [DcsConvertPrefixLengthString]; [None] is a NULL pointer. The length is
    kept in a [uint16_t]. *)
Definition DcsConvertPrefixLengthString (input : option string) : Z :=
  match input with
  | None => 0
  | Some input =>
      let inputLen := to_uint16 (Z.of_nat (String.length input)) in
      if Z.eqb inputLen 0 then 0
      else if Z.ltb IPV6_PREFIX_LEN_STR_LENGTH inputLen then -1
      else to_int16 (strtol input)
  end.

(** [inet_pton(AF_INET, s, _)] as glibc does it: four decimal numbers up to
    255 without leading zeros, separated by single dots. The result is the
    four bytes of the address. *)
Fixpoint inet_pton4_loop (src : string) (tmp : list Z) (cur : Z)
    (saw_digit : bool) (octets : nat) : option (list Z) :=
  match src with
  | EmptyString => if Nat.ltb octets 4 then None else Some (tmp ++ [cur])
  | String ch src' =>
      if isdigit ch then
        let new := (cur * 10 + digit_value ch)%Z in
        if saw_digit && Z.eqb cur 0 then None
        else if Z.ltb 255 new then None
        else if saw_digit then inet_pton4_loop src' tmp new true octets
        else if Nat.ltb 4 (S octets) then None
        else inet_pton4_loop src' tmp new true (S octets)
      else if Ascii.eqb ch "." && saw_digit then
        if Nat.eqb octets 4 then None
        else inet_pton4_loop src' (tmp ++ [cur]) 0 false octets
      else None
  end.

Definition inet_pton_AF_INET (src : string) : option (list Z) :=
  inet_pton4_loop src [] 0 false 0.

Inductive address_family : Type := AF_INET | AF_INET6.

(** [DcsNetValidateIpAddress]. *)
Definition DcsNetValidateIpAddress (af : address_family) (addStr : string)
  : le_result_t :=
  let ok :=
    match af with
    | AF_INET => match inet_pton_AF_INET addStr with Some _ => true | None => false end
    | AF_INET6 => inet_pton_AF_INET6 addStr
    end in
  if ok then LE_OK else LE_FAULT.

(** [strtoul(s, &end, 0)] on a string that starts with a digit: the base is
    16 after [0x], 8 after [0], 10 otherwise. The result is the value and
    the rest of the string. *)
Definition digit_in_base (base : Z) (c : ascii) : option Z :=
  let n := Z.of_nat (nat_of_ascii c) in
  let d :=
    (if isdigit c then n - 48
     else if Z.leb 97 n && Z.leb n 102 then n - 87
     else if Z.leb 65 n && Z.leb n 70 then n - 55
     else 16)%Z in
  if Z.ltb d base then Some d else None.

Fixpoint strtoul_digits (base : Z) (s : string) (acc : Z) : Z * string :=
  match s with
  | EmptyString => (acc, EmptyString)
  | String c s' =>
      match digit_in_base base c with
      | Some d => strtoul_digits base s' (base * acc + d)
      | None => (acc, s)
      end
  end.

Definition strtoul_base0 (s : string) : Z * string :=
  match s with
  | String "0" (String x s') =>
      if Ascii.eqb x "x" || Ascii.eqb x "X" then
        match s' with
        | String h _ =>
            match digit_in_base 16 h with
            | Some _ => strtoul_digits 16 s' 0
            | None => (0%Z, String x s')
            end
        | EmptyString => (0%Z, String x s')
        end
      else strtoul_digits 8 s 0
  | _ => strtoul_digits 10 s 0
  end.

(** [n] bytes of [val], most significant first. *)
Fixpoint be_bytes (n : nat) (val : Z) : list Z :=
  match n with
  | O => []
  | S n' => ((val / 256 ^ Z.of_nat n') mod 256)%Z :: be_bytes n' val
  end.

(** [inet_aton] as glibc does it: up to four numbers in C notation
    separated by dots, the last one filling the bytes that remain. No more
    than three dots are accepted, so four rounds are enough. *)
Fixpoint inet_aton_loop (rounds : nat) (cp : string) (bytes : list Z)
  : option (list Z) :=
  match rounds, cp with
  | S rounds', String c _ =>
      if negb (isdigit c) then None
      else
        let '(val, cp1) := strtoul_base0 cp in
        match cp1 with
        | String "." cp2 =>
            if Nat.ltb 2 (List.length bytes) || Z.ltb 255 val then None
            else inet_aton_loop rounds' cp2 (bytes ++ [val])
        | _ =>
            let trailing_ok :=
              match cp1 with
              | EmptyString => true
              | String c1 _ => Nat.ltb (nat_of_ascii c1) 128 && isspace c1
              end in
            if negb trailing_ok then None
            else if Z.ltb (256 ^ Z.of_nat (4 - List.length bytes) - 1) val then None
            else Some (bytes ++ be_bytes (4 - List.length bytes) val)
        end
  | _, _ => None
  end.

Definition inet_aton (cp : string) : option (list Z) := inet_aton_loop 4 cp [].

(** The [uint32_t] that the four bytes of an [in_addr] are to the
    little-endian targets. (The number of set bits is that of the bytes,
    whatever their order.) *)
Definition s_addr (bytes : list Z) : Z :=
  (nth 0 bytes 0 + nth 1 bytes 0 * 2 ^ 8
   + nth 2 bytes 0 * 2 ^ 16 + nth 3 bytes 0 * 2 ^ 24)%Z.

(** The [while (s_addr != 0)] loop of [ConvertSubnetMaskToPrefixLength]; a
    32-bit value is zero after 32 shifts. *)
Fixpoint count_set_bits (rounds : nat) (addr : Z) (prefixLength : Z) : Z :=
  match rounds with
  | O => prefixLength
  | S rounds' =>
      if Z.eqb addr 0 then prefixLength
      else count_set_bits rounds' (Z.shiftr addr 1)
             (if Z.eqb (Z.land addr 1) 0 then prefixLength else prefixLength + 1)
  end.

(** [snprintf(buf, size, "%d", n)]: the string left in [buf] and the
    length of the whole number. *)
Definition snprintf_d (size : nat) (n : Z) : string * nat :=
  let s := DecimalString.NilZero.string_of_int (Z.to_int n) in
  (String.substring 0 (size - 1) s, String.length s).

(** [ConvertSubnetMaskToPrefixLength]: the result and, once [snprintf] has
    run, the string in [prefixLengthStr]. *)
Definition ConvertSubnetMaskToPrefixLength (subnetMask : string)
    (prefixLengthSz : nat) : le_result_t * option string :=
  match inet_aton subnetMask with
  | None => (LE_FAULT, None)
  | Some subnetStruct =>
      let prefixLength := count_set_bits 32 (s_addr subnetStruct) 0 in
      let '(prefixLengthStr, written) := snprintf_d prefixLengthSz prefixLength in
      if Nat.ltb prefixLengthSz written then (LE_OVERFLOW, Some prefixLengthStr)
      else (LE_OK, Some prefixLengthStr)
  end.

(** ** Changing a route *)

Definition pa_dcs_ChangeRoute (E : Env) (action : pa_dcs_RouteAction_t)
    (destAddr prefixLength interface : string) : M le_result_t :=
  emit (Ev_pa_dcs_ChangeRoute action destAddr prefixLength interface) ;;
  ret (ans_ChangeRoute E action destAddr prefixLength interface).

Definition DcsNetChangeRoute (E : Env) (destAddr : string)
    (prefixLength : option string) (interface : string) (isAdd : bool)
  : M le_result_t :=
  let action := if isAdd then PA_DCS_ROUTE_ADD else PA_DCS_ROUTE_DELETE in
  let prefixLength :=
    match prefixLength with None => EmptyString | Some p => p end in
  pa_dcs_ChangeRoute E action destAddr prefixLength interface.

(** The loops that strip leading white space; the length and the counter
    are [uint16_t]. *)
Fixpoint strip_loop (stringLen : nat) (s : string) : string :=
  match stringLen, s with
  | S n, String c s' => if isspace c then strip_loop n s' else s
  | _, _ => s
  end.

Definition strip_leading_whitespaces (s : string) : string :=
  strip_loop (Z.to_nat (to_uint16 (Z.of_nat (String.length s)))) s.

Definition prefix_out_of_range (prefixLen : Z) : bool :=
  Z.ltb prefixLen 0 || Z.ltb IPV6_PREFIX_LENGTH_MAX prefixLen.

(** The two branches of [le_net_ChangeRoute] that check the prefix length:
    an error to return, or the prefix length to go on with. *)
Definition check_prefix_IPv4 (prefixLength : option string)
  : M (le_result_t + option string) :=
  match prefixLength with
  | None => ret (inr None)
  | Some p =>
      let prefixLen := DcsConvertPrefixLengthString (Some p) in
      if prefix_out_of_range prefixLen then
        emit (Ev_LE_WARN (WARN_prefix_length_invalid p)) ;;
        if le_result_eqb (DcsNetValidateIpAddress AF_INET p) LE_OK then
          emit (Ev_LE_WARN WARN_deprecated_network_mask) ;;
          match ConvertSubnetMaskToPrefixLength p 3 with
          | (LE_OK, Some bufPrefixLength) => ret (inr (Some bufPrefixLength))
          | _ => ret (inl LE_BAD_PARAMETER)
          end
        else ret (inl LE_BAD_PARAMETER)
      else if Z.eqb prefixLen 0 then ret (inr (Some EmptyString))
      else ret (inr (Some p))
  end.

Definition check_prefix_IPv6 (prefixLength : option string)
  : M (le_result_t + option string) :=
  match prefixLength with
  | None => ret (inr None)
  | Some p =>
      let prefixLen := DcsConvertPrefixLengthString (Some p) in
      if prefix_out_of_range prefixLen then ret (inl LE_BAD_PARAMETER)
      else if Z.eqb prefixLen 0 then ret (inr (Some EmptyString))
      else ret (inr (Some p))
  end.

(** [le_net_ChangeRoute]; [None] is a NULL string. *)
Definition le_net_ChangeRoute (E : Env) (channelRef : le_dcs_ChannelRef_t)
    (destAddr prefixLength : option string) (isAdd : bool) : M le_result_t :=
  match le_dcs_GetChannelDbFromRef E channelRef with
  | None => ret LE_FAULT
  | Some channelDb =>
      if unsupported_technology (technology channelDb) then ret LE_UNSUPPORTED
      else
        match destAddr with
        | None => ret LE_BAD_PARAMETER
        | Some destAddr =>
            let destAddr := strip_leading_whitespaces destAddr in
            let prefixLength :=
              match prefixLength with
              | Some p => Some (strip_leading_whitespaces p)
              | None => None
              end in
            checked <-
              (if le_result_eqb (DcsNetValidateIpAddress AF_INET destAddr) LE_OK
               then check_prefix_IPv4 prefixLength
               else if le_result_eqb (DcsNetValidateIpAddress AF_INET6 destAddr) LE_OK
               then check_prefix_IPv6 prefixLength
               else ret (inl LE_BAD_PARAMETER)) ;;
            match checked with
            | inl e => ret e
            | inr prefixLength =>
                ' (r, intfName) <-
                  le_dcsTech_GetNetInterface E (technology channelDb) channelRef ;;
                if negb (le_result_eqb r LE_OK) then ret r
                else DcsNetChangeRoute E destAddr prefixLength intfName isAdd
            end
        end
  end.

(** ** Setting and restoring the DNS servers *)

(** Modelled from the spec: [pa_dcs_DnsBackup_t] (declared in [pa_dcs.h],
    not in this file) is the record of the name servers last installed: two
    slots of each family, each a bounded string. dcsNet.c writes a slot
    with [le_utf8_Copy] only, so a slot holds a C string. *)
Record pa_dcs_DnsBackup_t : Type := {
  newDnsIPv4 : string * string;
  newDnsIPv6 : string * string
}.

(** Modelled from the spec: the collaborators of the DNS operations (not in
    this file). [pa_dcs_SetDnsNameServers] takes two addresses and returns a
    result; its answer is given for each of the two calls that one
    operation can make, the call for the IPv6 and the call for the IPv4
    servers. [le_dcsTech_GetDNSAddresses] returns a result and leaves bytes
    in the two arrays of two rows. [pa_dcs_RestoreInitialDnsNameServers] is
    handed a pointer to the record, and leaves what it leaves in it. *)
Record DnsEnv : Type := {
  ans_SetDnsNameServers : bool -> string -> string -> le_result_t;
  ans_GetDNSAddresses :
    le_dcs_Technology_t -> N ->
    le_result_t * list (list ascii) * list (list ascii);
  ans_RestoreInitialDnsNameServers : pa_dcs_DnsBackup_t -> pa_dcs_DnsBackup_t
}.

(** The calls of the DNS operations, beside those that any operation makes.
    A call to set name servers carries the family of the [DcsNetSetDNS]
    that made it. *)
Inductive DnsEvent : Type :=
| Ev_dcs (e : Event)
| Ev_pa_dcs_SetDnsNameServers (isIpv6 : bool) (dns1Addr dns2Addr : string)
| Ev_le_dcsTech_GetDNSAddresses (tech : le_dcs_Technology_t) (ref : N)
| Ev_pa_dcs_RestoreInitialDnsNameServers (backup : pa_dcs_DnsBackup_t).

(** The DNS operations read and update the record [DnsBackup] beside the
    list of gateway backups. *)
Definition MD (A : Type) : Type :=
  pa_dcs_DnsBackup_t -> State ->
  option (A * pa_dcs_DnsBackup_t * State * list DnsEvent).

Definition retD {A : Type} (a : A) : MD A := fun b st => Some (a, b, st, []).

Definition bindD {A B : Type} (m : MD A) (k : A -> MD B) : MD B :=
  fun b st =>
    match m b st with
    | None => None
    | Some (a, b1, st1, ev1) =>
        match k a b1 st1 with
        | None => None
        | Some (x, b2, st2, ev2) => Some (x, b2, st2, ev1 ++ ev2)
        end
    end.

Definition liftD {A : Type} (m : M A) : MD A :=
  fun b st =>
    match m st with
    | None => None
    | Some (a, st1, ev) => Some (a, b, st1, map Ev_dcs ev)
    end.

Definition getD : MD pa_dcs_DnsBackup_t := fun b st => Some (b, b, st, []).
Definition putD (b : pa_dcs_DnsBackup_t) : MD unit :=
  fun _ st => Some (tt, b, st, []).
Definition emitD (e : DnsEvent) : MD unit := fun b st => Some (tt, b, st, [e]).
Definition undefinedD {A : Type} : MD A := fun _ _ => None.

Declare Scope dns_scope.
Delimit Scope dns_scope with dns.
Notation "x <- m ;; k" := (bindD m (fun x => k))
  (at level 61, m at next level, right associativity) : dns_scope.
Notation "m ;; k" := (bindD m (fun _ => k))
  (at level 61, right associativity) : dns_scope.
Notation "' pat <- m ;; k" :=
  (bindD m (fun x => match x with pat => k end))
  (at level 61, pat pattern, m at next level, right associativity) : dns_scope.

Definition pa_dcs_SetDnsNameServers (D : DnsEnv) (isIpv6 : bool)
    (dns1Addr dns2Addr : string) : MD le_result_t :=
  (emitD (Ev_pa_dcs_SetDnsNameServers isIpv6 dns1Addr dns2Addr) ;;
   retD (ans_SetDnsNameServers D isIpv6 dns1Addr dns2Addr))%dns.

Definition le_dcsTech_GetDNSAddresses (D : DnsEnv) (tech : le_dcs_Technology_t)
    (ref : N) : MD (le_result_t * list (list ascii) * list (list ascii)) :=
  (emitD (Ev_le_dcsTech_GetDNSAddresses tech ref) ;;
   retD (ans_GetDNSAddresses D tech ref))%dns.

(** [DcsNetSetDNS]: the adapter is asked first; the record is written only
    after [LE_OK], and only the two slots of the family. *)
Definition DcsNetSetDNS (D : DnsEnv) (isIpv6 : bool)
    (dns1Addr dns2Addr : string) (dnsAddrSize : nat) : MD le_result_t :=
  (r <- pa_dcs_SetDnsNameServers D isIpv6 dns1Addr dns2Addr ;;
   if le_result_eqb r LE_DUPLICATE then retD r
   else if negb (le_result_eqb r LE_OK) then retD r
   else
     DnsBackup <- getD ;;
     let slots := (copied (le_utf8_Copy dns1Addr dnsAddrSize),
                   copied (le_utf8_Copy dns2Addr dnsAddrSize)) in
     putD (if isIpv6
           then {| newDnsIPv4 := newDnsIPv4 DnsBackup; newDnsIPv6 := slots |}
           else {| newDnsIPv4 := slots; newDnsIPv6 := newDnsIPv6 DnsBackup |}) ;;
     retD r)%dns.

(** [le_net_SetDNS]. Each of the four rows is read as a C string, by one of
    the [strlen] tests or by the adapter that is handed it. *)
Definition le_net_SetDNS (E : Env) (D : DnsEnv)
    (channelRef : le_dcs_ChannelRef_t) : MD le_result_t :=
  match le_dcs_GetChannelDbFromRef E channelRef with
  | None => retD LE_FAULT
  | Some channelDb =>
      if unsupported_technology (technology channelDb) then retD LE_UNSUPPORTED
      else
        (fetched <-
           (if Z.eqb (technology channelDb) LE_DCS_TECH_CELLULAR then
              r <- le_dcsTech_GetDNSAddresses D (technology channelDb)
                     (techRef channelDb) ;;
              retD (inr r)
            else
              ' (r, intf) <-
                liftD (le_dcsTech_GetNetInterface E (technology channelDb)
                         channelRef) ;;
              if negb (le_result_eqb r LE_OK) then retD (inl LE_FAULT)
              else
                r <- liftD
                       (GetLeaseAddresses E intf LE_NET_DNS_SERVER_ADDRESS
                          (zero_rows PA_DCS_IPV4_ADDR_MAX_BYTES 2)
                          PA_DCS_IPV4_ADDR_MAX_BYTES
                          (zero_rows PA_DCS_IPV6_ADDR_MAX_BYTES 2)
                          PA_DCS_IPV6_ADDR_MAX_BYTES
                          MAX_NUM_DNS_ADDRESS_BY_TYPE) ;;
                retD (inr r)) ;;
         match fetched with
         | inl e => retD e
         | inr (r, v4DnsAddrs, v6DnsAddrs) =>
             if negb (le_result_eqb r LE_OK) then retD r
             else
               match row_str v4DnsAddrs 0, row_str v4DnsAddrs 1,
                     row_str v6DnsAddrs 0, row_str v6DnsAddrs 1 with
               | Some a1, Some a2, Some b1, Some b2 =>
                   if Nat.eqb (String.length a1) 0
                      && Nat.eqb (String.length a2) 0
                      && Nat.eqb (String.length b1) 0
                      && Nat.eqb (String.length b2) 0
                   then retD LE_FAULT
                   else
                     v6Ret <-
                       (if Nat.ltb 0 (String.length b1)
                           || Nat.ltb 0 (String.length b2)
                        then DcsNetSetDNS D true b1 b2 PA_DCS_IPV6_ADDR_MAX_BYTES
                        else retD LE_FAULT) ;;
                     v4Ret <-
                       (if Nat.ltb 0 (String.length a1)
                           || Nat.ltb 0 (String.length a2)
                        then DcsNetSetDNS D false a1 a2 PA_DCS_IPV4_ADDR_MAX_BYTES
                        else retD LE_FAULT) ;;
                     if le_result_eqb v4Ret LE_DUPLICATE
                        || le_result_eqb v6Ret LE_DUPLICATE
                     then retD LE_DUPLICATE
                     else if le_result_eqb v4Ret LE_OK
                             || le_result_eqb v6Ret LE_OK
                     then retD LE_OK
                     else retD LE_FAULT
               | _, _, _, _ => undefinedD
               end
         end)%dns
  end.

(** [le_net_RestoreDNS]: the adapter is handed the record. *)
Definition le_net_RestoreDNS (D : DnsEnv) : MD unit :=
  (DnsBackup <- getD ;;
   emitD (Ev_pa_dcs_RestoreInitialDnsNameServers DnsBackup) ;;
   putD (ans_RestoreInitialDnsNameServers D DnsBackup))%dns.

(** ** Sequences of gateway operations *)

Inductive Op : Type :=
| OpBackup (E : Env)
| OpSet (E : Env) (channelRef : le_dcs_ChannelRef_t)
| OpRestore (E : Env).

Definition op_session (o : Op) : le_msg_SessionRef_t :=
  match o with
  | OpBackup E | OpSet E _ | OpRestore E => DcsNetGetSessionRef E
  end.

Definition step (o : Op) : M unit :=
  match o with
  | OpBackup E => le_net_BackupDefaultGW E
  | OpSet E channelRef => _ <- le_net_SetDefaultGW E channelRef ;; ret tt
  | OpRestore E => _ <- le_net_RestoreDefaultGW E ;; ret tt
  end.

Fixpoint run (ops : list Op) : M unit :=
  match ops with
  | [] => ret tt
  | o :: ops' => step o ;; run ops'
  end.

End DcsNet.

(** * Properties *)

(** ** Vocabulary of the statements *)

(** The backups of a session that are on the list. *)
Definition snapshots_of (ref : le_msg_SessionRef_t) (l : State) : State :=
  filter (fun d => N.eqb (appSessionRef d) ref) l.

(** The backup that [GetDefaultGwConfigDb] finds for a session. *)
Definition snapshot_of (ref : le_msg_SessionRef_t) (l : State)
  : option DcsDefaultGwConfigDb_t :=
  match GetDefaultGwConfigDb_scan ref l with
  | Some (_, d) => Some d
  | None => None
  end.

(** The list without the backup that [GetDefaultGwConfigDb] finds. *)
Definition without_snapshot_of (ref : le_msg_SessionRef_t) (l : State) : State :=
  match GetDefaultGwConfigDb_scan ref l with
  | Some (link, _) => le_dls_Remove l link
  | None => l
  end.

(** The archived gateway, interface and flag of one family. *)
Definition archived_gw (isIpv6 : bool) (d : DcsDefaultGwConfigDb_t) : string :=
  if isIpv6 then defaultV6GW d else defaultV4GW d.

Definition archived_intf (isIpv6 : bool) (d : DcsDefaultGwConfigDb_t) : string :=
  if isIpv6 then defaultV6Interface d else defaultV4Interface d.

Definition installed (isIpv6 : bool) (d : DcsDefaultGwConfigDb_t) : bool :=
  if isIpv6 then setV6GwToSystem d else setV4GwToSystem d.

(** The calls to [pa_dcs_SetDefaultGateway] among events, all of them or
    those of one family. *)
Definition is_set_call (e : Event) : bool :=
  match e with
  | Ev_pa_dcs_SetDefaultGateway _ _ _ => true
  | _ => false
  end.

Definition is_set_call_for (isIpv6 : bool) (e : Event) : bool :=
  match e with
  | Ev_pa_dcs_SetDefaultGateway _ _ f => Bool.eqb f isIpv6
  | _ => false
  end.

Definition is_change_route_call (e : Event) : bool :=
  match e with
  | Ev_pa_dcs_ChangeRoute _ _ _ _ => true
  | _ => false
  end.

Definition is_technology_query (e : Event) : bool :=
  match e with
  | Ev_le_dcsTech_GetDefaultGWAddress _ _ => true
  | _ => false
  end.

(** An operation that is a backup or a restore of the given session. *)
Definition backup_or_restore_by (ref : le_msg_SessionRef_t) (o : Op) : bool :=
  match o with
  | OpBackup E | OpRestore E => N.eqb (DcsNetGetSessionRef E) ref
  | OpSet _ _ => false
  end.

Definition set_by (ref : le_msg_SessionRef_t) (o : Op) : bool :=
  match o with
  | OpSet E _ => N.eqb (DcsNetGetSessionRef E) ref
  | _ => false
  end.

(** At most one backup per session. *)
Definition one_per_session (l : State) : Prop :=
  forall ref, List.length (snapshots_of ref l) <= 1.

(** The backup that [le_net_BackupDefaultGW] leaves at the start of the
    list. *)
Definition backed_up (ref : le_msg_SessionRef_t) (gw : DefaultGateway_t)
  : DcsDefaultGwConfigDb_t :=
  {| appSessionRef := ref;
     defaultV4GW := gwV4GW gw; defaultV4Interface := gwV4Interface gw;
     defaultV6GW := gwV6GW gw; defaultV6Interface := gwV6Interface gw;
     setV4GwToSystem := false; setV6GwToSystem := false |}.

(** What [le_net_RestoreDefaultGW] asks and answers for a backup found. *)
Definition restore_events (d : DcsDefaultGwConfigDb_t) (isRecent : bool)
  : list Event :=
  (if isRecent then [] else [Ev_LE_WARN WARN_restored_out_of_order])
  ++ (if setV4GwToSystem d
      then [Ev_pa_dcs_SetDefaultGateway (defaultV4Interface d) (defaultV4GW d) false]
      else [])
  ++ (if setV6GwToSystem d
      then [Ev_pa_dcs_SetDefaultGateway (defaultV6Interface d) (defaultV6GW d) true]
      else []).

Definition restore_result (E : Env) (d : DcsDefaultGwConfigDb_t) : le_result_t :=
  let v4Result :=
    if setV4GwToSystem d
    then ans_SetDefaultGateway E (defaultV4Interface d) (defaultV4GW d) false
    else LE_OK in
  let v6Result :=
    if setV6GwToSystem d
    then ans_SetDefaultGateway E (defaultV6Interface d) (defaultV6GW d) true
    else LE_OK in
  if le_result_eqb v4Result LE_OK || le_result_eqb v6Result LE_OK
  then LE_OK else LE_FAULT.

(** The flags that [le_net_SetDefaultGW] may raise in the caller's backup. *)
Definition raise (b4 b6 : bool) (d : DcsDefaultGwConfigDb_t)
  : DcsDefaultGwConfigDb_t :=
  {| appSessionRef := appSessionRef d;
     defaultV4GW := defaultV4GW d; defaultV4Interface := defaultV4Interface d;
     defaultV6GW := defaultV6GW d; defaultV6Interface := defaultV6Interface d;
     setV4GwToSystem := setV4GwToSystem d || b4;
     setV6GwToSystem := setV6GwToSystem d || b6 |}.

Definition raise_flags (ref : le_msg_SessionRef_t) (b4 b6 : bool) (l : State)
  : State :=
  match GetDefaultGwConfigDb_scan ref l with
  | Some (link, _) => update_at l link (raise b4 b6)
  | None => l
  end.

(** One flag stored through a pointer, when [b]. *)
Definition mark (isIpv6 b : bool) (link : nat) (l : State) : State :=
  if b then
    update_at l link (fun d => if isIpv6 then with_setV6GwToSystem d true
                               else with_setV4GwToSystem d true)
  else l.

Definition no_set_call (ev : list Event) : Prop :=
  forall intf gw f, ~ In (Ev_pa_dcs_SetDefaultGateway intf gw f) ev.

(** No backup of the session is marked as installed. *)
Definition nothing_installed (ref : le_msg_SessionRef_t) (l : State) : Prop :=
  forall d, In d l -> appSessionRef d = ref ->
            setV4GwToSystem d = false /\ setV6GwToSystem d = false.

(** The session has a backup that archives, for one family, the gateway and
    the interface of [d0], and that is marked as installed for it. *)
Definition restorable (ref : le_msg_SessionRef_t) (isIpv6 : bool)
    (d0 : DcsDefaultGwConfigDb_t) (l : State) : Prop :=
  exists d, snapshot_of ref l = Some d
            /\ archived_gw isIpv6 d = archived_gw isIpv6 d0
            /\ archived_intf isIpv6 d = archived_intf isIpv6 d0
            /\ installed isIpv6 d = true.

(** The string begins, after white space and an optional sign, with a
    decimal digit: [strtol] finds a number to convert. *)
Definition starts_with_digit (s : string) : bool :=
  match s with
  | String c _ => isdigit c
  | EmptyString => false
  end.

Definition starts_with_number (s : string) : bool :=
  match skip_isspace s with
  | String c s' =>
      if Ascii.eqb c "-" || Ascii.eqb c "+" then starts_with_digit s'
      else isdigit c
  | EmptyString => false
  end.

(** The number of bits set among the [n] low bits of [v]. *)
Definition popcount (n : nat) (v : Z) : Z :=
  fold_right Z.add 0%Z
    (map (fun i => Z.b2z (Z.testbit v (Z.of_nat i))) (seq 0 n)).

Definition route_action (isAdd : bool) : pa_dcs_RouteAction_t :=
  if isAdd then PA_DCS_ROUTE_ADD else PA_DCS_ROUTE_DELETE.


(** A token is taken for an IPv6 address when it holds a colon. *)
Definition has_colon (token : string) : bool :=
  match strchr token colon with None => false | Some _ => true end.

(** The tokens that successive calls of [strtok_r] cut out of a string. *)
Fixpoint tokens_upto (fuel : nat) (rest : string) : list string :=
  match fuel with
  | O => []
  | S fuel' =>
      match strtok_r rest with
      | None => []
      | Some (token, rest') => token :: tokens_upto fuel' rest'
      end
  end.

Definition tokens (s : string) : list string :=
  tokens_upto (S (String.length s)) s.

(** The rows of an address array once the tokens of its family were copied
    to it, one per row from row [cnt] on, while a row is left. *)
Fixpoint fill_rows (size numAddresses : nat) (rows : list (list ascii))
    (cnt : nat) (toks : list string) : list (list ascii) :=
  match toks with
  | [] => rows
  | token :: toks' =>
      if Nat.ltb cnt numAddresses
      then fill_rows size numAddresses
             (set_row rows cnt (strncpy token size)) (S cnt) toks'
      else rows
  end.

(** The events of the lease file parser. *)
Definition is_lease_event (e : Event) : bool :=
  match e with
  | Ev_pa_dcs_GetDhcpLeaseFilePath _ | Ev_le_flock_TryOpenStream _ => true
  | _ => false
  end.

(** ** A small system to run the operations on

    Two client sessions on one Ethernet-like channel whose lease file names
    the router [10.0.0.1] and two DNS servers; the enumerators and widths
    are those of the framework's headers. *)

Definition example_lease_file : string :=
  "routers 10.0.0.1;" ++ String newline
    ("domain-name-servers 1.1.1.1 8.8.8.8;" ++ String newline "").

Definition example_channel (tech : le_dcs_Technology_t) : le_dcs_channelDb_t :=
  {| channelName := "ch1"; technology := tech; techRef := 5%N |}.

Definition example_env (session : le_msg_SessionRef_t)
    (set_answer : le_result_t) (tech : le_dcs_Technology_t) : Env :=
  {| le_net_GetClientSessionRef := session;
     ans_GetDefaultGateway :=
       {| gwV4GW := "10.0.0.1"; gwV4Interface := "eth0";
          gwV6GW := "fe80::1"; gwV6Interface := "eth0";
          gwV4Result := LE_OK; gwV6Result := LE_OK |};
     ans_SetDefaultGateway := fun _ _ _ => set_answer;
     ans_ChangeRoute := fun _ _ _ _ => LE_OK;
     ans_GetDhcpLeaseFilePath := fun intf => (LE_OK, ("/var/run/" ++ intf)%string);
     ans_TryOpenStream := fun _ => (Some example_lease_file, LE_OK);
     ans_GetChannelDbFromRef := fun _ => Some (example_channel tech);
     ans_GetNetInterface := fun _ _ => (LE_OK, "eth0");
     ans_GetDefaultGWAddress := fun _ _ => (LE_OK, "192.0.2.1", "2001:db8::1") |}.

(** Sessions 7 and 9 on a channel of technology 1, which is neither
    unknown (0) nor cellular (2). *)
Definition example_A : Env := example_env 7%N LE_OK 1%Z.
Definition example_B : Env := example_env 9%N LE_OK 1%Z.

(** Session 7 on a cellular channel, and with an adapter that fails. *)
Definition example_A_cellular : Env := example_env 7%N LE_OK 2%Z.
Definition example_A_failing : Env := example_env 7%N LE_FAULT 2%Z.


(** The backup of a session in this system, with its two flags. *)
Definition example_snapshot_of (session : le_msg_SessionRef_t)
    (v4_installed v6_installed : bool) : DcsDefaultGwConfigDb_t :=
  {| appSessionRef := session;
     defaultV4GW := "10.0.0.1"; defaultV4Interface := "eth0";
     defaultV6GW := "fe80::1"; defaultV6Interface := "eth0";
     setV4GwToSystem := v4_installed; setV6GwToSystem := v6_installed |}.

Definition example_snapshot (v4_installed : bool) : DcsDefaultGwConfigDb_t :=
  example_snapshot_of 7%N v4_installed false.

(** A recogniser of two IPv6 literals, to stand for libc's. *)
Definition example_inet_pton6 (s : string) : bool :=
  String.eqb s "2001:db8::" || String.eqb s "fe80::1".

(** ** Vocabulary of the further properties *)

(** What a store through [le_net_SetDefaultGW] may make of a backup: the
    same session and archive, no flag cleared, and no change at all unless
    the backup is one of the session [ref]. *)
Definition flags_raised_for (ref : le_msg_SessionRef_t)
    (d d' : DcsDefaultGwConfigDb_t) : Prop :=
  appSessionRef d' = appSessionRef d
  /\ defaultV4GW d' = defaultV4GW d
  /\ defaultV4Interface d' = defaultV4Interface d
  /\ defaultV6GW d' = defaultV6GW d
  /\ defaultV6Interface d' = defaultV6Interface d
  /\ (setV4GwToSystem d = true -> setV4GwToSystem d' = true)
  /\ (setV6GwToSystem d = true -> setV6GwToSystem d' = true)
  /\ (d' <> d -> appSessionRef d = ref).

(** The events that the source of the addresses allows: a cellular channel
    does not go to the lease file, another one does not ask the
    technology. *)
(** A call to set a gateway that the adapter answers with [LE_OK]. *)
Definition accepted (E : Env) (e : Event) : bool :=
  match e with
  | Ev_pa_dcs_SetDefaultGateway intf gw f =>
      le_result_eqb (ans_SetDefaultGateway E intf gw f) LE_OK
  | _ => false
  end.

Definition allowed_source (cellular : bool) (e : Event) : bool :=
  if cellular then negb (is_lease_event e) else negb (is_technology_query e).

(** An array of [numAddresses] rows of [size] bytes each. *)
Definition rows_shape (size numAddresses : nat) (rows : list (list ascii))
  : Prop :=
  List.length rows = numAddresses
  /\ Forall (fun r => List.length r = size) rows.

(** A number as [printf("%d")] writes it. *)
Definition decimal (n : nat) : string :=
  DecimalString.NilZero.string_of_int (Z.to_int (Z.of_nat n)).

Definition is_warning (e : Event) : bool :=
  match e with
  | Ev_LE_WARN _ => true
  | _ => false
  end.

(** The two slots of a family in the record of name servers. *)
Definition slots (isIpv6 : bool) (b : pa_dcs_DnsBackup_t) : string * string :=
  if isIpv6 then newDnsIPv6 b else newDnsIPv4 b.

(** The calls to [pa_dcs_SetDnsNameServers] among events, all of them,
    those of one family, and those that the adapter answers with [r]. *)
Definition is_set_dns_call (e : DnsEvent) : bool :=
  match e with
  | Ev_pa_dcs_SetDnsNameServers _ _ _ => true
  | _ => false
  end.

Definition is_set_dns_call_for (isIpv6 : bool) (e : DnsEvent) : bool :=
  match e with
  | Ev_pa_dcs_SetDnsNameServers f _ _ => Bool.eqb f isIpv6
  | _ => false
  end.

Definition dns_answered (D : DnsEnv) (r : le_result_t) (e : DnsEvent) : bool :=
  match e with
  | Ev_pa_dcs_SetDnsNameServers f dns1 dns2 =>
      le_result_eqb (ans_SetDnsNameServers D f dns1 dns2) r
  | _ => false
  end.

(** The width of the rows of a family in [le_net_SetDNS]. *)
Definition dns_row_width (v4Size v6Size : nat) (isIpv6 : bool) : nat :=
  if isIpv6 then v6Size else v4Size.

(** What the adapter reported at the last backup of a session that no
    restore of the session has followed, over a sequence of operations;
    [cur] is the same for the operations before. *)
Fixpoint last_backup (ref : le_msg_SessionRef_t) (ops : list Op)
    (cur : option DefaultGateway_t) : option DefaultGateway_t :=
  match ops with
  | [] => cur
  | OpBackup E :: ops' =>
      last_backup ref ops'
        (if N.eqb (DcsNetGetSessionRef E) ref
         then Some (ans_GetDefaultGateway E) else cur)
  | OpRestore E :: ops' =>
      last_backup ref ops'
        (if N.eqb (DcsNetGetSessionRef E) ref then None else cur)
  | OpSet _ _ :: ops' => last_backup ref ops' cur
  end.

(** The list holds for the session what [cur] says: no backup, or one that
    archives the gateways and interfaces of a report of the adapter. *)
Definition holds_backup (ref : le_msg_SessionRef_t)
    (cur : option DefaultGateway_t) (l : State) : Prop :=
  match cur with
  | None => snapshot_of ref l = None
  | Some gw =>
      exists d, snapshot_of ref l = Some d
                /\ forall isIpv6,
                     archived_gw isIpv6 d = archived_gw isIpv6 (backed_up ref gw)
                     /\ archived_intf isIpv6 d
                        = archived_intf isIpv6 (backed_up ref gw)
  end.

(** A string without NUL, space, semicolon or colon: what an IPv4 address
    of a lease file is made of. *)
Fixpoint plain (t : string) : bool :=
  match t with
  | EmptyString => true
  | String c t' =>
      negb (Ascii.eqb c NUL) && negb (Ascii.eqb c space)
      && negb (Ascii.eqb c semicolon) && negb (Ascii.eqb c colon)
      && plain t'
  end.

(** ** More of the small system

    Session 7 on a channel whose lease file names two DNS servers and no
    router; and a cellular channel whose technology gives one DNS server of
    each family, with an adapter that installs the IPv4 server and finds the
    IPv6 server already installed. *)

Definition example_A_no_router : Env :=
  {| le_net_GetClientSessionRef := le_net_GetClientSessionRef example_A;
     ans_GetDefaultGateway := ans_GetDefaultGateway example_A;
     ans_SetDefaultGateway := ans_SetDefaultGateway example_A;
     ans_ChangeRoute := ans_ChangeRoute example_A;
     ans_GetDhcpLeaseFilePath := ans_GetDhcpLeaseFilePath example_A;
     ans_TryOpenStream :=
       fun _ => (Some ("domain-name-servers 1.1.1.1 8.8.8.8;"
                       ++ String newline "")%string, LE_OK);
     ans_GetChannelDbFromRef := ans_GetChannelDbFromRef example_A;
     ans_GetNetInterface := ans_GetNetInterface example_A;
     ans_GetDefaultGWAddress := ans_GetDefaultGWAddress example_A |}.

Definition example_dns : DnsEnv :=
  {| ans_SetDnsNameServers :=
       fun isIpv6 _ _ => if isIpv6 then LE_DUPLICATE else LE_OK;
     ans_GetDNSAddresses :=
       fun _ _ => (LE_OK,
                   [strncpy "192.0.2.53" 16; repeat NUL 16],
                   [strncpy "2001:db8::53" 46; repeat NUL 46]);
     ans_RestoreInitialDnsNameServers := fun b => b |}.

Definition example_DnsBackup : pa_dcs_DnsBackup_t :=
  {| newDnsIPv4 := ("198.51.100.1", ""); newDnsIPv6 := ("", "") |}.

(** ** The monad *)

Lemma bind_inv {A B : Type} (m : M A) (k : A -> M B) st b st2 ev :
  bind m k st = Some (b, st2, ev) ->
  exists a st1 ev1 ev2,
    m st = Some (a, st1, ev1) /\ k a st1 = Some (b, st2, ev2) /\ ev = ev1 ++ ev2.
Proof.
  unfold bind. destruct (m st) as [[[a st1] ev1]|]; [|discriminate].
  destruct (k a st1) as [[[b' st2'] ev2]|] eqn:Hk; [|discriminate].
  intros H. inversion H; subst. exists a, st1, ev1, ev2. auto.
Qed.

Lemma bind_eq {A B : Type} (m : M A) (k : A -> M B) st a st1 ev1 :
  m st = Some (a, st1, ev1) ->
  bind m k st =
  match k a st1 with
  | Some (b, st2, ev2) => Some (b, st2, ev1 ++ ev2)
  | None => None
  end.
Proof. intros H. unfold bind. rewrite H. reflexivity. Qed.

(** ** The list *)

Lemma le_dls_Remove_head d l : le_dls_Remove (d :: l) 0 = l.
Proof. reflexivity. Qed.

Lemma le_dls_Remove_tail d l i :
  le_dls_Remove (d :: l) (S i) = d :: le_dls_Remove l i.
Proof. reflexivity. Qed.

Lemma scan_found ref l i d :
  GetDefaultGwConfigDb_scan ref l = Some (i, d) ->
  appSessionRef d = ref /\ In d l.
Proof.
  revert i. induction l as [|x l IH]; simpl; intros i H; [discriminate|].
  destruct (N.eqb_spec (appSessionRef x) ref) as [Hx|Hx].
  - inversion H; subst. auto.
  - destruct (GetDefaultGwConfigDb_scan ref l) as [[j d']|]; [|discriminate].
    inversion H; subst. destruct (IH j eq_refl). auto.
Qed.

Lemma scan_none ref l :
  GetDefaultGwConfigDb_scan ref l = None -> snapshots_of ref l = [].
Proof.
  induction l as [|x l IH]; simpl; intros H; [reflexivity|].
  destruct (N.eqb (appSessionRef x) ref); [discriminate|].
  destruct (GetDefaultGwConfigDb_scan ref l) as [[j d']|]; [discriminate|].
  auto.
Qed.

Lemma snapshots_none_scan ref l :
  snapshots_of ref l = [] -> GetDefaultGwConfigDb_scan ref l = None.
Proof.
  induction l as [|x l IH]; simpl; intros H; [reflexivity|].
  destruct (N.eqb (appSessionRef x) ref); [discriminate|].
  rewrite (IH H). reflexivity.
Qed.

Lemma In_le_dls_Remove d l i : In d (le_dls_Remove l i) -> In d l.
Proof.
  revert i. induction l as [|x l IH]; intros [|i] H.
  - exact H.
  - exact H.
  - rewrite le_dls_Remove_head in H. right; exact H.
  - rewrite le_dls_Remove_tail in H. destruct H as [H|H]; [left|right]; eauto.
Qed.

Lemma In_without_snapshot_of d ref l : In d (without_snapshot_of ref l) -> In d l.
Proof.
  unfold without_snapshot_of.
  destruct (GetDefaultGwConfigDb_scan ref l) as [[i x]|]; [|auto].
  apply In_le_dls_Remove.
Qed.

(** Removing the backup found for a session takes one backup of that
    session away and leaves those of the other sessions. *)
Lemma snapshots_of_removed ref l i d :
  GetDefaultGwConfigDb_scan ref l = Some (i, d) ->
  List.length (snapshots_of ref l)
  = S (List.length (snapshots_of ref (le_dls_Remove l i))).
Proof.
  revert i. induction l as [|x l IH]; simpl; intros i H; [discriminate|].
  destruct (N.eqb (appSessionRef x) ref) eqn:Hx.
  - inversion H; subst. rewrite le_dls_Remove_head. reflexivity.
  - destruct (GetDefaultGwConfigDb_scan ref l) as [[j d']|]; [|discriminate].
    inversion H; subst. rewrite le_dls_Remove_tail. simpl. rewrite Hx.
    apply IH. reflexivity.
Qed.

Lemma snapshots_of_removed_other ref ref' l i d :
  ref' <> ref ->
  GetDefaultGwConfigDb_scan ref' l = Some (i, d) ->
  snapshots_of ref (le_dls_Remove l i) = snapshots_of ref l.
Proof.
  intros Hne. revert i. induction l as [|x l IH]; simpl; intros i H; [discriminate|].
  destruct (N.eqb_spec (appSessionRef x) ref') as [Hx|Hx].
  - inversion H; subst. rewrite le_dls_Remove_head.
    destruct (N.eqb_spec (appSessionRef d) ref); [contradiction|reflexivity].
  - destruct (GetDefaultGwConfigDb_scan ref' l) as [[j d']|]; [|discriminate].
    inversion H; subst. rewrite le_dls_Remove_tail. simpl.
    rewrite (IH j eq_refl). reflexivity.
Qed.

Lemma snapshots_of_without ref ref' l :
  List.length (snapshots_of ref (without_snapshot_of ref' l))
  <= List.length (snapshots_of ref l).
Proof.
  unfold without_snapshot_of.
  destruct (GetDefaultGwConfigDb_scan ref' l) as [[i d]|] eqn:H; [|lia].
  destruct (N.eq_dec ref' ref) as [->|Hne].
  - rewrite (snapshots_of_removed _ _ _ _ H). lia.
  - rewrite (snapshots_of_removed_other _ _ _ _ _ Hne H). lia.
Qed.

Lemma snapshots_of_without_same ref l :
  List.length (snapshots_of ref l) <= 1 ->
  snapshots_of ref (without_snapshot_of ref l) = [].
Proof.
  unfold without_snapshot_of. intros Hle.
  destruct (GetDefaultGwConfigDb_scan ref l) as [[i d]|] eqn:H.
  - rewrite (snapshots_of_removed _ _ _ _ H) in Hle.
    apply length_zero_iff_nil. lia.
  - apply scan_none; assumption.
Qed.

(** A store through a pointer keeps every session reference when the
    stored value keeps it. *)
Lemma snapshots_of_update_at ref l i f :
  (forall d, appSessionRef (f d) = appSessionRef d) ->
  List.length (snapshots_of ref (update_at l i f))
  = List.length (snapshots_of ref l).
Proof.
  intros Hf. revert i. induction l as [|x l IH]; intros [|i]; simpl; auto.
  - rewrite Hf. destruct (N.eqb (appSessionRef x) ref); reflexivity.
  - destruct (N.eqb (appSessionRef x) ref); simpl; rewrite IH; reflexivity.
Qed.

(** ** Backup and restore, in closed form *)

Lemma le_net_BackupDefaultGW_eq E l :
  le_net_BackupDefaultGW E l =
  Some (tt,
        backed_up (DcsNetGetSessionRef E) (ans_GetDefaultGateway E)
          :: without_snapshot_of (DcsNetGetSessionRef E) l,
        [Ev_pa_dcs_GetDefaultGateway]).
Proof.
  unfold le_net_BackupDefaultGW, InsertDefaultGwBackupDb, pa_dcs_GetDefaultGateway,
    GetDefaultGwConfigDb, without_snapshot_of, backed_up, le_dls_Stack,
    bind, emit, ret, get, put.
  destruct (GetDefaultGwConfigDb_scan (DcsNetGetSessionRef E) l) as [[i d]|] eqn:H;
    simpl.
  - destruct (scan_found _ _ _ _ H) as [-> _].
    destruct (_ && _); destruct (_ && _); reflexivity.
  - reflexivity.
Qed.

Lemma le_net_RestoreDefaultGW_eq E l :
  le_net_RestoreDefaultGW E l =
  match GetDefaultGwConfigDb_scan (DcsNetGetSessionRef E) l with
  | Some (i, d) =>
      Some (restore_result E d, le_dls_Remove l i, restore_events d (Nat.eqb i 0))
  | None => Some (LE_NOT_FOUND, l, [])
  end.
Proof.
  unfold le_net_RestoreDefaultGW, GetDefaultGwConfigDb, restore_result,
    restore_events, le_mem_Release, DcsDefaultGwConfigDbDestructor,
    pa_dcs_SetDefaultGateway, when, bind, emit, ret, get, put.
  destruct (GetDefaultGwConfigDb_scan (DcsNetGetSessionRef E) l) as [[i d]|];
    [|reflexivity].
  destruct (Nat.eqb i 0), (setV4GwToSystem d), (setV6GwToSystem d); simpl;
    try reflexivity;
    try destruct (ans_SetDefaultGateway E (defaultV4Interface d) (defaultV4GW d) false);
    try destruct (ans_SetDefaultGateway E (defaultV6Interface d) (defaultV6GW d) true);
    reflexivity.
Qed.

Section Properties.

Variables PA_DCS_IPV4_ADDR_MAX_BYTES PA_DCS_IPV6_ADDR_MAX_BYTES : nat.
Variables sizeof_ipv4Addr sizeof_ipv6Addr : nat.
Variables LE_DCS_TECH_UNKNOWN LE_DCS_TECH_CELLULAR LE_DCS_TECH_MAX : le_dcs_Technology_t.
Variable inet_pton_AF_INET6 : string -> bool.

Local Abbreviation GetDhcpLeaseFileEntry' :=
  (GetDhcpLeaseFileEntry PA_DCS_IPV4_ADDR_MAX_BYTES PA_DCS_IPV6_ADDR_MAX_BYTES).
Local Abbreviation GetLeaseAddresses' :=
  (GetLeaseAddresses PA_DCS_IPV4_ADDR_MAX_BYTES PA_DCS_IPV6_ADDR_MAX_BYTES).
Local Abbreviation le_net_SetDefaultGW' :=
  (le_net_SetDefaultGW PA_DCS_IPV4_ADDR_MAX_BYTES PA_DCS_IPV6_ADDR_MAX_BYTES
     LE_DCS_TECH_UNKNOWN LE_DCS_TECH_CELLULAR LE_DCS_TECH_MAX).
Local Abbreviation le_net_GetDefaultGW' :=
  (le_net_GetDefaultGW PA_DCS_IPV4_ADDR_MAX_BYTES PA_DCS_IPV6_ADDR_MAX_BYTES
     sizeof_ipv4Addr sizeof_ipv6Addr).
Local Abbreviation le_net_GetDNS' :=
  (le_net_GetDNS PA_DCS_IPV4_ADDR_MAX_BYTES PA_DCS_IPV6_ADDR_MAX_BYTES
     sizeof_ipv4Addr sizeof_ipv6Addr).
Local Abbreviation le_net_ChangeRoute' :=
  (le_net_ChangeRoute LE_DCS_TECH_UNKNOWN LE_DCS_TECH_MAX inet_pton_AF_INET6).
Local Abbreviation step' :=
  (step PA_DCS_IPV4_ADDR_MAX_BYTES PA_DCS_IPV6_ADDR_MAX_BYTES
     LE_DCS_TECH_UNKNOWN LE_DCS_TECH_CELLULAR LE_DCS_TECH_MAX).
Local Abbreviation run' :=
  (run PA_DCS_IPV4_ADDR_MAX_BYTES PA_DCS_IPV6_ADDR_MAX_BYTES
     LE_DCS_TECH_UNKNOWN LE_DCS_TECH_CELLULAR LE_DCS_TECH_MAX).

(** ** The lease file parser keeps the list and calls only the file system
    and the adapter's path lookup *)

Ltac break_match :=
  repeat match goal with
         | |- context [match ?x with _ => _ end] =>
             lazymatch x with
             | context [match _ with _ => _ end] => fail
             | _ => destruct x eqn:?
             end
         end.

Ltac invert_result :=
  match goal with
  | |- Some _ = Some _ -> _ =>
      let H := fresh in intros H; inversion H; subst; clear H
  | |- None = Some _ -> _ => discriminate
  end.

Lemma GetDhcpLeaseFileEntry_inv E intf t n st x st' ev :
  GetDhcpLeaseFileEntry' E intf t n st = Some (x, st', ev) ->
  st' = st /\ forallb is_lease_event ev = true.
Proof.
  unfold GetDhcpLeaseFileEntry, pa_dcs_GetDhcpLeaseFilePath, le_flock_TryOpenStream,
    bind, emit, ret, undefined.
  break_match; invert_result; split; reflexivity.
Qed.

Lemma GetLeaseAddresses_inv E intf t v4 s4 v6 s6 n st x st' ev :
  GetLeaseAddresses' E intf t v4 s4 v6 s6 n st = Some (x, st', ev) ->
  st' = st /\ forallb is_lease_event ev = true.
Proof.
  unfold GetLeaseAddresses.
  destruct (Nat.ltb _ _).
  - unfold ret. invert_result. split; reflexivity.
  - intros H. apply bind_inv in H.
    destruct H as ([[r buf] k] & st1 & ev1 & ev2 & H1 & H2 & ->).
    apply GetDhcpLeaseFileEntry_inv in H1. destruct H1 as [-> Hev1].
    revert H2. unfold ret, undefined. break_match; invert_result;
      rewrite app_nil_r; auto.
Qed.

(** ** Stores through a pointer *)

Lemma update_at_update_at l i f g :
  update_at (update_at l i f) i g = update_at l i (fun d => g (f d)).
Proof.
  revert i. induction l as [|x l IH]; intros [|i]; simpl; auto.
  rewrite IH. reflexivity.
Qed.

Lemma update_at_ext l i f g :
  (forall d, f d = g d) -> update_at l i f = update_at l i g.
Proof.
  intros H. revert i. induction l as [|x l IH]; intros [|i]; simpl; auto.
  - rewrite H. reflexivity.
  - rewrite IH. reflexivity.
Qed.

Lemma update_at_id l i f : (forall d, f d = d) -> update_at l i f = l.
Proof.
  intros H. revert i. induction l as [|x l IH]; intros [|i]; simpl; auto.
  - rewrite H. reflexivity.
  - rewrite IH. reflexivity.
Qed.

Lemma mark_mark_raise b4 b6 i l :
  mark false b4 i (mark true b6 i l) = update_at l i (raise b4 b6).
Proof.
  unfold mark. destruct b4, b6; try rewrite update_at_update_at;
    try (apply update_at_ext; intros [s a b c d f4 f6]; unfold raise; simpl;
         rewrite ?orb_true_r, ?orb_false_r; reflexivity).
  symmetry. apply update_at_id. intros [s a b c d f4 f6]; unfold raise; simpl.
  rewrite !orb_false_r. reflexivity.
Qed.

Lemma raise_flags_false ref l : raise_flags ref false false l = l.
Proof.
  unfold raise_flags. destruct (GetDefaultGwConfigDb_scan ref l) as [[i d]|]; auto.
  apply update_at_id. intros [s a b c e f4 f6]; unfold raise; simpl.
  rewrite !orb_false_r. reflexivity.
Qed.

(** ** Setting the default gateway *)

Lemma no_set_call_lease ev : forallb is_lease_event ev = true -> no_set_call ev.
Proof.
  intros H intf gw f Hin. rewrite forallb_forall in H.
  apply H in Hin. discriminate.
Qed.

Lemma no_set_call_app ev1 ev2 :
  no_set_call ev1 -> no_set_call ev2 -> no_set_call (ev1 ++ ev2).
Proof.
  intros H1 H2 intf gw f Hin. apply in_app_or in Hin.
  destruct Hin; [eapply H1|eapply H2]; eauto.
Qed.

Lemma no_set_call_nil : no_set_call [].
Proof. intros intf gw f []. Qed.

Lemma SetDefaultGW_family_inv E intf gw F ptr st r st' ev :
  SetDefaultGW_family E intf gw F ptr st = Some (r, st', ev) ->
  exists b,
    st' = match ptr with Some (link, _) => mark F b link st | None => st end
    /\ forall i g f, In (Ev_pa_dcs_SetDefaultGateway i g f) ev ->
         f = F /\ (ans_SetDefaultGateway E i g f = LE_OK -> b = true).
Proof.
  unfold SetDefaultGW_family, pa_dcs_SetDefaultGateway, store, mark,
    bind, emit, ret, get, put.
  exists (Nat.ltb 0 (String.length gw)
          && le_result_eqb (ans_SetDefaultGateway E intf gw F) LE_OK).
  revert H. destruct (Nat.ltb 0 (String.length gw)); simpl.
  - destruct (le_result_eqb (ans_SetDefaultGateway E intf gw F) LE_OK) eqn:Hr;
      destruct ptr as [[link d]|]; simpl; invert_result;
      (split; [reflexivity|]);
      intros i g f [Hin|[]]; inversion Hin; subst; split; auto;
      intros Hok; rewrite Hok in Hr; discriminate.
  - invert_result. split; [destruct ptr as [[? ?]|]; reflexivity|].
    intros i g f [].
Qed.

Lemma le_net_SetDefaultGW_inv E ch l r l' ev :
  le_net_SetDefaultGW' E ch l = Some (r, l', ev) ->
  exists b4 b6,
    l' = raise_flags (DcsNetGetSessionRef E) b4 b6 l
    /\ forall i g f, In (Ev_pa_dcs_SetDefaultGateway i g f) ev ->
         ans_SetDefaultGateway E i g f = LE_OK ->
         (if f then b6 else b4) = true.
Proof.
  assert (Hret : forall (x : le_result_t) ev0,
             no_set_call ev0 ->
             Some (x, l, ev0) = Some (r, l', ev) ->
             exists b4 b6,
               l' = raise_flags (DcsNetGetSessionRef E) b4 b6 l
               /\ forall i g f, In (Ev_pa_dcs_SetDefaultGateway i g f) ev ->
                    ans_SetDefaultGateway E i g f = LE_OK ->
                    (if f then b6 else b4) = true).
  { intros x ev0 Hno H. inversion H; subst. exists false, false.
    split; [symmetry; apply raise_flags_false|].
    intros i g f Hin. destruct (Hno _ _ _ Hin). }
  unfold le_net_SetDefaultGW.
  destruct (le_dcs_GetChannelDbFromRef E ch) as [db|];
    [|apply Hret, no_set_call_nil].
  destruct (unsupported_technology _ _ _); [apply Hret, no_set_call_nil|].
  intros H. apply bind_inv in H.
  destruct H as ([r0 intf] & st1 & ev1 & ev2 & H1 & H2 & ->).
  unfold le_dcsTech_GetNetInterface, bind, emit, ret in H1.
  inversion H1; subst st1 ev1; clear H1.
  assert (Hno1 : no_set_call
                   [Ev_le_dcsTech_GetNetInterface (technology db) ch]).
  { intros i g f [Hin|[]]; discriminate. }
  destruct (negb (le_result_eqb r0 LE_OK)).
  { unfold ret in H2. inversion H2; subst. simpl.
    eapply Hret; [|reflexivity]. exact Hno1. }
  apply bind_inv in H2.
  destruct H2 as ([[r1 v4o] v6o] & st2 & ev3 & ev4 & H3 & H4 & ->).
  assert (Hfetch : st2 = l /\ no_set_call ev3).
  { destruct (Z.eqb (technology db) LE_DCS_TECH_CELLULAR).
    - unfold le_dcsTech_GetDefaultGWAddress, bind, emit, ret in H3.
      destruct (ans_GetDefaultGWAddress E (technology db) (techRef db))
        as [[? ?] ?].
      inversion H3; subst. split; [reflexivity|].
      intros i g f [Hin|[]]; discriminate.
    - apply bind_inv in H3.
      destruct H3 as ([[r2 a4] a6] & st3 & ev5 & ev6 & H5 & H6 & ->).
      apply GetLeaseAddresses_inv in H5. destruct H5 as [-> Hev5].
      unfold ret in H6. inversion H6; subst. split; [reflexivity|].
      rewrite app_nil_r. apply no_set_call_lease; assumption. }
  destruct Hfetch as [-> Hno3].
  assert (Hno13 : no_set_call
            ([Ev_le_dcsTech_GetNetInterface (technology db) ch] ++ ev3))
    by (apply no_set_call_app; assumption).
  destruct (negb (le_result_eqb r1 LE_OK)).
  { unfold ret in H4. inversion H4; subst.
    eapply Hret; [|reflexivity]. rewrite app_nil_r. exact Hno13. }
  destruct v4o as [v4|]; [|discriminate].
  destruct v6o as [v6|]; [|discriminate].
  destruct (_ && _).
  { unfold ret in H4. inversion H4; subst.
    eapply Hret; [|reflexivity]. rewrite app_nil_r. exact Hno13. }
  apply bind_inv in H4.
  destruct H4 as (l0 & st4 & ev7 & ev8 & Hget & H4 & ->).
  unfold get in Hget. inversion Hget; subst l0 st4 ev7; clear Hget.
  unfold GetDefaultGwConfigDb, raise_flags in *.
  set (ptr := GetDefaultGwConfigDb_scan (DcsNetGetSessionRef E) l) in *.
  assert (Hstep : exists w1 w2 v6Ret l6 e6 v4Ret e4,
             no_set_call w1 /\ no_set_call w2
             /\ SetDefaultGW_family E intf v6 true ptr l = Some (v6Ret, l6, e6)
             /\ SetDefaultGW_family E intf v4 false ptr l6 = Some (v4Ret, l', e4)
             /\ ev8 = w1 ++ w2 ++ e6 ++ e4).
  { destruct ptr as [[i d]|]; simpl in H4.
    - apply bind_inv in H4. destruct H4 as ([] & s1 & w1 & x1 & Hw1 & H4 & ->).
      apply bind_inv in H4. destruct H4 as ([] & s2 & w2 & x2 & Hw2 & H4 & ->).
      apply bind_inv in H4. destruct H4 as (v6Ret & l6 & e6 & x3 & H6 & H4 & ->).
      apply bind_inv in H4. destruct H4 as (v4Ret & l4 & e4 & x4 & H44 & H4 & ->).
      unfold when, ret in Hw1. inversion Hw1; subst s1 w1; clear Hw1.
      assert (s2 = l /\ no_set_call w2) as [-> Hw2'].
      { unfold when, emit, ret in Hw2. destruct (negb (Nat.eqb i 0));
          inversion Hw2; subst; split; auto using no_set_call_nil.
        intros a b c [Hin|[]]; discriminate. }
      assert (l4 = l' /\ x4 = []) as [-> ->].
      { unfold ret in H4. destruct (_ || _); inversion H4; auto. }
      exists [], w2, v6Ret, l6, e6, v4Ret, e4.
      rewrite app_nil_r. auto 10 using no_set_call_nil.
    - apply bind_inv in H4. destruct H4 as ([] & s1 & w1 & x1 & Hw1 & H4 & ->).
      apply bind_inv in H4. destruct H4 as ([] & s2 & w2 & x2 & Hw2 & H4 & ->).
      apply bind_inv in H4. destruct H4 as (v6Ret & l6 & e6 & x3 & H6 & H4 & ->).
      apply bind_inv in H4. destruct H4 as (v4Ret & l4 & e4 & x4 & H44 & H4 & ->).
      unfold when, emit, ret in Hw1. inversion Hw1; subst s1 w1; clear Hw1.
      unfold when, emit, ret in Hw2. simpl in Hw2.
      inversion Hw2; subst s2 w2; clear Hw2.
      assert (l4 = l' /\ x4 = []) as [-> ->].
      { unfold ret in H4. destruct (_ || _); inversion H4; auto. }
      exists [Ev_LE_WARN WARN_not_backed_up], [Ev_LE_WARN WARN_newer_backup],
        v6Ret, l6, e6, v4Ret, e4.
      rewrite app_nil_r.
      repeat split; auto; intros a b c [Hin|[]]; discriminate. }
  destruct Hstep as (w1 & w2 & v6Ret & l6 & e6 & v4Ret & e4
                     & Hw1 & Hw2 & H6 & H44 & ->).
  apply SetDefaultGW_family_inv in H6. destruct H6 as (b6 & -> & Hb6).
  apply SetDefaultGW_family_inv in H44. destruct H44 as (b4 & -> & Hb4).
  exists b4, b6. split.
  - destruct ptr as [[i d]|]; [apply mark_mark_raise|reflexivity].
  - intros i g f Hin Hok.
    apply in_app_or in Hin. destruct Hin as [Hin|Hin]; [destruct (Hno1 _ _ _ Hin)|].
    apply in_app_or in Hin. destruct Hin as [Hin|Hin]; [destruct (Hno3 _ _ _ Hin)|].
    simpl in Hin.
    apply in_app_or in Hin. destruct Hin as [Hin|Hin]; [destruct (Hw1 _ _ _ Hin)|].
    apply in_app_or in Hin. destruct Hin as [Hin|Hin]; [destruct (Hw2 _ _ _ Hin)|].
    apply in_app_or in Hin. destruct Hin as [Hin|Hin].
    + destruct (Hb6 _ _ _ Hin) as [-> Hb]. auto.
    + destruct (Hb4 _ _ _ Hin) as [-> Hb]. auto.
Qed.

(** ** What one operation does to the backups of each session *)

Lemma raise_session b4 b6 d : appSessionRef (raise b4 b6 d) = appSessionRef d.
Proof. reflexivity. Qed.

Lemma step_inv o l l' ev :
  step' o l = Some (tt, l', ev) ->
  match o with
  | OpBackup E =>
      l' = backed_up (DcsNetGetSessionRef E) (ans_GetDefaultGateway E)
             :: without_snapshot_of (DcsNetGetSessionRef E) l
  | OpRestore E => l' = without_snapshot_of (DcsNetGetSessionRef E) l
  | OpSet E _ => exists b4 b6, l' = raise_flags (DcsNetGetSessionRef E) b4 b6 l
  end.
Proof.
  destruct o as [E|E ch|E]; simpl.
  - rewrite le_net_BackupDefaultGW_eq. intros H; inversion H; reflexivity.
  - intros H. apply bind_inv in H.
    destruct H as (r & st1 & ev1 & ev2 & H1 & H2 & ->).
    unfold ret in H2. inversion H2; subst.
    apply le_net_SetDefaultGW_inv in H1. destruct H1 as (b4 & b6 & -> & _).
    eauto.
  - intros H. apply bind_inv in H.
    destruct H as (r & st1 & ev1 & ev2 & H1 & H2 & ->).
    unfold ret in H2. inversion H2; subst.
    rewrite le_net_RestoreDefaultGW_eq in H1. unfold without_snapshot_of.
    destruct (GetDefaultGwConfigDb_scan (DcsNetGetSessionRef E) l) as [[i d]|];
      inversion H1; reflexivity.
Qed.

Lemma run_cons_inv o ops l l' ev :
  run' (o :: ops) l = Some (tt, l', ev) ->
  exists l1 ev1 ev2,
    step' o l = Some (tt, l1, ev1) /\ run' ops l1 = Some (tt, l', ev2)
    /\ ev = ev1 ++ ev2.
Proof.
  simpl. intros H. apply bind_inv in H.
  destruct H as ([] & l1 & ev1 & ev2 & H1 & H2 & ->). eauto 6.
Qed.

Lemma run_nil_inv l l' ev : run' [] l = Some (tt, l', ev) -> l' = l.
Proof. simpl. unfold ret. intros H; inversion H; reflexivity. Qed.

Lemma step_one_per_session o l l' ev :
  one_per_session l -> step' o l = Some (tt, l', ev) -> one_per_session l'.
Proof.
  intros Hinv H ref. apply step_inv in H. destruct o as [E|E ch|E].
  - subst l'. simpl.
    destruct (N.eqb_spec (DcsNetGetSessionRef E) ref) as [->|Hne]; simpl.
    + rewrite snapshots_of_without_same by apply Hinv. reflexivity.
    + etransitivity; [apply snapshots_of_without|apply Hinv].
  - destruct H as (b4 & b6 & ->). unfold raise_flags.
    destruct (GetDefaultGwConfigDb_scan (DcsNetGetSessionRef E) l) as [[i d]|];
      [|apply Hinv].
    rewrite snapshots_of_update_at by apply raise_session. apply Hinv.
  - subst l'. etransitivity; [apply snapshots_of_without|apply Hinv].
Qed.

Lemma run_one_per_session ops l l' ev :
  one_per_session l -> run' ops l = Some (tt, l', ev) -> one_per_session l'.
Proof.
  revert l ev. induction ops as [|o ops IH]; intros l ev Hinv H.
  - apply run_nil_inv in H. subst. assumption.
  - apply run_cons_inv in H. destruct H as (l1 & ev1 & ev2 & H1 & H2 & _).
    eapply IH; [|exact H2]. eapply step_one_per_session; eauto.
Qed.

Lemma one_per_session_init : one_per_session LE_DLS_LIST_INIT.
Proof. intros ref. simpl. lia. Qed.

(** C3. Whatever backups, settings and restores were made since
    initialisation, by whatever sessions, the list holds at most one backup
    whose session reference is [ref]. *)
Theorem at_most_one_snapshot_per_session :
  forall (ops : list Op) (l : State) (ev : list Event)
         (ref : le_msg_SessionRef_t),
    run' ops LE_DLS_LIST_INIT = Some (tt, l, ev) ->
    List.length (snapshots_of ref l) <= 1.
Proof.
  intros ops l ev ref H.
  exact (run_one_per_session ops _ _ _ one_per_session_init H ref).
Qed.

(** ** The backup found for a session, across the operations of others *)

Lemma scan_nth ref l i d :
  GetDefaultGwConfigDb_scan ref l = Some (i, d) -> nth_error l i = Some d.
Proof.
  revert i. induction l as [|x l IH]; simpl; intros i H; [discriminate|].
  destruct (N.eqb (appSessionRef x) ref).
  - inversion H; subst. reflexivity.
  - destruct (GetDefaultGwConfigDb_scan ref l) as [[j d']|]; [|discriminate].
    inversion H; subst. simpl. apply IH. reflexivity.
Qed.

Lemma scan_update_at ref l i f :
  (forall d, appSessionRef (f d) = appSessionRef d) ->
  GetDefaultGwConfigDb_scan ref (update_at l i f) =
  match GetDefaultGwConfigDb_scan ref l with
  | Some (j, d) => Some (j, if Nat.eqb j i then f d else d)
  | None => None
  end.
Proof.
  intros Hf. revert i. induction l as [|x l IH]; intros [|i]; simpl; auto.
  - rewrite Hf. destruct (N.eqb (appSessionRef x) ref); [reflexivity|].
    destruct (GetDefaultGwConfigDb_scan ref l) as [[j d]|]; reflexivity.
  - destruct (N.eqb (appSessionRef x) ref); [reflexivity|].
    rewrite IH.
    destruct (GetDefaultGwConfigDb_scan ref l) as [[j d]|]; reflexivity.
Qed.

Lemma snapshot_of_raise_flags ref ref' b4 b6 l :
  snapshot_of ref (raise_flags ref' b4 b6 l) =
  match snapshot_of ref l with
  | Some d => Some (if N.eqb ref' ref then raise b4 b6 d else d)
  | None => None
  end.
Proof.
  unfold raise_flags, snapshot_of.
  destruct (GetDefaultGwConfigDb_scan ref' l) as [[i di]|] eqn:Hi.
  - rewrite scan_update_at by apply raise_session.
    destruct (GetDefaultGwConfigDb_scan ref l) as [[j dj]|] eqn:Hj; [|reflexivity].
    destruct (N.eqb_spec ref' ref) as [->|Hne].
    + rewrite Hi in Hj. inversion Hj; subst. rewrite Nat.eqb_refl. reflexivity.
    + destruct (Nat.eqb_spec j i) as [->|]; [|reflexivity].
      pose proof (scan_found _ _ _ _ Hi) as [Hsi _].
      pose proof (scan_found _ _ _ _ Hj) as [Hsj _].
      apply scan_nth in Hi. apply scan_nth in Hj.
      rewrite Hi in Hj. inversion Hj; subst. contradiction.
  - destruct (GetDefaultGwConfigDb_scan ref l) as [[j dj]|] eqn:Hj; [|reflexivity].
    destruct (N.eqb_spec ref' ref) as [->|Hne]; [|reflexivity].
    rewrite Hi in Hj. discriminate.
Qed.

Lemma scan_removed_other ref ref' l i d :
  ref' <> ref ->
  GetDefaultGwConfigDb_scan ref' l = Some (i, d) ->
  snapshot_of ref (le_dls_Remove l i) = snapshot_of ref l.
Proof.
  intros Hne. unfold snapshot_of. revert i.
  induction l as [|x l IH]; simpl; intros i H; [discriminate|].
  destruct (N.eqb_spec (appSessionRef x) ref') as [Hx|Hx].
  - inversion H; subst. rewrite le_dls_Remove_head.
    destruct (N.eqb_spec (appSessionRef d) ref); [contradiction|].
    destruct (GetDefaultGwConfigDb_scan ref l) as [[j dj]|]; reflexivity.
  - destruct (GetDefaultGwConfigDb_scan ref' l) as [[j d']|]; [|discriminate].
    inversion H; subst. rewrite le_dls_Remove_tail. simpl.
    destruct (N.eqb (appSessionRef x) ref); [reflexivity|].
    specialize (IH j eq_refl).
    destruct (GetDefaultGwConfigDb_scan ref (le_dls_Remove l j)) as [[? ?]|];
      destruct (GetDefaultGwConfigDb_scan ref l) as [[? ?]|];
      inversion IH; reflexivity.
Qed.

Lemma snapshot_of_without_other ref ref' l :
  ref' <> ref ->
  snapshot_of ref (without_snapshot_of ref' l) = snapshot_of ref l.
Proof.
  intros Hne. unfold without_snapshot_of.
  destruct (GetDefaultGwConfigDb_scan ref' l) as [[i d]|] eqn:H; [|reflexivity].
  eapply scan_removed_other; eauto.
Qed.

Lemma snapshot_of_cons_other ref d l :
  appSessionRef d <> ref -> snapshot_of ref (d :: l) = snapshot_of ref l.
Proof.
  intros Hne. unfold snapshot_of. simpl.
  destruct (N.eqb_spec (appSessionRef d) ref); [contradiction|].
  destruct (GetDefaultGwConfigDb_scan ref l) as [[j dj]|]; reflexivity.
Qed.

Lemma snapshot_of_found ref l d :
  snapshot_of ref l = Some d -> appSessionRef d = ref /\ In d l.
Proof.
  unfold snapshot_of.
  destruct (GetDefaultGwConfigDb_scan ref l) as [[i x]|] eqn:H; [|discriminate].
  intros Hd; inversion Hd; subst. eapply scan_found; eauto.
Qed.

Lemma snapshots_none_no_member ref l d :
  snapshots_of ref l = [] -> In d l -> appSessionRef d <> ref.
Proof.
  intros Hnone Hin Hs.
  assert (Hd : In d (snapshots_of ref l)).
  { apply filter_In. split; [assumption|]. apply N.eqb_eq; assumption. }
  rewrite Hnone in Hd. destruct Hd.
Qed.

Lemma In_update_at d l i f :
  In d (update_at l i f) ->
  In d l \/ exists x, nth_error l i = Some x /\ d = f x.
Proof.
  revert i. induction l as [|x l IH]; intros [|i]; simpl; auto.
  - intros [H|H]; eauto.
  - intros [H|H]; auto. destruct (IH _ H) as [H'|H']; auto.
Qed.

(** ** Restoring when nothing was installed *)

Lemma step_nothing_installed ref o l l' ev :
  set_by ref o = false ->
  nothing_installed ref l -> step' o l = Some (tt, l', ev) ->
  nothing_installed ref l'.
Proof.
  intros Hset HP H d Hin Hs. apply step_inv in H. destruct o as [E|E ch|E].
  - subst l'. destruct Hin as [<-|Hin]; [split; reflexivity|].
    apply In_without_snapshot_of in Hin. auto.
  - destruct H as (b4 & b6 & ->). simpl in Hset. unfold raise_flags in Hin.
    destruct (GetDefaultGwConfigDb_scan (DcsNetGetSessionRef E) l)
      as [[i x]|] eqn:Hx; [|auto].
    apply In_update_at in Hin. destruct Hin as [Hin|(y & Hy & ->)]; [auto|].
    apply scan_nth in Hx as Hn. rewrite Hn in Hy. inversion Hy; subst y.
    apply scan_found in Hx. destruct Hx as [Hx _].
    rewrite raise_session, Hx in Hs. rewrite Hs, N.eqb_refl in Hset.
    discriminate.
  - subst l'. apply In_without_snapshot_of in Hin. auto.
Qed.

Lemma run_nothing_installed ref ops l l' ev :
  Forall (fun o => set_by ref o = false) ops ->
  nothing_installed ref l -> run' ops l = Some (tt, l', ev) ->
  nothing_installed ref l'.
Proof.
  intros Hops. revert l ev. induction Hops as [|o ops Ho Hops IH]; intros l ev HP H.
  - apply run_nil_inv in H. subst. assumption.
  - apply run_cons_inv in H. destruct H as (l1 & ev1 & ev2 & H1 & H2 & _).
    eapply IH; [|exact H2]. eapply step_nothing_installed; eauto.
Qed.

Lemma backup_nothing_installed E l :
  one_per_session l ->
  nothing_installed (DcsNetGetSessionRef E)
    (backed_up (DcsNetGetSessionRef E) (ans_GetDefaultGateway E)
       :: without_snapshot_of (DcsNetGetSessionRef E) l).
Proof.
  intros Hinv d [<-|Hin] Hs; [split; reflexivity|].
  exfalso. revert Hs. eapply snapshots_none_no_member; [|exact Hin].
  apply snapshots_of_without_same, Hinv.
Qed.

(** C4. A session backs up the default gateway; whatever operations follow,
    as long as none is a [le_net_SetDefaultGW] of that session, its next
    [le_net_RestoreDefaultGW] returns without a single call to
    [pa_dcs_SetDefaultGateway]. *)
Theorem restore_after_backup_alone_sets_nothing :
  forall (ops0 : list Op) (l0 : State) (ev0 : list Event)
         (Eb : Env) (ops : list Op) (l2 : State) (ev2 : list Event) (Er : Env),
    run' ops0 LE_DLS_LIST_INIT = Some (tt, l0, ev0) ->
    run' (OpBackup Eb :: ops) l0 = Some (tt, l2, ev2) ->
    Forall (fun o => set_by (DcsNetGetSessionRef Eb) o = false) ops ->
    DcsNetGetSessionRef Er = DcsNetGetSessionRef Eb ->
    exists r l3 ev3,
      le_net_RestoreDefaultGW Er l2 = Some (r, l3, ev3)
      /\ filter is_set_call ev3 = [].
Proof.
  intros ops0 l0 ev0 Eb ops l2 ev2 Er H0 H Hops Hs.
  apply run_cons_inv in H. destruct H as (l1 & ev1 & ev2' & H1 & H2 & _).
  apply step_inv in H1. subst l1.
  assert (HP : nothing_installed (DcsNetGetSessionRef Eb) l2).
  { eapply run_nothing_installed; [exact Hops| |exact H2].
    apply backup_nothing_installed.
    eapply run_one_per_session; [apply one_per_session_init|exact H0]. }
  rewrite le_net_RestoreDefaultGW_eq, Hs.
  destruct (GetDefaultGwConfigDb_scan (DcsNetGetSessionRef Eb) l2)
    as [[i d]|] eqn:Hd.
  - apply scan_found in Hd. destruct Hd as [Hd Hin].
    destruct (HP d Hin Hd) as [H4 H6].
    do 3 eexists. split; [reflexivity|].
    unfold restore_events. rewrite H4, H6.
    destruct (Nat.eqb i 0); reflexivity.
  - do 3 eexists. split; reflexivity.
Qed.

(** ** Restoring what was installed *)

Lemma step_restorable ref F d0 o l l' ev :
  backup_or_restore_by ref o = false ->
  restorable ref F d0 l -> step' o l = Some (tt, l', ev) ->
  restorable ref F d0 l'.
Proof.
  intros Ho (d & Hd & Hgw & Hintf & Hinst) H. apply step_inv in H.
  destruct o as [E|E ch|E]; simpl in Ho.
  - subst l'. apply N.eqb_neq in Ho. exists d.
    rewrite snapshot_of_cons_other by exact Ho.
    rewrite snapshot_of_without_other by exact Ho. auto.
  - destruct H as (b4 & b6 & ->). unfold restorable.
    rewrite snapshot_of_raise_flags, Hd.
    destruct (N.eqb (DcsNetGetSessionRef E) ref); [|exists d; auto].
    exists (raise b4 b6 d). repeat split.
    + destruct F; assumption.
    + destruct F; assumption.
    + destruct F; simpl in *; rewrite Hinst; reflexivity.
  - subst l'. apply N.eqb_neq in Ho. exists d.
    rewrite snapshot_of_without_other by exact Ho. auto.
Qed.

Lemma run_restorable ref F d0 ops l l' ev :
  Forall (fun o => backup_or_restore_by ref o = false) ops ->
  restorable ref F d0 l -> run' ops l = Some (tt, l', ev) ->
  restorable ref F d0 l'.
Proof.
  intros Hops. revert l ev. induction Hops as [|o ops Ho Hops IH]; intros l ev HQ H.
  - apply run_nil_inv in H. subst. assumption.
  - apply run_cons_inv in H. destruct H as (l1 & ev1 & ev2 & H1 & H2 & _).
    eapply IH; [|exact H2]. eapply step_restorable; eauto.
Qed.

(** C2, amended. A session has a backup [d] on the list; its
    [le_net_SetDefaultGW] asks the adapter to set the gateway of family [F]
    and the adapter answers [LE_OK]. Then, whatever other sessions do and
    whatever this one sets again, as long as the session makes no backup
    and no restore of its own in between, its next
    [le_net_RestoreDefaultGW] calls [pa_dcs_SetDefaultGateway] for family
    [F] exactly once, with the interface and the gateway archived in [d]. *)
Theorem restore_after_set_calls_adapter_once :
  forall (E : Env) (ch : le_dcs_ChannelRef_t) (l0 : State)
         (d : DcsDefaultGwConfigDb_t) (r1 : le_result_t) (l1 : State)
         (ev1 : list Event) (intf gw : string) (F : bool)
         (ops : list Op) (l2 : State) (ev2 : list Event) (Er : Env),
    snapshot_of (DcsNetGetSessionRef E) l0 = Some d ->
    le_net_SetDefaultGW' E ch l0 = Some (r1, l1, ev1) ->
    In (Ev_pa_dcs_SetDefaultGateway intf gw F) ev1 ->
    ans_SetDefaultGateway E intf gw F = LE_OK ->
    Forall (fun o => backup_or_restore_by (DcsNetGetSessionRef E) o = false) ops ->
    run' ops l1 = Some (tt, l2, ev2) ->
    DcsNetGetSessionRef Er = DcsNetGetSessionRef E ->
    exists r l3 ev3,
      le_net_RestoreDefaultGW Er l2 = Some (r, l3, ev3)
      /\ filter (is_set_call_for F) ev3
         = [Ev_pa_dcs_SetDefaultGateway (archived_intf F d) (archived_gw F d) F].
Proof.
  intros E ch l0 d r1 l1 ev1 intf gw F ops l2 ev2 Er Hd Hset Hin Hok Hops Hrun Hs.
  apply le_net_SetDefaultGW_inv in Hset.
  destruct Hset as (b4 & b6 & -> & Hb). specialize (Hb _ _ _ Hin Hok).
  assert (HQ : restorable (DcsNetGetSessionRef E) F d
                 (raise_flags (DcsNetGetSessionRef E) b4 b6 l0)).
  { exists (raise b4 b6 d). rewrite snapshot_of_raise_flags, Hd, N.eqb_refl.
    repeat split; try (destruct F; reflexivity).
    destruct F; simpl; rewrite Hb; apply orb_true_r. }
  eapply run_restorable in HQ; [|exact Hops|exact Hrun].
  destruct HQ as (d' & Hd' & Hgw & Hintf & Hinst).
  rewrite le_net_RestoreDefaultGW_eq, Hs. unfold snapshot_of in Hd'.
  destruct (GetDefaultGwConfigDb_scan (DcsNetGetSessionRef E) l2)
    as [[i x]|]; [|discriminate].
  inversion Hd'; subst x. do 3 eexists. split; [reflexivity|].
  rewrite <- Hgw, <- Hintf. unfold restore_events.
  destruct F; simpl in Hinst; rewrite Hinst;
    destruct (Nat.eqb i 0);
    [destruct (setV4GwToSystem d')|destruct (setV4GwToSystem d')
    |destruct (setV6GwToSystem d')|destruct (setV6GwToSystem d')];
    reflexivity.
Qed.

(** C9. In every state the component can reach, a session that has a backup
    on the list loses it by [le_net_RestoreDefaultGW] whatever the adapter
    answers, also when both families are tried, both fail and the result is
    [LE_FAULT]; a second [le_net_RestoreDefaultGW] of the session right
    after finds nothing, changes nothing and returns [LE_NOT_FOUND]. *)
Theorem restore_always_removes_snapshot :
  forall (ops : list Op) (l : State) (ev0 : list Event) (E : Env)
         (d : DcsDefaultGwConfigDb_t),
    run' ops LE_DLS_LIST_INIT = Some (tt, l, ev0) ->
    snapshot_of (DcsNetGetSessionRef E) l = Some d ->
    exists r l' ev,
      le_net_RestoreDefaultGW E l = Some (r, l', ev)
      /\ snapshots_of (DcsNetGetSessionRef E) l' = []
      /\ List.length l' + 1 = List.length l
      /\ (setV4GwToSystem d = true -> setV6GwToSystem d = true ->
          ans_SetDefaultGateway E (defaultV4Interface d) (defaultV4GW d) false
            <> LE_OK ->
          ans_SetDefaultGateway E (defaultV6Interface d) (defaultV6GW d) true
            <> LE_OK ->
          r = LE_FAULT)
      /\ forall E2, DcsNetGetSessionRef E2 = DcsNetGetSessionRef E ->
           le_net_RestoreDefaultGW E2 l' = Some (LE_NOT_FOUND, l', []).
Proof.
  intros ops l ev0 E d Hrun Hd.
  assert (Hinv : one_per_session l)
    by (eapply run_one_per_session; [apply one_per_session_init|exact Hrun]).
  rewrite le_net_RestoreDefaultGW_eq. unfold snapshot_of in Hd.
  destruct (GetDefaultGwConfigDb_scan (DcsNetGetSessionRef E) l)
    as [[i x]|] eqn:Hx; [|discriminate].
  inversion Hd; subst x. do 3 eexists. split; [reflexivity|].
  assert (Hnone : snapshots_of (DcsNetGetSessionRef E) (le_dls_Remove l i) = []).
  { pose proof (snapshots_of_without_same _ _ (Hinv (DcsNetGetSessionRef E))) as H.
    unfold without_snapshot_of in H. rewrite Hx in H. exact H. }
  split; [exact Hnone|]. split; [|split].
  - apply scan_nth in Hx. unfold le_dls_Remove.
    assert (Hlt : i < List.length l) by (apply nth_error_Some; congruence).
    rewrite length_app, length_firstn, length_skipn. lia.
  - intros H4 H6 Hf4 Hf6. unfold restore_result. rewrite H4, H6.
    destruct (ans_SetDefaultGateway E (defaultV4Interface d) (defaultV4GW d) false);
      try contradiction;
      destruct (ans_SetDefaultGateway E (defaultV6Interface d) (defaultV6GW d) true);
      try contradiction; reflexivity.
  - intros E2 Hs. rewrite le_net_RestoreDefaultGW_eq, Hs.
    rewrite (snapshots_none_scan _ _ Hnone). reflexivity.
Qed.

(** ** Changing a route: the destination *)

(** C5. On a channel that exists and whose technology is supported, a
    destination that is NULL, or that after the leading white space is
    stripped is neither an IPv4 nor an IPv6 literal, makes
    [le_net_ChangeRoute] return [LE_BAD_PARAMETER]; nothing was asked of any
    collaborator by then, so [pa_dcs_ChangeRoute] was not called. *)
Theorem change_route_rejects_invalid_destination :
  forall (E : Env) (ch : le_dcs_ChannelRef_t) (db : le_dcs_channelDb_t)
         (destAddr prefixLength : option string) (isAdd : bool) (st : State),
    le_dcs_GetChannelDbFromRef E ch = Some db ->
    unsupported_technology LE_DCS_TECH_UNKNOWN LE_DCS_TECH_MAX (technology db)
      = false ->
    (destAddr = None
     \/ exists d, destAddr = Some d
          /\ inet_pton_AF_INET (strip_leading_whitespaces d) = None
          /\ inet_pton_AF_INET6 (strip_leading_whitespaces d) = false) ->
    exists ev,
      le_net_ChangeRoute' E ch destAddr prefixLength isAdd st
        = Some (LE_BAD_PARAMETER, st, ev)
      /\ ev = [] /\ filter is_change_route_call ev = [].
Proof.
  intros E ch db destAddr prefixLength isAdd st Hdb Htech Hdest.
  exists []. split; [|split; reflexivity].
  unfold le_net_ChangeRoute. rewrite Hdb, Htech.
  destruct Hdest as [->|(d & -> & H4 & H6)]; [reflexivity|].
  unfold DcsNetValidateIpAddress. rewrite H4, H6. reflexivity.
Qed.

(** ** Changing a route: a network mask in place of the prefix length *)

(** The loop of [ConvertSubnetMaskToPrefixLength] counts the bits that are
    set in a 32-bit value. *)
Lemma popcount_succ n v :
  popcount (S n) v = (Z.b2z (Z.testbit v 0) + popcount n (Z.shiftr v 1))%Z.
Proof.
  unfold popcount. simpl. f_equal.
  rewrite <- seq_shift, map_map. f_equal. apply map_ext. intros i.
  rewrite Z.shiftr_spec by lia. do 2 f_equal. lia.
Qed.

Lemma popcount_zero n : popcount n 0 = 0%Z.
Proof.
  unfold popcount. induction (seq 0 n) as [|i l IH]; simpl; [reflexivity|].
  rewrite IH, Z.testbit_0_l. reflexivity.
Qed.

Lemma count_set_bits_popcount n v acc :
  count_set_bits n v acc = (acc + popcount n v)%Z.
Proof.
  revert v acc. induction n as [|n IH]; intros v acc.
  - unfold popcount. simpl. lia.
  - cbn [count_set_bits]. destruct (Z.eqb_spec v 0) as [->|Hv].
    + rewrite popcount_zero. lia.
    + rewrite IH, popcount_succ.
      assert (Hb : Z.land v 1 = Z.b2z (Z.testbit v 0)).
      { change 1%Z with (Z.ones 1). rewrite Z.land_ones by lia.
        rewrite Z.bit0_mod. reflexivity. }
      rewrite Hb. destruct (Z.testbit v 0); cbv [Z.b2z];
        [change (Z.eqb 1 0) with false|change (Z.eqb 0 0) with true];
        cbv iota; lia.
Qed.

Lemma check_prefix_IPv4_netmask_24 st :
  check_prefix_IPv4 inet_pton_AF_INET6
    (Some (strip_leading_whitespaces "255.255.255.0")) st
  = Some (inr (Some "24"), st,
          [Ev_LE_WARN (WARN_prefix_length_invalid "255.255.255.0");
           Ev_LE_WARN WARN_deprecated_network_mask]).
Proof. reflexivity. Qed.

Lemma DcsNetChangeRoute_eq E dest prefix intf isAdd st :
  DcsNetChangeRoute E dest (Some prefix) intf isAdd st
  = Some (ans_ChangeRoute E (route_action isAdd) dest prefix intf, st,
          [Ev_pa_dcs_ChangeRoute (route_action isAdd) dest prefix intf]).
Proof. reflexivity. Qed.

(** C7. The destination is an IPv4 literal and the prefix length is given
    as ["255.255.255.0"]: the string is longer than three characters, so it
    is refused as a prefix length, accepted as an IPv4 literal, and turned
    into the number of bits set in the mask (the loop counts the bits set
    in any 32-bit value), written in decimal; the deprecation warning is
    logged and, once the interface of the channel is known, the adapter is
    handed the prefix length ["24"]. *)
Theorem change_route_converts_netmask_to_24 :
  forall (E : Env) (ch : le_dcs_ChannelRef_t) (db : le_dcs_channelDb_t)
         (dest intf : string) (isAdd : bool) (st : State),
    le_dcs_GetChannelDbFromRef E ch = Some db ->
    unsupported_technology LE_DCS_TECH_UNKNOWN LE_DCS_TECH_MAX (technology db)
      = false ->
    inet_pton_AF_INET (strip_leading_whitespaces dest) <> None ->
    ans_GetNetInterface E (technology db) ch = (LE_OK, intf) ->
    DcsConvertPrefixLengthString (Some "255.255.255.0") = (-1)%Z
    /\ (forall mask : Z, count_set_bits 32 mask 0 = popcount 32 mask)
    /\ ConvertSubnetMaskToPrefixLength "255.255.255.0" 3 = (LE_OK, Some "24")
    /\ le_net_ChangeRoute' E ch (Some dest) (Some "255.255.255.0") isAdd st
       = Some (ans_ChangeRoute E (route_action isAdd)
                 (strip_leading_whitespaces dest) "24" intf,
               st,
               [Ev_LE_WARN (WARN_prefix_length_invalid "255.255.255.0");
                Ev_LE_WARN WARN_deprecated_network_mask;
                Ev_le_dcsTech_GetNetInterface (technology db) ch;
                Ev_pa_dcs_ChangeRoute (route_action isAdd)
                  (strip_leading_whitespaces dest) "24" intf]).
Proof.
  intros E ch db dest intf isAdd st Hdb Htech Hdest Hintf.
  split; [reflexivity|].
  split; [intros mask; rewrite count_set_bits_popcount; reflexivity|].
  split; [reflexivity|].
  unfold le_net_ChangeRoute. rewrite Hdb, Htech.
  unfold DcsNetValidateIpAddress at 1.
  destruct (inet_pton_AF_INET (strip_leading_whitespaces dest)) as [bytes|];
    [|contradiction].
  cbn [le_result_eqb].
  rewrite (bind_eq _ _ _ _ _ _ (check_prefix_IPv4_netmask_24 st)).
  unfold le_dcsTech_GetNetInterface, bind, emit, ret. rewrite Hintf.
  cbn [le_result_eqb negb]. rewrite DcsNetChangeRoute_eq. reflexivity.
Qed.

(** ** The prefix length parser and what its caller makes of the value *)

Lemma to_uint16_small z : (0 <= z < 65536)%Z -> to_uint16 z = z.
Proof. intros H. unfold to_uint16. apply Z.mod_small. exact H. Qed.

Lemma DcsConvertPrefixLengthString_long input :
  (3 < Z.of_nat (String.length input) < 65536)%Z ->
  DcsConvertPrefixLengthString (Some input) = (-1)%Z.
Proof.
  intros H. unfold DcsConvertPrefixLengthString, IPV6_PREFIX_LEN_STR_LENGTH.
  rewrite to_uint16_small by lia.
  destruct (Z.eqb_spec (Z.of_nat (String.length input)) 0); [lia|].
  destruct (Z.ltb_spec 3 (Z.of_nat (String.length input))); [reflexivity|lia].
Qed.

Lemma strtol_digits_no_digit s :
  starts_with_digit s = false -> strtol_digits s 0 = 0%Z.
Proof. destruct s as [|c s]; simpl; [reflexivity|]. intros ->. reflexivity. Qed.

Lemma strtol_no_number s : starts_with_number s = false -> strtol s = 0%Z.
Proof.
  unfold starts_with_number, strtol.
  destruct (skip_isspace s) as [|c s']; [reflexivity|].
  destruct (Ascii.eqb c "-"); simpl.
  - intros H. rewrite (strtol_digits_no_digit _ H). reflexivity.
  - destruct (Ascii.eqb c "+"); simpl.
    + intros H. rewrite (strtol_digits_no_digit _ H). reflexivity.
    + intros ->. reflexivity.
Qed.

Lemma DcsConvertPrefixLengthString_no_number input :
  String.length input <= 3 -> starts_with_number input = false ->
  DcsConvertPrefixLengthString (Some input) = 0%Z.
Proof.
  intros Hlen Hno. unfold DcsConvertPrefixLengthString, IPV6_PREFIX_LEN_STR_LENGTH.
  rewrite to_uint16_small by lia.
  destruct (Z.eqb_spec (Z.of_nat (String.length input)) 0); [reflexivity|].
  destruct (Z.ltb_spec 3 (Z.of_nat (String.length input))); [lia|].
  rewrite (strtol_no_number _ Hno). reflexivity.
Qed.

Lemma check_prefix_zero p st :
  DcsConvertPrefixLengthString (Some p) = 0%Z ->
  check_prefix_IPv4 inet_pton_AF_INET6 (Some p) st = Some (inr (Some ""), st, [])
  /\ check_prefix_IPv6 (Some p) st = Some (inr (Some ""), st, []).
Proof.
  intros H. unfold check_prefix_IPv4, check_prefix_IPv6. rewrite H.
  split; reflexivity.
Qed.

Lemma check_prefix_negative p st :
  (DcsConvertPrefixLengthString (Some p) < 0)%Z ->
  check_prefix_IPv6 (Some p) st = Some (inl LE_BAD_PARAMETER, st, [])
  /\ (inet_pton_AF_INET p = None ->
      check_prefix_IPv4 inet_pton_AF_INET6 (Some p) st
      = Some (inl LE_BAD_PARAMETER, st,
              [Ev_LE_WARN (WARN_prefix_length_invalid p)])).
Proof.
  intros H. unfold check_prefix_IPv4, check_prefix_IPv6, prefix_out_of_range.
  destruct (Z.ltb_spec (DcsConvertPrefixLengthString (Some p)) 0); [|lia].
  cbn [orb]. split; [reflexivity|].
  intros H4. unfold DcsNetValidateIpAddress. rewrite H4. reflexivity.
Qed.

(** C6, amended. The parser answers -1 to every string of more than three
    (and fewer than 65536) characters, and 0 to every string of at most
    three characters that does not begin, after white space and an optional
    sign, with a digit. [le_net_ChangeRoute] refuses a negative value with
    [LE_BAD_PARAMETER] and without calling the adapter (for an IPv4
    destination, as long as the prefix is not itself an IPv4 literal); the
    value 0 it does not refuse: it goes on and hands the adapter the empty
    prefix. *)
Theorem prefix_length_parser_and_caller :
  (forall input : string,
      (3 < Z.of_nat (String.length input) < 65536)%Z ->
      DcsConvertPrefixLengthString (Some input) = (-1)%Z)
  /\ (forall input : string,
         String.length input <= 3 -> starts_with_number input = false ->
         DcsConvertPrefixLengthString (Some input) = 0%Z)
  /\ (forall (E : Env) (ch : le_dcs_ChannelRef_t) (db : le_dcs_channelDb_t)
             (dest prefix : string) (isAdd : bool) (st : State),
         le_dcs_GetChannelDbFromRef E ch = Some db ->
         unsupported_technology LE_DCS_TECH_UNKNOWN LE_DCS_TECH_MAX
           (technology db) = false ->
         inet_pton_AF_INET (strip_leading_whitespaces dest) <> None
         \/ inet_pton_AF_INET6 (strip_leading_whitespaces dest) = true ->
         (inet_pton_AF_INET (strip_leading_whitespaces dest) <> None ->
          inet_pton_AF_INET (strip_leading_whitespaces prefix) = None) ->
         (DcsConvertPrefixLengthString
            (Some (strip_leading_whitespaces prefix)) < 0)%Z ->
         exists ev,
           le_net_ChangeRoute' E ch (Some dest) (Some prefix) isAdd st
             = Some (LE_BAD_PARAMETER, st, ev)
           /\ filter is_change_route_call ev = [])
  /\ (forall (E : Env) (ch : le_dcs_ChannelRef_t) (db : le_dcs_channelDb_t)
             (dest prefix intf : string) (isAdd : bool) (st : State),
         le_dcs_GetChannelDbFromRef E ch = Some db ->
         unsupported_technology LE_DCS_TECH_UNKNOWN LE_DCS_TECH_MAX
           (technology db) = false ->
         inet_pton_AF_INET (strip_leading_whitespaces dest) <> None
         \/ inet_pton_AF_INET6 (strip_leading_whitespaces dest) = true ->
         ans_GetNetInterface E (technology db) ch = (LE_OK, intf) ->
         DcsConvertPrefixLengthString
           (Some (strip_leading_whitespaces prefix)) = 0%Z ->
         le_net_ChangeRoute' E ch (Some dest) (Some prefix) isAdd st
           = Some (ans_ChangeRoute E (route_action isAdd)
                     (strip_leading_whitespaces dest) "" intf,
                   st,
                   [Ev_le_dcsTech_GetNetInterface (technology db) ch;
                    Ev_pa_dcs_ChangeRoute (route_action isAdd)
                      (strip_leading_whitespaces dest) "" intf])).
Proof.
  split; [exact DcsConvertPrefixLengthString_long|].
  split; [exact DcsConvertPrefixLengthString_no_number|].
  split.
  - intros E ch db dest prefix isAdd st Hdb Htech Hdest Hmask Hneg.
    destruct (check_prefix_negative _ st Hneg) as [H6 H4].
    unfold le_net_ChangeRoute. rewrite Hdb, Htech.
    unfold DcsNetValidateIpAddress at 1 2.
    destruct (inet_pton_AF_INET (strip_leading_whitespaces dest)) as [bytes|].
    + cbn [le_result_eqb].
      rewrite (bind_eq _ _ _ _ _ _ (H4 (Hmask ltac:(discriminate)))).
      eexists. split; reflexivity.
    + destruct Hdest as [Hdest|Hdest]; [contradiction|]. rewrite Hdest.
      cbn [le_result_eqb]. rewrite (bind_eq _ _ _ _ _ _ H6).
      eexists. split; reflexivity.
  - intros E ch db dest prefix intf isAdd st Hdb Htech Hdest Hintf Hzero.
    destruct (check_prefix_zero _ st Hzero) as [H4 H6].
    unfold le_net_ChangeRoute. rewrite Hdb, Htech.
    unfold DcsNetValidateIpAddress at 1 2.
    destruct (inet_pton_AF_INET (strip_leading_whitespaces dest)) as [bytes|].
    + cbn [le_result_eqb]. rewrite (bind_eq _ _ _ _ _ _ H4).
      unfold le_dcsTech_GetNetInterface, bind, emit, ret. rewrite Hintf.
      cbn [le_result_eqb negb]. rewrite DcsNetChangeRoute_eq. reflexivity.
    + destruct Hdest as [Hdest|Hdest]; [contradiction|]. rewrite Hdest.
      cbn [le_result_eqb]. rewrite (bind_eq _ _ _ _ _ _ H6).
      unfold le_dcsTech_GetNetInterface, bind, emit, ret. rewrite Hintf.
      cbn [le_result_eqb negb]. rewrite DcsNetChangeRoute_eq. reflexivity.
Qed.

(** ** Reading the default gateway of a channel *)



(** ** The lease file parser on a line of DNS servers *)

Lemma find_line_first pre line post key pos :
  Forall (fun l => strstr (c_trunc l) key = None) pre ->
  strstr (c_trunc line) key = Some pos ->
  find_line (pre ++ line :: post) key = Some (line, pos).
Proof.
  intros Hpre Hline. induction Hpre as [|l pre Hl Hpre IH]; simpl.
  - rewrite Hline. reflexivity.
  - rewrite Hl. exact IH.
Qed.

Lemma le_utf8_Copy_fits src destSize :
  String.length src < destSize ->
  le_utf8_Copy src destSize = (LE_OK, src, String.length src).
Proof.
  intros H. unfold le_utf8_Copy.
  destruct (Nat.ltb_spec (String.length src) destSize); [reflexivity|lia].
Qed.

(** A token shorter than the row it is copied to can be read back from the
    row, whatever follows the row. *)
Lemma c_str_strncpy token n rest :
  c_trunc token = token -> String.length token < n ->
  c_str (strncpy token n ++ rest) = Some token.
Proof.
  revert n. induction token as [|c token IH]; intros n Hnul Hlen.
  - destruct n as [|n]; [simpl in Hlen; lia|]. reflexivity.
  - destruct n as [|n]; [simpl in Hlen; lia|]. simpl in *.
    destruct (Ascii.eqb c NUL); [discriminate|].
    inversion Hnul as [Hnul']. rewrite Hnul'.
    rewrite IH by (auto; lia). reflexivity.
Qed.

Lemma c_str_zero_row n rest : 0 < n -> c_str (repeat NUL n ++ rest) = Some "".
Proof. destruct n as [|n]; [lia|]. reflexivity. Qed.

Lemma dns_line_shape rest :
  Nat.ltb (String.length ("domain-name-servers 1.1.1.1 8.8.8.8;" ++ rest))
          (0 + Nat.min (String.length DNS_ADDRESS_OPTION)
                       DHCP_LEASE_OPTION_MAX_LEN_BYTES + 1) = false
  /\ c_trunc (string_drop (0 + Nat.min (String.length DNS_ADDRESS_OPTION)
                                       DHCP_LEASE_OPTION_MAX_LEN_BYTES + 1)
                ("domain-name-servers 1.1.1.1 8.8.8.8;" ++ rest))
     = ("1.1.1.1 8.8.8.8;" ++ c_trunc rest)%string
  /\ strchr ("1.1.1.1 8.8.8.8;" ++ c_trunc rest) semicolon = Some 15
  /\ String.substring 0 15 ("1.1.1.1 8.8.8.8;" ++ c_trunc rest)
     = "1.1.1.1 8.8.8.8".
Proof.
  repeat split; try reflexivity. destruct (c_trunc rest); reflexivity.
Qed.

Lemma GetDhcpLeaseFileEntry_dns_line E intf path stream result0 pre line rest post
    n st :
  ans_GetDhcpLeaseFilePath E intf = (LE_OK, path) ->
  ans_TryOpenStream E path = (Some stream, result0) ->
  fgets_lines (LEASE_FILE_MAX_LINE_LENGTH_BYTES PA_DCS_IPV4_ADDR_MAX_BYTES
                 PA_DCS_IPV6_ADDR_MAX_BYTES) stream ""
    = pre ++ line :: post ->
  Forall (fun l => strstr (c_trunc l) DNS_ADDRESS_OPTION = None) pre ->
  line = ("domain-name-servers 1.1.1.1 8.8.8.8;" ++ rest)%string ->
  16 + String.length (c_trunc rest) < n ->
  GetDhcpLeaseFileEntry' E intf LE_NET_DNS_SERVER_ADDRESS n st
  = Some (LE_OK, "1.1.1.1 8.8.8.8", 15 + String.length (c_trunc rest), st,
          [Ev_pa_dcs_GetDhcpLeaseFilePath intf; Ev_le_flock_TryOpenStream path]).
Proof.
  intros Hpath Hopen Hlines Hpre Hline Hfit.
  unfold GetDhcpLeaseFileEntry, pa_dcs_GetDhcpLeaseFilePath,
    le_flock_TryOpenStream, bind, emit, ret.
  rewrite Hpath. cbn [le_result_eqb negb].
  change (le_utf8_Copy DNS_ADDRESS_OPTION DHCP_LEASE_OPTION_MAX_LEN_BYTES)
    with (LE_OK, DNS_ADDRESS_OPTION, 19).
  cbv iota. rewrite Hopen, Hlines.
  rewrite (find_line_first pre line post DNS_ADDRESS_OPTION 0 Hpre)
    by (rewrite Hline; reflexivity).
  rewrite Hline.
  destruct (dns_line_shape rest) as (Hlt & Hdrop & Hsemi & Hsub).
  rewrite Hlt, Hdrop. rewrite le_utf8_Copy_fits by (simpl; lia).
  rewrite Hsemi, Hsub. reflexivity.
Qed.

Lemma GetLeaseAddresses_dns_line E intf path stream result0 pre line rest post
    v4 v6 st :
  ans_GetDhcpLeaseFilePath E intf = (LE_OK, path) ->
  ans_TryOpenStream E path = (Some stream, result0) ->
  fgets_lines (LEASE_FILE_MAX_LINE_LENGTH_BYTES PA_DCS_IPV4_ADDR_MAX_BYTES
                 PA_DCS_IPV6_ADDR_MAX_BYTES) stream ""
    = pre ++ line :: post ->
  Forall (fun l => strstr (c_trunc l) DNS_ADDRESS_OPTION = None) pre ->
  line = ("domain-name-servers 1.1.1.1 8.8.8.8;" ++ rest)%string ->
  16 + String.length (c_trunc rest)
    < MAX_NUM_DNS_ADDRESS_BY_TYPE
      * (PA_DCS_IPV4_ADDR_MAX_BYTES + PA_DCS_IPV6_ADDR_MAX_BYTES + 1) ->
  GetLeaseAddresses' E intf LE_NET_DNS_SERVER_ADDRESS
    v4 PA_DCS_IPV4_ADDR_MAX_BYTES v6 PA_DCS_IPV6_ADDR_MAX_BYTES
    MAX_NUM_DNS_ADDRESS_BY_TYPE st
  = Some (LE_OK,
          [strncpy "1.1.1.1" PA_DCS_IPV4_ADDR_MAX_BYTES;
           strncpy "8.8.8.8" PA_DCS_IPV4_ADDR_MAX_BYTES],
          zero_rows PA_DCS_IPV6_ADDR_MAX_BYTES 2,
          st,
          [Ev_pa_dcs_GetDhcpLeaseFilePath intf; Ev_le_flock_TryOpenStream path]).
Proof.
  intros Hpath Hopen Hlines Hpre Hline Hfit.
  unfold GetLeaseAddresses.
  change (Nat.ltb MAX_NUM_DNS_ADDRESS_BY_TYPE MAX_NUM_DNS_ADDRESS_BY_TYPE)
    with false. cbv iota.
  rewrite (bind_eq _ _ _ _ _ _
             (GetDhcpLeaseFileEntry_dns_line E intf path stream result0 pre line
                rest post _ st Hpath Hopen Hlines Hpre Hline Hfit)).
  reflexivity.
Qed.

(** Each call of [strtok_r] that returns a token leaves a shorter string. *)
Lemma skip_spaces_length s : String.length (skip_spaces s) <= String.length s.
Proof.
  induction s as [|c s IH]; simpl; [lia|].
  destruct (Ascii.eqb c space); simpl; lia.
Qed.

Lemma cut_at_space_length s :
  String.length (snd (cut_at_space s)) <= String.length s.
Proof.
  induction s as [|c s IH]; simpl; [lia|].
  destruct (Ascii.eqb c space); simpl; [lia|].
  destruct (cut_at_space s) as [t r]. simpl in *. lia.
Qed.

Lemma strtok_r_shorter s token rest :
  strtok_r s = Some (token, rest) -> String.length rest < String.length s.
Proof.
  unfold strtok_r. pose proof (skip_spaces_length s) as Hskip.
  destruct (skip_spaces s) as [|c s1]; [discriminate|].
  intros H. inversion H as [Hcut]. clear H.
  simpl in Hcut, Hskip. destruct (Ascii.eqb c space).
  - inversion Hcut; subst. lia.
  - pose proof (cut_at_space_length s1) as Hle.
    destruct (cut_at_space s1) as [t r]. inversion Hcut; subst.
    simpl in Hle. lia.
Qed.

Lemma fill_rows_full size n rows cnt toks :
  n <= cnt -> fill_rows size n rows cnt toks = rows.
Proof.
  intros H. destruct toks as [|t toks]; simpl; [reflexivity|].
  destruct (Nat.ltb_spec cnt n); [lia|reflexivity].
Qed.

(** The loop of [GetLeaseAddresses] never runs out of rounds, and what it
    leaves in the two arrays is: the tokens without a colon in the rows of
    the IPv4 array, those with a colon in the rows of the IPv6 array, each
    family in the order of the line, and no more of a family than the
    array has rows. *)
Lemma GetLeaseAddresses_loop_fills fuel rest s4 s6 n v4 c4 v6 c6 :
  String.length rest < fuel ->
  GetLeaseAddresses_loop fuel rest s4 s6 n v4 c4 v6 c6
  = Some (fill_rows s4 n v4 c4
            (filter (fun t => negb (has_colon t)) (tokens_upto fuel rest)),
          fill_rows s6 n v6 c6 (filter has_colon (tokens_upto fuel rest))).
Proof.
  revert rest v4 c4 v6 c6.
  induction fuel as [|fuel IH]; intros rest v4 c4 v6 c6 Hfuel; [lia|].
  cbn [GetLeaseAddresses_loop tokens_upto].
  destruct (strtok_r rest) as [[token rest']|] eqn:Htok; [|reflexivity].
  apply strtok_r_shorter in Htok.
  assert (Hfuel' : String.length rest' < fuel) by lia.
  fold (has_colon token). cbn [filter].
  destruct (has_colon token); cbn [negb andb].
  - destruct (Nat.ltb_spec c6 n) as [Hc|Hc].
    + rewrite IH by exact Hfuel'. cbn [fill_rows].
      destruct (Nat.ltb_spec c6 n); [reflexivity|lia].
    + rewrite IH by exact Hfuel'.
      rewrite (fill_rows_full s6 n v6 c6 (token :: _)) by exact Hc.
      rewrite (fill_rows_full s6 n v6 c6) by exact Hc. reflexivity.
  - destruct (Nat.ltb_spec c4 n) as [Hc|Hc].
    + rewrite IH by exact Hfuel'. cbn [fill_rows].
      destruct (Nat.ltb_spec c4 n); [reflexivity|lia].
    + rewrite IH by exact Hfuel'.
      rewrite (fill_rows_full s4 n v4 c4 (token :: _)) by exact Hc.
      rewrite (fill_rows_full s4 n v4 c4) by exact Hc. reflexivity.
Qed.

(** C8. The value of an option is split at the spaces; a token goes to the
    IPv6 array when it holds a colon and to the IPv4 array otherwise, each
    array takes the tokens of its family in order while it has a row left,
    and the others are dropped. In particular, when the first line of the
    lease file in which the option [domain-name-servers] occurs reads
    [domain-name-servers 1.1.1.1 8.8.8.8;] (whatever follows the semicolon,
    as long as the value fits the address buffer), [le_net_GetDNS] returns
    [LE_OK] with ["1.1.1.1"] and ["8.8.8.8"] as the IPv4 servers and no IPv6
    server; the address arrays are wide enough for seven characters and a
    terminator. *)
Theorem get_dns_reads_servers_from_lease_line :
  (forall (value : string) (v4AddrSize v6AddrSize numAddresses : nat)
          (v4 v6 : list (list ascii)),
      GetLeaseAddresses_loop (S (String.length value)) value
        v4AddrSize v6AddrSize numAddresses v4 0 v6 0
      = Some (fill_rows v4AddrSize numAddresses v4 0
                (filter (fun t => negb (has_colon t)) (tokens value)),
              fill_rows v6AddrSize numAddresses v6 0
                (filter has_colon (tokens value))))
  /\ (forall (E : Env) (ch : le_dcs_ChannelRef_t) (db : le_dcs_channelDb_t)
             (a : le_net_DnsServerAddresses_t) (intf path stream : string)
             (result0 : le_result_t) (pre : list string) (line rest : string)
             (post : list string) (st : State),
         8 <= PA_DCS_IPV4_ADDR_MAX_BYTES -> 1 <= PA_DCS_IPV6_ADDR_MAX_BYTES ->
         8 <= sizeof_ipv4Addr -> 1 <= sizeof_ipv6Addr ->
         le_dcs_GetChannelDbFromRef E ch = Some db ->
         ans_GetNetInterface E (technology db) ch = (LE_OK, intf) ->
         ans_GetDhcpLeaseFilePath E intf = (LE_OK, path) ->
         ans_TryOpenStream E path = (Some stream, result0) ->
         fgets_lines
           (LEASE_FILE_MAX_LINE_LENGTH_BYTES PA_DCS_IPV4_ADDR_MAX_BYTES
              PA_DCS_IPV6_ADDR_MAX_BYTES) stream ""
           = pre ++ line :: post ->
         Forall (fun l => strstr (c_trunc l) DNS_ADDRESS_OPTION = None) pre ->
         line = ("domain-name-servers 1.1.1.1 8.8.8.8;" ++ rest)%string ->
         16 + String.length (c_trunc rest)
           < MAX_NUM_DNS_ADDRESS_BY_TYPE
             * (PA_DCS_IPV4_ADDR_MAX_BYTES + PA_DCS_IPV6_ADDR_MAX_BYTES + 1) ->
         le_net_GetDNS' E ch (Some a) st
         = Some (LE_OK,
                 Some {| ipv4Addr1 := "1.1.1.1"; ipv4Addr2 := "8.8.8.8";
                         ipv6Addr1 := ""; ipv6Addr2 := "" |},
                 st,
                 [Ev_le_dcsTech_GetNetInterface (technology db) ch;
                  Ev_pa_dcs_GetDhcpLeaseFilePath intf;
                  Ev_le_flock_TryOpenStream path])).
Proof.
  split.
  { intros value s4 s6 n v4 v6. apply GetLeaseAddresses_loop_fills. lia. }
  intros E ch db a intf path stream result0 pre line rest post st
    H4 H6 Hs4 Hs6 Hdb Hintf Hpath Hopen Hlines Hpre Hline Hfit.
  unfold le_net_GetDNS. rewrite Hdb.
  assert (Hni : le_dcsTech_GetNetInterface E (technology db) ch st
                = Some (LE_OK, intf, st,
                        [Ev_le_dcsTech_GetNetInterface (technology db) ch])).
  { unfold le_dcsTech_GetNetInterface, bind, emit, ret. rewrite Hintf.
    reflexivity. }
  rewrite (bind_eq _ _ _ _ _ _ Hni). cbn [le_result_eqb negb].
  rewrite (bind_eq _ _ _ _ _ _
             (GetLeaseAddresses_dns_line E intf path stream result0 pre line
                rest post _ _ st Hpath Hopen Hlines Hpre Hline Hfit)).
  cbn [le_result_eqb negb]. unfold row_str, zero_rows.
  cbn [skipn List.concat repeat].
  rewrite !c_str_strncpy by (try reflexivity; simpl; lia).
  rewrite !c_str_zero_row by lia.
  rewrite !le_utf8_Copy_fits by (simpl; lia).
  reflexivity.
Qed.

End Properties.

(** * The properties on the small system *)

(** C1. After [le_net_BackupDefaultGW] the backup of the calling session
    has both flags cleared, in every state and whatever the adapter reports:
    the flag written on a match is the one of the incoming structure, which
    [le_net_BackupDefaultGW] has just zeroed. So the flag of a backup that
    was already on the list is not kept when the address and the interface
    are unchanged. Session 7 backs up the gateway [10.0.0.1] on [eth0] and
    sets the gateway of its channel, which the adapter installs: its backup
    is marked as installed for IPv4. It backs up again while the system
    gateway is still [10.0.0.1] on [eth0], the very address and interface
    archived: the mark is cleared, and the restore that follows asks nothing
    of the adapter. *)
Theorem rebackup_of_unchanged_gateway_clears_installed :
  (forall (E : Env) (l : State),
      exists d l',
        le_net_BackupDefaultGW E l
        = Some (tt, d :: l', [Ev_pa_dcs_GetDefaultGateway])
        /\ snapshot_of (DcsNetGetSessionRef E) (d :: l') = Some d
        /\ setV4GwToSystem d = false /\ setV6GwToSystem d = false)
  /\ run 16 46 0%Z 2%Z 3%Z [OpBackup example_A; OpSet example_A 1%N]
    LE_DLS_LIST_INIT
  = Some (tt, [example_snapshot true],
          [Ev_pa_dcs_GetDefaultGateway;
           Ev_le_dcsTech_GetNetInterface 1%Z 1%N;
           Ev_pa_dcs_GetDhcpLeaseFilePath "eth0";
           Ev_le_flock_TryOpenStream "/var/run/eth0";
           Ev_pa_dcs_SetDefaultGateway "eth0" "10.0.0.1" false])
  /\ defaultV4GW (example_snapshot true)
     = gwV4GW (ans_GetDefaultGateway example_A)
  /\ defaultV4Interface (example_snapshot true)
     = gwV4Interface (ans_GetDefaultGateway example_A)
  /\ le_net_BackupDefaultGW example_A [example_snapshot true]
     = Some (tt, [example_snapshot false], [Ev_pa_dcs_GetDefaultGateway])
  /\ le_net_RestoreDefaultGW example_A [example_snapshot false]
     = Some (LE_OK, [], []).
Proof.
  split; [|repeat split; reflexivity].
  intros E l. do 2 eexists. split; [apply le_net_BackupDefaultGW_eq|].
  split; [|split; reflexivity].
  unfold snapshot_of, backed_up. simpl. rewrite N.eqb_refl. reflexivity.
Qed.

(** Session 7 backs up and sets; session 9 backs up; session 7 sets again
    and then restores, out of order: one call for IPv4, with the archived
    interface and gateway. *)
Lemma restore_after_set_calls_adapter_once_witness :
  exists r l3 ev3,
    le_net_RestoreDefaultGW example_A
      [example_snapshot_of 9%N false false; example_snapshot true]
    = Some (r, l3, ev3)
    /\ filter (is_set_call_for false) ev3
       = [Ev_pa_dcs_SetDefaultGateway "eth0" "10.0.0.1" false].
Proof.
  eapply (restore_after_set_calls_adapter_once 16 46 0%Z 2%Z 3%Z
            example_A 1%N [example_snapshot false] (example_snapshot false)
            _ _ _ "eth0" "10.0.0.1" false
            [OpBackup example_B; OpSet example_A 1%N] _ _ example_A).
  - reflexivity.
  - reflexivity.
  - simpl. auto 10.
  - reflexivity.
  - repeat constructor.
  - reflexivity.
  - reflexivity.
Defined.

(** Without that condition a later restore of the session may call nothing.
    Session 7 has a backup and its [le_net_SetDefaultGW] has the adapter
    install the IPv4 gateway. When the session backs up again, the backup
    that was marked is replaced by one that is not, and the restore that
    follows calls [pa_dcs_SetDefaultGateway] for no family. When the
    session restores, the call is made and the backup is gone, and the
    restore that follows finds none: [LE_NOT_FOUND], and no call. *)
Lemma later_restore_after_own_backup_or_restore_sets_nothing :
  snapshot_of (DcsNetGetSessionRef example_A) [example_snapshot false]
  = Some (example_snapshot false)
  /\ le_net_SetDefaultGW 16 46 0%Z 2%Z 3%Z example_A 1%N [example_snapshot false]
     = Some (LE_OK, [example_snapshot true],
             [Ev_le_dcsTech_GetNetInterface 1%Z 1%N;
              Ev_pa_dcs_GetDhcpLeaseFilePath "eth0";
              Ev_le_flock_TryOpenStream "/var/run/eth0";
              Ev_pa_dcs_SetDefaultGateway "eth0" "10.0.0.1" false])
  /\ ans_SetDefaultGateway example_A "eth0" "10.0.0.1" false = LE_OK
  /\ run 16 46 0%Z 2%Z 3%Z [OpBackup example_A] [example_snapshot true]
     = Some (tt, [example_snapshot false], [Ev_pa_dcs_GetDefaultGateway])
  /\ le_net_RestoreDefaultGW example_A [example_snapshot false]
     = Some (LE_OK, [], [])
  /\ run 16 46 0%Z 2%Z 3%Z [OpRestore example_A] [example_snapshot true]
     = Some (tt, [],
             [Ev_pa_dcs_SetDefaultGateway "eth0" "10.0.0.1" false])
  /\ le_net_RestoreDefaultGW example_A [] = Some (LE_NOT_FOUND, [], []).
Proof. repeat split; reflexivity. Qed.

Lemma at_most_one_snapshot_per_session_witness :
  List.length
    (snapshots_of 7%N
       [example_snapshot_of 9%N false false; example_snapshot true]) <= 1.
Proof.
  eapply (at_most_one_snapshot_per_session 16 46 0%Z 2%Z 3%Z
            [OpBackup example_A; OpSet example_A 1%N; OpBackup example_B;
             OpSet example_A 1%N]).
  reflexivity.
Defined.

(** Session 9 has backed up; session 7 backs up, session 9 sets the gateway,
    session 7 backs up again and restores. *)
Lemma restore_after_backup_alone_sets_nothing_witness :
  exists r l3 ev3,
    le_net_RestoreDefaultGW example_A
      [example_snapshot false; example_snapshot_of 9%N true false]
    = Some (r, l3, ev3)
    /\ filter is_set_call ev3 = [].
Proof.
  eapply (restore_after_backup_alone_sets_nothing 16 46 0%Z 2%Z 3%Z
            [OpBackup example_B] _ _ example_A
            [OpSet example_B 1%N; OpBackup example_A] _ _ example_A).
  - reflexivity.
  - reflexivity.
  - repeat constructor.
  - reflexivity.
Defined.

(** On the cellular channel both families are installed; the adapter then
    fails both restorations: [LE_FAULT], and the backup is gone. *)
Lemma restore_always_removes_snapshot_witness :
  exists r l' ev,
    le_net_RestoreDefaultGW example_A_failing [example_snapshot_of 7%N true true]
    = Some (r, l', ev)
    /\ r = LE_FAULT
    /\ snapshots_of 7%N l' = []
    /\ le_net_RestoreDefaultGW example_A_failing l'
       = Some (LE_NOT_FOUND, l', []).
Proof.
  destruct (restore_always_removes_snapshot 16 46 0%Z 2%Z 3%Z
              [OpBackup example_A_cellular; OpSet example_A_cellular 1%N]
              [example_snapshot_of 7%N true true] _ example_A_failing
              (example_snapshot_of 7%N true true) eq_refl eq_refl)
    as (r & l' & ev & Hr & Hnone & _ & Hfault & Hagain).
  exists r, l', ev. split; [exact Hr|]. split; [|split].
  - apply Hfault; try reflexivity; discriminate.
  - exact Hnone.
  - apply Hagain. reflexivity.
Defined.

Lemma change_route_rejects_invalid_destination_witness :
  exists ev,
    le_net_ChangeRoute 0%Z 3%Z example_inet_pton6 example_A 1%N
      (Some " 10.0.0.256") (Some "24") true []
    = Some (LE_BAD_PARAMETER, [], ev)
    /\ ev = [] /\ filter is_change_route_call ev = [].
Proof.
  apply (change_route_rejects_invalid_destination 0%Z 3%Z example_inet_pton6
           example_A 1%N (example_channel 1%Z)).
  - reflexivity.
  - reflexivity.
  - right. exists " 10.0.0.256". repeat split; reflexivity.
Defined.

Lemma change_route_converts_netmask_to_24_witness :
  le_net_ChangeRoute 0%Z 3%Z example_inet_pton6 example_A 1%N
    (Some "10.0.0.0") (Some "255.255.255.0") true []
  = Some (LE_OK, [],
          [Ev_LE_WARN (WARN_prefix_length_invalid "255.255.255.0");
           Ev_LE_WARN WARN_deprecated_network_mask;
           Ev_le_dcsTech_GetNetInterface 1%Z 1%N;
           Ev_pa_dcs_ChangeRoute PA_DCS_ROUTE_ADD "10.0.0.0" "24" "eth0"]).
Proof.
  apply (change_route_converts_netmask_to_24 0%Z 3%Z example_inet_pton6
           example_A 1%N (example_channel 1%Z) "10.0.0.0" "eth0" true []).
  - reflexivity.
  - reflexivity.
  - discriminate.
  - reflexivity.
Defined.

(** A prefix length of four characters is refused; a prefix length without
    a number is taken as no prefix at all. *)
Lemma prefix_length_parser_and_caller_witness :
  DcsConvertPrefixLengthString (Some "1234") = (-1)%Z
  /\ DcsConvertPrefixLengthString (Some "abc") = 0%Z
  /\ (exists ev,
        le_net_ChangeRoute 0%Z 3%Z example_inet_pton6 example_A 1%N
          (Some "2001:db8::") (Some "1234") true []
        = Some (LE_BAD_PARAMETER, [], ev)
        /\ filter is_change_route_call ev = [])
  /\ le_net_ChangeRoute 0%Z 3%Z example_inet_pton6 example_A 1%N
       (Some "10.0.0.0") (Some "abc") true []
     = Some (LE_OK, [],
             [Ev_le_dcsTech_GetNetInterface 1%Z 1%N;
              Ev_pa_dcs_ChangeRoute PA_DCS_ROUTE_ADD "10.0.0.0" "" "eth0"]).
Proof.
  destruct (prefix_length_parser_and_caller 0%Z 3%Z example_inet_pton6)
    as (Hlong & Hnone & Hneg & Hzero).
  split; [apply Hlong; simpl; lia|].
  split; [apply Hnone; [simpl; lia|reflexivity]|].
  split.
  - apply (Hneg example_A 1%N (example_channel 1%Z)).
    + reflexivity.
    + reflexivity.
    + right. reflexivity.
    + intros H. exfalso. apply H. reflexivity.
    + reflexivity.
  - apply (Hzero example_A 1%N (example_channel 1%Z) "10.0.0.0" "abc" "eth0").
    + reflexivity.
    + reflexivity.
    + left. discriminate.
    + reflexivity.
    + reflexivity.
Defined.

(** The prefix length ["1a"] holds a character that is not a digit, and yet
    the parser answers 1, which is neither 0 nor negative, and
    [le_net_ChangeRoute] hands the string to the adapter as it is; ["abc"]
    makes the parser answer 0, and [le_net_ChangeRoute] does not refuse it
    either. *)
Lemma prefix_length_with_a_letter_is_accepted :
  forallb isdigit (list_ascii_of_string "1a") = false
  /\ DcsConvertPrefixLengthString (Some "1a") = 1%Z
  /\ le_net_ChangeRoute 0%Z 3%Z example_inet_pton6 example_A 1%N
       (Some "10.0.0.0") (Some "1a") true []
     = Some (LE_OK, [],
             [Ev_le_dcsTech_GetNetInterface 1%Z 1%N;
              Ev_pa_dcs_ChangeRoute PA_DCS_ROUTE_ADD "10.0.0.0" "1a" "eth0"])
  /\ forallb isdigit (list_ascii_of_string "abc") = false
  /\ DcsConvertPrefixLengthString (Some "abc") = 0%Z
  /\ le_net_ChangeRoute 0%Z 3%Z example_inet_pton6 example_A 1%N
       (Some "10.0.0.0") (Some "abc") true []
     = Some (LE_OK, [],
             [Ev_le_dcsTech_GetNetInterface 1%Z 1%N;
              Ev_pa_dcs_ChangeRoute PA_DCS_ROUTE_ADD "10.0.0.0" "" "eth0"]).
Proof. repeat split; reflexivity. Qed.

Lemma get_dns_reads_servers_from_lease_line_witness :
  le_net_GetDNS 16 46 16 46 example_A 1%N (Some zeroed_DnsServerAddresses) []
  = Some (LE_OK,
          Some {| ipv4Addr1 := "1.1.1.1"; ipv4Addr2 := "8.8.8.8";
                  ipv6Addr1 := ""; ipv6Addr2 := "" |},
          [],
          [Ev_le_dcsTech_GetNetInterface 1%Z 1%N;
           Ev_pa_dcs_GetDhcpLeaseFilePath "eth0";
           Ev_le_flock_TryOpenStream "/var/run/eth0"]).
Proof.
  apply (proj2 (get_dns_reads_servers_from_lease_line 16 46 16 46)
           example_A 1%N (example_channel 1%Z)
           zeroed_DnsServerAddresses "eth0" "/var/run/eth0" example_lease_file
           LE_OK
           [("routers 10.0.0.1;" ++ String newline "")%string]
           ("domain-name-servers 1.1.1.1 8.8.8.8;" ++ String newline "")%string
           (String newline "") [] []).
  - lia.
  - lia.
  - lia.
  - lia.
  - reflexivity.
  - reflexivity.
  - reflexivity.
  - reflexivity.
  - reflexivity.
  - repeat constructor.
  - reflexivity.
  - simpl. lia.
Defined.


(** * Further properties of the component *)

Section FurtherProperties.

Variables PA_DCS_IPV4_ADDR_MAX_BYTES PA_DCS_IPV6_ADDR_MAX_BYTES : nat.
Variables sizeof_ipv4Addr sizeof_ipv6Addr : nat.
Variables LE_DCS_TECH_UNKNOWN LE_DCS_TECH_CELLULAR LE_DCS_TECH_MAX : le_dcs_Technology_t.
Variable inet_pton_AF_INET6 : string -> bool.

Local Abbreviation GetDhcpLeaseFileEntry' :=
  (GetDhcpLeaseFileEntry PA_DCS_IPV4_ADDR_MAX_BYTES PA_DCS_IPV6_ADDR_MAX_BYTES).
Local Abbreviation GetLeaseAddresses' :=
  (GetLeaseAddresses PA_DCS_IPV4_ADDR_MAX_BYTES PA_DCS_IPV6_ADDR_MAX_BYTES).
Local Abbreviation le_net_SetDefaultGW' :=
  (le_net_SetDefaultGW PA_DCS_IPV4_ADDR_MAX_BYTES PA_DCS_IPV6_ADDR_MAX_BYTES
     LE_DCS_TECH_UNKNOWN LE_DCS_TECH_CELLULAR LE_DCS_TECH_MAX).
Local Abbreviation le_net_GetDefaultGW' :=
  (le_net_GetDefaultGW PA_DCS_IPV4_ADDR_MAX_BYTES PA_DCS_IPV6_ADDR_MAX_BYTES
     sizeof_ipv4Addr sizeof_ipv6Addr).
Local Abbreviation le_net_GetDNS' :=
  (le_net_GetDNS PA_DCS_IPV4_ADDR_MAX_BYTES PA_DCS_IPV6_ADDR_MAX_BYTES
     sizeof_ipv4Addr sizeof_ipv6Addr).
Local Abbreviation le_net_ChangeRoute' :=
  (le_net_ChangeRoute LE_DCS_TECH_UNKNOWN LE_DCS_TECH_MAX inet_pton_AF_INET6).
Local Abbreviation run' :=
  (run PA_DCS_IPV4_ADDR_MAX_BYTES PA_DCS_IPV6_ADDR_MAX_BYTES
     LE_DCS_TECH_UNKNOWN LE_DCS_TECH_CELLULAR LE_DCS_TECH_MAX).
Local Abbreviation le_net_SetDNS' :=
  (le_net_SetDNS PA_DCS_IPV4_ADDR_MAX_BYTES PA_DCS_IPV6_ADDR_MAX_BYTES
     LE_DCS_TECH_UNKNOWN LE_DCS_TECH_CELLULAR LE_DCS_TECH_MAX).
Local Abbreviation step' :=
  (step PA_DCS_IPV4_ADDR_MAX_BYTES PA_DCS_IPV6_ADDR_MAX_BYTES
     LE_DCS_TECH_UNKNOWN LE_DCS_TECH_CELLULAR LE_DCS_TECH_MAX).

Ltac split_matches :=
  repeat match goal with
         | |- context [match ?x with _ => _ end] =>
             lazymatch x with
             | context [match _ with _ => _ end] => fail
             | _ => destruct x eqn:?
             end
         end.

Ltac invert_some :=
  match goal with
  | |- Some _ = Some _ -> _ =>
      let H := fresh in intros H; inversion H; subst; clear H
  | |- None = Some _ -> _ => discriminate
  end.

(** ** The list of backups *)

(** The backup found for a session splits the list: nothing of the session
    before it, and removing it keeps the rest in order. *)
Lemma scan_split ref l i d :
  GetDefaultGwConfigDb_scan ref l = Some (i, d) ->
  exists l1 l2,
    l = l1 ++ d :: l2 /\ List.length l1 = i /\ snapshots_of ref l1 = []
    /\ le_dls_Remove l i = l1 ++ l2.
Proof.
  revert i. induction l as [|x l IH]; simpl; intros i H; [discriminate|].
  destruct (N.eqb (appSessionRef x) ref) eqn:Hx.
  - inversion H; subst. exists [], l. auto.
  - destruct (GetDefaultGwConfigDb_scan ref l) as [[j d']|]; [|discriminate].
    inversion H; subst. destruct (IH j eq_refl) as (l1 & l2 & -> & Hlen & Hno & Hrm).
    exists (x :: l1), l2. rewrite le_dls_Remove_tail, Hrm. simpl. rewrite Hx.
    auto.
Qed.

Lemma snapshots_of_app ref l1 l2 :
  snapshots_of ref (l1 ++ l2) = snapshots_of ref l1 ++ snapshots_of ref l2.
Proof. apply filter_app. Qed.

Lemma without_snapshot_of_length ref l :
  List.length (without_snapshot_of ref l)
  = match snapshot_of ref l with
    | Some _ => List.length l - 1
    | None => List.length l
    end.
Proof.
  unfold without_snapshot_of, snapshot_of.
  destruct (GetDefaultGwConfigDb_scan ref l) as [[i d]|] eqn:H; [|reflexivity].
  destruct (scan_split _ _ _ _ H) as (l1 & l2 & -> & _ & _ & ->).
  rewrite !length_app. simpl. lia.
Qed.

(** X1. [le_net_BackupDefaultGW] always succeeds, asks the adapter once for
    the current gateways, and leaves the backup of the calling session at
    the start of the list, where [GetDefaultGwConfigDb] finds it as the most
    recent one, holding what the adapter reported and no flag; the backup
    found for any other session is the one found before; the list grows by
    one exactly when the session had no backup. *)
Theorem backup_is_found_first_and_keeps_the_others :
  forall (E : Env) (l : State),
  exists l',
    le_net_BackupDefaultGW E l = Some (tt, l', [Ev_pa_dcs_GetDefaultGateway])
    /\ GetDefaultGwConfigDb (DcsNetGetSessionRef E) l'
       = (Some (0, backed_up (DcsNetGetSessionRef E) (ans_GetDefaultGateway E)),
          true)
    /\ (forall ref, ref <> DcsNetGetSessionRef E ->
                    snapshot_of ref l' = snapshot_of ref l)
    /\ List.length l'
       = match snapshot_of (DcsNetGetSessionRef E) l with
         | Some _ => List.length l
         | None => S (List.length l)
         end.
Proof.
  intros E l. eexists. split; [apply le_net_BackupDefaultGW_eq|].
  split; [|split].
  - unfold GetDefaultGwConfigDb. simpl. rewrite N.eqb_refl. reflexivity.
  - intros ref Hne.
    rewrite snapshot_of_cons_other by (simpl; congruence).
    apply snapshot_of_without_other. congruence.
  - simpl. rewrite without_snapshot_of_length.
    destruct (snapshot_of (DcsNetGetSessionRef E) l) eqn:Hs; [|reflexivity].
    apply snapshot_of_found in Hs. destruct Hs as [_ Hin].
    destruct l; [destruct Hin|simpl; lia].
Qed.

Lemma le_result_eqb_eq a b : le_result_eqb a b = true <-> a = b.
Proof. destruct a, b; simpl; split; intros H; try discriminate; reflexivity. Qed.

Lemma le_result_eqb_neq a b : le_result_eqb a b = false <-> a <> b.
Proof.
  destruct a, b; simpl; split; intros H; try discriminate; try reflexivity;
    try (intros H'; discriminate); exfalso; apply H; reflexivity.
Qed.

(** X2. [le_net_RestoreDefaultGW] answers [LE_NOT_FOUND] exactly when the
    session has no backup, and [LE_FAULT] exactly when both families were
    marked as installed and the adapter failed to restore both; in every
    other case, also when the only family to restore failed, it answers
    [LE_OK]. *)
Theorem restore_result_is_fault_only_when_both_families_fail :
  forall (E : Env) (l : State) (r : le_result_t) (l' : State)
         (ev : list Event),
    le_net_RestoreDefaultGW E l = Some (r, l', ev) ->
    (r = LE_NOT_FOUND <-> snapshot_of (DcsNetGetSessionRef E) l = None)
    /\ (r = LE_FAULT <->
        exists d, snapshot_of (DcsNetGetSessionRef E) l = Some d
          /\ setV4GwToSystem d = true /\ setV6GwToSystem d = true
          /\ ans_SetDefaultGateway E (defaultV4Interface d) (defaultV4GW d) false
             <> LE_OK
          /\ ans_SetDefaultGateway E (defaultV6Interface d) (defaultV6GW d) true
             <> LE_OK)
    /\ (r = LE_OK \/ r = LE_NOT_FOUND \/ r = LE_FAULT).
Proof.
  intros E l r l' ev. rewrite le_net_RestoreDefaultGW_eq. unfold snapshot_of.
  destruct (GetDefaultGwConfigDb_scan (DcsNetGetSessionRef E) l) as [[i d]|].
  - intros H. inversion H; subst; clear H. unfold restore_result.
    set (a4 := ans_SetDefaultGateway E (defaultV4Interface d) (defaultV4GW d) false).
    set (a6 := ans_SetDefaultGateway E (defaultV6Interface d) (defaultV6GW d) true).
    assert (Hfault :
              (if setV4GwToSystem d then a4 else LE_OK) <> LE_OK
              /\ (if setV6GwToSystem d then a6 else LE_OK) <> LE_OK
              <-> (exists d0, Some d = Some d0
                    /\ setV4GwToSystem d0 = true /\ setV6GwToSystem d0 = true
                    /\ ans_SetDefaultGateway E (defaultV4Interface d0)
                         (defaultV4GW d0) false <> LE_OK
                    /\ ans_SetDefaultGateway E (defaultV6Interface d0)
                         (defaultV6GW d0) true <> LE_OK)).
    { split.
      - intros [H4 H6]. exists d.
        destruct (setV4GwToSystem d); [|contradiction].
        destruct (setV6GwToSystem d); [|contradiction]. auto.
      - intros (d0 & Hd & H4 & H6 & Ha4 & Ha6). inversion Hd; subst d0.
        rewrite H4, H6. auto. }
    destruct (le_result_eqb (if setV4GwToSystem d then a4 else LE_OK) LE_OK)
      eqn:H4;
      destruct (le_result_eqb (if setV6GwToSystem d then a6 else LE_OK) LE_OK)
        eqn:H6; cbn [orb];
      repeat match goal with
             | H : le_result_eqb _ _ = true |- _ => apply le_result_eqb_eq in H
             | H : le_result_eqb _ _ = false |- _ => apply le_result_eqb_neq in H
             end;
      (split; [split; discriminate|]); (split; [|auto]);
      rewrite <- Hfault; split; try discriminate; try tauto.
  - intros H. inversion H; subst. split; [tauto|]. split; [|auto].
    split; [discriminate|]. intros (d & Hd & _). discriminate.
Qed.

(** X3. When [le_net_RestoreDefaultGW] finds a backup, the list it leaves is
    the list it found with that one element taken out, the others in their
    order; the element is the first of the session; and the warning about
    restoring out of order is logged exactly when some backup stood before
    it. When it finds none it changes and logs nothing. *)
Theorem restore_unlinks_one_backup_and_warns_out_of_order :
  forall (E : Env) (l : State) (r : le_result_t) (l' : State)
         (ev : list Event),
    le_net_RestoreDefaultGW E l = Some (r, l', ev) ->
    (snapshot_of (DcsNetGetSessionRef E) l = None /\ l' = l /\ ev = [])
    \/ (exists l1 d l2,
           l = l1 ++ d :: l2 /\ l' = l1 ++ l2
           /\ appSessionRef d = DcsNetGetSessionRef E
           /\ snapshots_of (DcsNetGetSessionRef E) l1 = []
           /\ (In (Ev_LE_WARN WARN_restored_out_of_order) ev <-> l1 <> [])).
Proof.
  intros E l r l' ev. rewrite le_net_RestoreDefaultGW_eq. unfold snapshot_of.
  destruct (GetDefaultGwConfigDb_scan (DcsNetGetSessionRef E) l) as [[i d]|] eqn:Hs.
  - intros H. inversion H; subst; clear H. right.
    destruct (scan_found _ _ _ _ Hs) as [Hd _].
    destruct (scan_split _ _ _ _ Hs) as (l1 & l2 & Hl & Hlen & Hno & Hrm).
    exists l1, d, l2. repeat split; auto.
    + unfold restore_events. subst i.
      destruct l1 as [|x l1]; simpl; [|intros _; discriminate].
      intros Hin. exfalso.
      destruct (setV4GwToSystem d), (setV6GwToSystem d); simpl in Hin;
        repeat (destruct Hin as [Hin|Hin]; [discriminate|]); exact Hin.
    + intros Hne. unfold restore_events. subst i.
      destruct l1 as [|x l1]; [contradiction|]. simpl. auto.
  - intros H. inversion H; subst. left. auto.
Qed.

(** X7. A backup followed at once by a restore of the same session leaves
    the list as it was but for the backup the session had before, if any;
    the adapter was asked for the gateways once and asked to set none. *)
Theorem backup_then_restore_forgets_the_session :
  forall (Eb Er : Env) (l : State),
    DcsNetGetSessionRef Er = DcsNetGetSessionRef Eb ->
    run' [OpBackup Eb; OpRestore Er] l
    = Some (tt, without_snapshot_of (DcsNetGetSessionRef Eb) l,
            [Ev_pa_dcs_GetDefaultGateway])
    /\ snapshots_of (DcsNetGetSessionRef Eb)
         (without_snapshot_of (DcsNetGetSessionRef Eb) l)
       = match snapshots_of (DcsNetGetSessionRef Eb) l with
         | [] => []
         | _ :: others => others
         end.
Proof.
  intros Eb Er l Hs. split.
  - cbn [run step].
    rewrite (bind_eq _ _ _ _ _ _ (le_net_BackupDefaultGW_eq Eb l)).
    assert (Hr : le_net_RestoreDefaultGW Er
                   (backed_up (DcsNetGetSessionRef Eb) (ans_GetDefaultGateway Eb)
                      :: without_snapshot_of (DcsNetGetSessionRef Eb) l)
                 = Some (LE_OK, without_snapshot_of (DcsNetGetSessionRef Eb) l, [])).
    { rewrite le_net_RestoreDefaultGW_eq, Hs. simpl. rewrite N.eqb_refl.
      reflexivity. }
    unfold bind at 1. unfold bind at 1. rewrite Hr. reflexivity.
  - unfold without_snapshot_of.
    destruct (GetDefaultGwConfigDb_scan (DcsNetGetSessionRef Eb) l)
      as [[i d]|] eqn:H.
    + destruct (scan_found _ _ _ _ H) as [Hd _].
      destruct (scan_split _ _ _ _ H) as (l1 & l2 & -> & _ & Hno & ->).
      rewrite !snapshots_of_app, Hno. simpl.
      rewrite Hd, N.eqb_refl. reflexivity.
    + rewrite (scan_none _ _ H). reflexivity.
Qed.

(** X8. Of two backups of the same session in a row the second one wins:
    the list is what the second alone would have left. *)
Theorem second_backup_replaces_the_first :
  forall (E1 E2 : Env) (l : State),
    DcsNetGetSessionRef E2 = DcsNetGetSessionRef E1 ->
    exists ev,
      run' [OpBackup E1; OpBackup E2] l
      = Some (tt,
              backed_up (DcsNetGetSessionRef E2) (ans_GetDefaultGateway E2)
                :: without_snapshot_of (DcsNetGetSessionRef E2) l,
              ev)
      /\ run' [OpBackup E2] l
         = Some (tt,
                 backed_up (DcsNetGetSessionRef E2) (ans_GetDefaultGateway E2)
                   :: without_snapshot_of (DcsNetGetSessionRef E2) l,
                 [Ev_pa_dcs_GetDefaultGateway]).
Proof.
  intros E1 E2 l Hs. eexists. split.
  - cbn [run step].
    rewrite (bind_eq _ _ _ _ _ _ (le_net_BackupDefaultGW_eq E1 l)).
    rewrite (bind_eq _ _ _ _ _ _ (le_net_BackupDefaultGW_eq E2 _)).
    unfold ret. rewrite Hs. unfold without_snapshot_of at 1. simpl.
    rewrite N.eqb_refl. rewrite le_dls_Remove_head. reflexivity.
  - cbn [run step].
    rewrite (bind_eq _ _ _ _ _ _ (le_net_BackupDefaultGW_eq E2 l)).
    reflexivity.
Qed.

(** ** Setting the default gateway: what changes and what is asked *)

Lemma update_at_split l1 d l2 f :
  update_at (l1 ++ d :: l2) (List.length l1) f = l1 ++ f d :: l2.
Proof. induction l1 as [|x l1 IH]; simpl; [reflexivity|]. rewrite IH. reflexivity. Qed.

Lemma flags_raised_for_refl ref d : flags_raised_for ref d d.
Proof. unfold flags_raised_for. repeat split; auto. intros H. contradiction. Qed.

Lemma Forall2_flags_raised_refl ref l : Forall2 (flags_raised_for ref) l l.
Proof. induction l; constructor; auto using flags_raised_for_refl. Qed.

(** X4. [le_net_SetDefaultGW] keeps the list as long as it was and every
    backup in its place with its session, addresses and interfaces; it
    clears no flag; and a backup that it changes is one of the calling
    session. *)
Theorem set_only_raises_flags_of_the_caller :
  forall (E : Env) (ch : le_dcs_ChannelRef_t) (l : State) (r : le_result_t)
         (l' : State) (ev : list Event),
    le_net_SetDefaultGW' E ch l = Some (r, l', ev) ->
    Forall2 (flags_raised_for (DcsNetGetSessionRef E)) l l'.
Proof.
  intros E ch l r l' ev H. apply le_net_SetDefaultGW_inv in H.
  destruct H as (b4 & b6 & -> & _). unfold raise_flags.
  destruct (GetDefaultGwConfigDb_scan (DcsNetGetSessionRef E) l)
    as [[i d]|] eqn:Hs; [|apply Forall2_flags_raised_refl].
  destruct (scan_found _ _ _ _ Hs) as [Hd _].
  destruct (scan_split _ _ _ _ Hs) as (l1 & l2 & -> & <- & _ & _).
  rewrite update_at_split. apply Forall2_app; [apply Forall2_flags_raised_refl|].
  constructor; [|apply Forall2_flags_raised_refl].
  unfold flags_raised_for, raise. simpl. repeat split; auto.
  - intros ->. reflexivity.
  - intros ->. reflexivity.
Qed.

Lemma SetDefaultGW_family_result E intf gw F ptr st r st' ev :
  SetDefaultGW_family E intf gw F ptr st = Some (r, st', ev) ->
  (ev = [] /\ r = LE_FAULT)
  \/ (ev = [Ev_pa_dcs_SetDefaultGateway intf gw F]
      /\ r = ans_SetDefaultGateway E intf gw F).
Proof.
  unfold SetDefaultGW_family, pa_dcs_SetDefaultGateway, store,
    bind, emit, ret, get, put.
  destruct (Nat.ltb 0 (String.length gw)); simpl.
  - destruct (le_result_eqb (ans_SetDefaultGateway E intf gw F) LE_OK);
      destruct ptr as [[link d]|]; simpl; invert_some; right; auto.
  - invert_some. left. auto.
Qed.

Lemma forallb_allowed_lease ev :
  forallb is_lease_event ev = true -> forallb (allowed_source false) ev = true.
Proof.
  induction ev as [|e ev IH]; simpl; [reflexivity|].
  intros H. apply andb_prop in H. destruct H as [He Hev].
  rewrite (IH Hev). destruct e; try discriminate; reflexivity.
Qed.

(** The stages of [le_net_SetDefaultGW]: it returns early, with a result
    other than [LE_OK] and without a call to set a gateway, or it goes
    through the two families, IPv6 first. *)
Lemma le_net_SetDefaultGW_stages E ch l r l' ev :
  le_net_SetDefaultGW' E ch l = Some (r, l', ev) ->
  (l' = l /\ no_set_call ev /\ r <> LE_OK
   /\ forall db, le_dcs_GetChannelDbFromRef E ch = Some db ->
        forallb (allowed_source (Z.eqb (technology db) LE_DCS_TECH_CELLULAR)) ev
        = true)
  \/ (exists db intf v4 v6 evp e6 e4 v6Ret v4Ret l6,
         le_dcs_GetChannelDbFromRef E ch = Some db
         /\ ans_GetNetInterface E (technology db) ch = (LE_OK, intf)
         /\ ev = evp ++ e6 ++ e4
         /\ no_set_call evp
         /\ forallb (allowed_source (Z.eqb (technology db) LE_DCS_TECH_CELLULAR))
              evp = true
         /\ SetDefaultGW_family E intf v6 true
              (GetDefaultGwConfigDb_scan (DcsNetGetSessionRef E) l) l
            = Some (v6Ret, l6, e6)
         /\ SetDefaultGW_family E intf v4 false
              (GetDefaultGwConfigDb_scan (DcsNetGetSessionRef E) l) l6
            = Some (v4Ret, l', e4)
         /\ r = if le_result_eqb v4Ret LE_OK || le_result_eqb v6Ret LE_OK
                then LE_OK else LE_FAULT).
Proof.
  unfold le_net_SetDefaultGW.
  destruct (le_dcs_GetChannelDbFromRef E ch) as [db|] eqn:Hdb.
  2:{ unfold ret. invert_some. left. split; [reflexivity|].
      split; [apply no_set_call_nil|].
      split; [discriminate|]. intros db H. discriminate. }
  destruct (unsupported_technology _ _ _).
  { unfold ret. invert_some. left. split; [reflexivity|].
      split; [apply no_set_call_nil|].
    split; [discriminate|]. reflexivity. }
  intros H. apply bind_inv in H.
  destruct H as ([r0 intf] & st1 & ev1 & ev2 & H1 & H2 & ->).
  unfold le_dcsTech_GetNetInterface, bind, emit, ret in H1.
  assert (Hans : ans_GetNetInterface E (technology db) ch = (r0, intf))
    by (inversion H1; reflexivity).
  inversion H1; subst st1 ev1; clear H1.
  set (cell := Z.eqb (technology db) LE_DCS_TECH_CELLULAR) in *.
  set (e1 := Ev_le_dcsTech_GetNetInterface (technology db) ch) in *.
  assert (Hno1 : no_set_call ([e1] ++ [])).
  { intros i g f [Hin|[]]; discriminate. }
  assert (Ha1 : forallb (allowed_source cell) ([e1] ++ []) = true).
  { simpl. destruct cell; reflexivity. }
  destruct (negb (le_result_eqb r0 LE_OK)) eqn:Hr0.
  { unfold ret in H2. inversion H2; subst. left. rewrite app_nil_r.
    split; [reflexivity|]. split; [exact Hno1|]. split; [discriminate|].
    intros db' Hdb'. inversion Hdb'; subst db'. exact Ha1. }
  apply bind_inv in H2.
  destruct H2 as ([[r1 v4o] v6o] & st2 & ev3 & ev4 & H3 & H4 & ->).
  assert (Hfetch : st2 = l /\ no_set_call ev3
                   /\ forallb (allowed_source cell) ev3 = true).
  { destruct cell.
    - unfold le_dcsTech_GetDefaultGWAddress, bind, emit, ret in H3.
      destruct (ans_GetDefaultGWAddress E (technology db) (techRef db))
        as [[? ?] ?].
      inversion H3; subst. split; [reflexivity|]. split; [|reflexivity].
      intros i g f [Hin|[]]; discriminate.
    - apply bind_inv in H3.
      destruct H3 as ([[r2 a4] a6] & st3 & ev5 & ev6 & H5 & H6 & ->).
      apply GetLeaseAddresses_inv in H5. destruct H5 as [-> Hev5].
      unfold ret in H6. inversion H6; subst. split; [reflexivity|].
      rewrite app_nil_r. split; [apply no_set_call_lease; assumption|].
      apply forallb_allowed_lease; assumption. }
  destruct Hfetch as (-> & Hno3 & Ha3).
  assert (Hno13 : no_set_call (([e1] ++ []) ++ ev3))
    by (apply no_set_call_app; assumption).
  assert (Ha13 : forallb (allowed_source cell) (([e1] ++ []) ++ ev3) = true)
    by (rewrite forallb_app, Ha1, Ha3; reflexivity).
  destruct (negb (le_result_eqb r1 LE_OK)) eqn:Hr1.
  { unfold ret in H4. inversion H4; subst. left. rewrite app_nil_r.
    split; [reflexivity|]. split; [exact Hno13|]. split.
    - intros ->. discriminate.
    - intros db' Hdb'. inversion Hdb'; subst db'. exact Ha13. }
  destruct v4o as [v4|]; [|discriminate].
  destruct v6o as [v6|]; [|discriminate].
  destruct (_ && _).
  { unfold ret in H4. inversion H4; subst. left. rewrite app_nil_r.
    split; [reflexivity|]. split; [exact Hno13|]. split; [discriminate|].
    intros db' Hdb'. inversion Hdb'; subst db'. exact Ha13. }
  apply bind_inv in H4.
  destruct H4 as (l0 & st4 & ev7 & ev8 & Hget & H4 & ->).
  unfold get in Hget. inversion Hget; subst l0 st4 ev7; clear Hget.
  unfold GetDefaultGwConfigDb in H4.
  set (ptr := GetDefaultGwConfigDb_scan (DcsNetGetSessionRef E) l) in *.
  assert (Hstep : exists w v6Ret l6 e6 v4Ret e4,
             no_set_call w /\ forallb (allowed_source cell) w = true
             /\ SetDefaultGW_family E intf v6 true ptr l = Some (v6Ret, l6, e6)
             /\ SetDefaultGW_family E intf v4 false ptr l6 = Some (v4Ret, l', e4)
             /\ ev8 = w ++ e6 ++ e4
             /\ r = if le_result_eqb v4Ret LE_OK || le_result_eqb v6Ret LE_OK
                    then LE_OK else LE_FAULT).
  { assert (Hwarn : forall b w0 s1 w s2,
               when b (emit (Ev_LE_WARN w0)) s1 = Some (tt, s2, w) ->
               s2 = s1 /\ no_set_call w
               /\ forallb (allowed_source cell) w = true).
    { intros b w0 s1 w s2. unfold when, emit, ret.
      destruct b; intros Hw; inversion Hw; subst.
      - split; [reflexivity|]. split.
        + intros a b c [Hin|[]]; discriminate.
        + simpl. destruct cell; reflexivity.
      - split; [reflexivity|]. split; [apply no_set_call_nil|reflexivity]. }
    destruct ptr as [[i d]|]; cbv iota beta in H4;
      apply bind_inv in H4; destruct H4 as ([] & s1 & w1 & x1 & Hw1 & H4 & ->);
      apply bind_inv in H4; destruct H4 as ([] & s2 & w2 & x2 & Hw2 & H4 & ->);
      apply bind_inv in H4; destruct H4 as (v6Ret & l6 & e6 & x3 & H6 & H4 & ->);
      apply bind_inv in H4; destruct H4 as (v4Ret & l4 & e4 & x4 & H44 & H4 & ->);
      apply Hwarn in Hw1; destruct Hw1 as (-> & Hn1 & Hal1);
      apply Hwarn in Hw2; destruct Hw2 as (-> & Hn2 & Hal2);
      exists (w1 ++ w2), v6Ret, l6, e6, v4Ret, e4;
      (assert (l4 = l' /\ x4 = []
               /\ r = if le_result_eqb v4Ret LE_OK || le_result_eqb v6Ret LE_OK
                      then LE_OK else LE_FAULT) as (-> & -> & Hr)
        by (unfold ret in H4; destruct (_ || _); inversion H4; auto));
      rewrite app_nil_r, forallb_app, Hal1, Hal2, <- !app_assoc;
      auto 10 using no_set_call_app. }
  destruct Hstep as (w & v6Ret & l6 & e6 & v4Ret & e4
                     & Hnw & Haw & H6 & H44 & -> & Hr).
  right. exists db, intf, v4, v6, ((([e1] ++ []) ++ ev3) ++ w), e6, e4,
           v6Ret, v4Ret, l6. fold cell.
  split; [reflexivity|]. split.
  { rewrite Hans. apply negb_false_iff, le_result_eqb_eq in Hr0.
    rewrite Hr0. reflexivity. }
  split.
  { simpl. rewrite <- !app_assoc. reflexivity. }
  split; [apply no_set_call_app; assumption|].
  split; [rewrite forallb_app, Ha13, Haw; reflexivity|].
  auto.
Qed.

Lemma SetDefaultGW_family_exact E intf gw F ptr st r st' ev :
  SetDefaultGW_family E intf gw F ptr st = Some (r, st', ev) ->
  exists b,
    st' = match ptr with Some (link, _) => mark F b link st | None => st end
    /\ le_result_eqb r LE_OK = b
    /\ existsb (accepted E) ev = b
    /\ (forall F', existsb (fun e => is_set_call_for F' e && accepted E e) ev
                   = Bool.eqb F F' && b)
    /\ List.length (filter is_set_call ev) <= 1
    /\ forall i g f, In (Ev_pa_dcs_SetDefaultGateway i g f) ev ->
         i = intf /\ g = gw /\ f = F /\ g <> EmptyString.
Proof.
  unfold SetDefaultGW_family, pa_dcs_SetDefaultGateway, store, mark,
    bind, emit, ret, get, put.
  destruct gw as [|c gw]; simpl.
  - intros H. exists false. revert H. invert_some. simpl.
    split; [destruct ptr as [[? ?]|]; reflexivity|].
    repeat split; auto using Bool.andb_false_r; try lia; contradiction.
  - set (g0 := String c gw).
    intros H.
    exists (le_result_eqb (ans_SetDefaultGateway E intf g0 F) LE_OK).
    revert H.
    destruct (le_result_eqb (ans_SetDefaultGateway E intf g0 F) LE_OK) eqn:Hr;
      destruct ptr as [[link d]|]; simpl in *; invert_some; simpl;
      rewrite ?Hr, ?Bool.orb_false_r, ?Bool.andb_true_r, ?Bool.andb_false_r;
      repeat split; auto;
      try (intros F'; destruct (Bool.eqb F F'); reflexivity);
      match goal with
      | H : _ \/ False |- _ =>
          destruct H as [H|[]]; inversion H; subst; auto; discriminate
      | _ => idtac
      end.
Qed.

Lemma no_set_call_filter ev : no_set_call ev -> filter is_set_call ev = [].
Proof.
  induction ev as [|e ev IH]; simpl; intros H; [reflexivity|].
  destruct e; simpl; try (apply IH; intros i g f Hin; apply (H i g f); right;
                          exact Hin).
  exfalso. eapply H. left. reflexivity.
Qed.

Lemma no_set_call_accepted E ev (p : Event -> bool) :
  no_set_call ev -> existsb (fun e => p e && accepted E e) ev = false.
Proof.
  induction ev as [|e ev IH]; simpl; intros H; [reflexivity|].
  rewrite IH by (intros i g f Hin; apply (H i g f); right; exact Hin).
  destruct e; simpl; rewrite ?Bool.andb_false_r; try reflexivity.
  exfalso. eapply H. left. reflexivity.
Qed.

Lemma no_set_call_not_accepted E ev :
  no_set_call ev -> existsb (accepted E) ev = false.
Proof.
  intros H. rewrite <- (no_set_call_accepted E ev (fun _ => true) H).
  reflexivity.
Qed.

(** X5. [le_net_SetDefaultGW] returns [LE_OK] exactly when the adapter
    accepted the gateway of at least one family. It asks the adapter at
    most twice, never with an empty address, and only for the interface
    that the technology gave for the channel. *)
Theorem set_is_ok_iff_the_adapter_accepted_a_gateway :
  forall (E : Env) (ch : le_dcs_ChannelRef_t) (l : State) (r : le_result_t)
         (l' : State) (ev : list Event),
    le_net_SetDefaultGW' E ch l = Some (r, l', ev) ->
    (r = LE_OK <-> existsb (accepted E) ev = true)
    /\ List.length (filter is_set_call ev) <= 2
    /\ forall intf gw f,
         In (Ev_pa_dcs_SetDefaultGateway intf gw f) ev ->
         gw <> EmptyString
         /\ exists db, le_dcs_GetChannelDbFromRef E ch = Some db
                       /\ ans_GetNetInterface E (technology db) ch
                          = (LE_OK, intf).
Proof.
  intros E ch l r l' ev H. apply le_net_SetDefaultGW_stages in H.
  destruct H as [(_ & Hno & Hr & _)
                |(db & intf & v4 & v6 & evp & e6 & e4 & v6Ret & v4Ret & l6
                  & Hdb & Hintf & -> & Hno & _ & H6 & H4 & ->)].
  - rewrite (no_set_call_not_accepted E ev Hno), (no_set_call_filter ev Hno).
    split; [split; [contradiction|discriminate]|].
    split; [simpl; lia|]. intros intf gw f Hin. destruct (Hno _ _ _ Hin).
  - apply SetDefaultGW_family_exact in H6, H4.
    destruct H6 as (b6 & _ & -> & Ha6 & _ & Hc6 & Hi6).
    destruct H4 as (b4 & _ & -> & Ha4 & _ & Hc4 & Hi4).
    rewrite !existsb_app, !filter_app, !length_app, Ha6, Ha4,
      (no_set_call_not_accepted E evp Hno), (no_set_call_filter evp Hno).
    split; [|split].
    + destruct b4, b6; simpl; split; intros H; try reflexivity; discriminate.
    + simpl. lia.
    + intros i g f Hin. apply in_app_or in Hin.
      destruct Hin as [Hin|Hin]; [destruct (Hno _ _ _ Hin)|].
      apply in_app_or in Hin.
      destruct Hin as [Hin|Hin];
        [apply Hi6 in Hin|apply Hi4 in Hin];
        destruct Hin as (-> & -> & -> & Hne); (split; [exact Hne|]);
        exists db; auto.
Qed.

(** X6. After [le_net_SetDefaultGW] the backup of the caller is marked as
    installed for a family exactly when it was marked before or the adapter
    has now accepted a gateway of that family. *)
Theorem set_marks_the_families_the_adapter_accepted :
  forall (E : Env) (ch : le_dcs_ChannelRef_t) (l : State) (r : le_result_t)
         (l' : State) (ev : list Event) (d : DcsDefaultGwConfigDb_t),
    le_net_SetDefaultGW' E ch l = Some (r, l', ev) ->
    snapshot_of (DcsNetGetSessionRef E) l = Some d ->
    exists d',
      snapshot_of (DcsNetGetSessionRef E) l' = Some d'
      /\ forall isIpv6,
           installed isIpv6 d'
           = installed isIpv6 d
             || existsb (fun e => is_set_call_for isIpv6 e && accepted E e) ev.
Proof.
  intros E ch l r l' ev d H Hd. apply le_net_SetDefaultGW_stages in H.
  destruct H as [(-> & Hno & _)
                |(db & intf & v4 & v6 & evp & e6 & e4 & v6Ret & v4Ret & l6
                  & _ & _ & -> & Hno & _ & H6 & H4 & _)].
  - exists d. split; [exact Hd|]. intros F.
    rewrite (no_set_call_accepted E ev _ Hno), Bool.orb_false_r. reflexivity.
  - apply SetDefaultGW_family_exact in H6, H4.
    destruct H6 as (b6 & Hl6 & _ & _ & Ha6 & _).
    destruct H4 as (b4 & Hl' & _ & _ & Ha4 & _).
    pose proof (snapshot_of_raise_flags (DcsNetGetSessionRef E)
                  (DcsNetGetSessionRef E) b4 b6 l) as Hraise.
    unfold raise_flags in Hraise. rewrite Hd, N.eqb_refl in Hraise.
    unfold snapshot_of in Hd.
    destruct (GetDefaultGwConfigDb_scan (DcsNetGetSessionRef E) l)
      as [[i d0]|]; [|discriminate].
    subst l6. rewrite mark_mark_raise in Hl'. subst l'.
    exists (raise b4 b6 d). split; [exact Hraise|]. intros F.
    rewrite !existsb_app, Ha6, Ha4, (no_set_call_accepted E evp _ Hno).
    destruct F, b4, b6; simpl; rewrite ?Bool.orb_false_r, ?Bool.orb_true_r;
      reflexivity.
Qed.

(** X9. [le_net_SetDefaultGW] takes the gateway addresses from one place:
    on a cellular channel it never goes to the lease file, and on any other
    channel it never asks the technology for them. *)
Theorem set_asks_one_source_for_the_addresses :
  forall (E : Env) (ch : le_dcs_ChannelRef_t) (l : State) (r : le_result_t)
         (l' : State) (ev : list Event) (db : le_dcs_channelDb_t),
    le_net_SetDefaultGW' E ch l = Some (r, l', ev) ->
    le_dcs_GetChannelDbFromRef E ch = Some db ->
    (technology db = LE_DCS_TECH_CELLULAR ->
     filter is_lease_event ev = [])
    /\ (technology db <> LE_DCS_TECH_CELLULAR ->
        filter is_technology_query ev = []).
Proof.
  intros E ch l r l' ev db H Hdb.
  assert (Hall : forallb (allowed_source
                            (Z.eqb (technology db) LE_DCS_TECH_CELLULAR)) ev
                 = true).
  { apply le_net_SetDefaultGW_stages in H.
    destruct H as [(_ & _ & _ & Ha)
                  |(db' & intf & v4 & v6 & evp & e6 & e4 & v6Ret & v4Ret & l6
                    & Hdb' & _ & -> & _ & Ha & H6 & H4 & _)].
    - apply Ha. exact Hdb.
    - rewrite Hdb in Hdb'. inversion Hdb'; subst db'.
      apply SetDefaultGW_family_result in H6, H4.
      rewrite !forallb_app, Ha.
      destruct H6 as [[-> _]|[-> _]], H4 as [[-> _]|[-> _]]; simpl;
        destruct (Z.eqb _ _); reflexivity. }
  assert (Hfilter : forall (p q : Event -> bool) (ev0 : list Event),
             (forall e, q e = true -> p e = false) ->
             forallb q ev0 = true -> filter p ev0 = []).
  { intros p q ev0 Hpq. induction ev0 as [|e ev0 IH]; simpl; [reflexivity|].
    intros Hq. apply andb_prop in Hq. destruct Hq as [He Hev].
    rewrite (Hpq e He). apply IH. exact Hev. }
  split; intros Htech.
  - apply Z.eqb_eq in Htech. rewrite Htech in Hall.
    apply (Hfilter _ _ ev (fun e He => proj1 (negb_true_iff _) He) Hall).
  - apply Z.eqb_neq in Htech. rewrite Htech in Hall.
    apply (Hfilter _ _ ev (fun e He => proj1 (negb_true_iff _) He) Hall).
Qed.

(** ** The lease file parser: what it leaves in the buffers *)

Lemma length_substring_le m s : String.length (String.substring 0 m s) <= m.
Proof.
  revert s. induction m as [|m IH]; intros [|c s]; simpl; try lia.
  specialize (IH s). lia.
Qed.

Lemma strchr_cons c b s :
  strchr (String b s) c
  = if Ascii.eqb c b then Some 0
    else match strchr s c with Some n => Some (S n) | None => None end.
Proof.
  unfold strchr. simpl. destruct (ascii_dec c b) as [->|Hne].
  - rewrite Ascii.eqb_refl. destruct s; reflexivity.
  - apply Ascii.eqb_neq in Hne. rewrite Hne. reflexivity.
Qed.

(** [strchr] gives the first occurrence: there is none before it. *)
Lemma strchr_first s c i :
  strchr s c = Some i ->
  strchr (String.substring 0 i s) c = None /\ i < String.length s.
Proof.
  revert i. induction s as [|b s IH]; intros i H; [discriminate|].
  rewrite strchr_cons in H. destruct (Ascii.eqb c b) eqn:Hcb.
  - inversion H; subst. simpl. split; [reflexivity|lia].
  - destruct (strchr s c) as [n|] eqn:Hs; [|discriminate].
    inversion H; subst. destruct (IH n eq_refl) as [Hno Hlen].
    cbn [String.substring String.length]. rewrite strchr_cons, Hcb, Hno.
    split; [reflexivity|lia].
Qed.

(** X10. Whatever the lease file holds, the value that
    [GetDhcpLeaseFileEntry] leaves in the destination holds no semicolon
    and fits the destination with its terminator; the list of backups is
    not touched. *)
Theorem lease_value_fits_and_has_no_semicolon :
  forall (E : Env) (intf : string) (infoType : DhcpAddress_t) (n : nat)
         (l : State) (r : le_result_t) (dest : string) (k : nat)
         (l' : State) (ev : list Event),
    GetDhcpLeaseFileEntry' E intf infoType n l = Some ((r, dest, k), l', ev) ->
    strchr dest semicolon = None
    /\ String.length dest <= n - 1
    /\ l' = l.
Proof.
  intros E intf infoType n l r dest k l' ev.
  unfold GetDhcpLeaseFileEntry, pa_dcs_GetDhcpLeaseFilePath,
    le_flock_TryOpenStream, bind, emit, ret, undefined.
  destruct (ans_GetDhcpLeaseFilePath E intf) as [r0 path].
  destruct (negb (le_result_eqb r0 LE_OK)); simpl.
  { invert_some. repeat split; simpl; lia. }
  destruct (le_utf8_Copy _ DHCP_LEASE_OPTION_MAX_LEN_BYTES) as [[? searchStr] ?].
  destruct (ans_TryOpenStream E path) as [[stream|] ro]; simpl.
  2:{ invert_some. repeat split; simpl; lia. }
  destruct (find_line _ searchStr) as [[line pos]|]; simpl.
  2:{ invert_some. repeat split; simpl; lia. }
  destruct (Nat.ltb _ _); [discriminate|].
  set (src := c_trunc _).
  assert (Hcopy : String.length (snd (fst (le_utf8_Copy src n))) <= n - 1).
  { unfold le_utf8_Copy. destruct (Nat.ltb_spec (String.length src) n); simpl.
    - lia.
    - apply length_substring_le. }
  destruct (le_utf8_Copy src n) as [[r1 dest1] k1]. simpl in Hcopy.
  destruct (strchr dest1 semicolon) as [i|] eqn:Hsemi; simpl; invert_some.
  - destruct (strchr_first _ _ _ Hsemi) as [Hno Hi].
    split; [exact Hno|]. split; [|reflexivity].
    pose proof (length_substring_le i dest1). lia.
  - auto.
Qed.

Lemma set_row_shape size n rows i r :
  rows_shape size n rows -> List.length r = size ->
  rows_shape size n (set_row rows i r).
Proof.
  unfold rows_shape. intros [Hlen Hall] Hr. subst n.
  revert i. induction Hall as [|r0 rows Hr0 Hall IH]; intros i; simpl.
  - split; [reflexivity|constructor].
  - destruct i as [|i]; simpl.
    + split; [reflexivity|]. constructor; assumption.
    + destruct (IH i) as [Hl Hf]. split; [lia|]. constructor; assumption.
Qed.

Lemma strncpy_length src n : List.length (strncpy src n) = n.
Proof.
  revert src. induction n as [|n IH]; intros src; simpl; [reflexivity|].
  destruct src; simpl; rewrite IH; reflexivity.
Qed.

Lemma fill_rows_shape size n rows cnt toks :
  rows_shape size n rows -> rows_shape size n (fill_rows size n rows cnt toks).
Proof.
  revert rows cnt. induction toks as [|t toks IH]; intros rows cnt H; simpl.
  - exact H.
  - destruct (Nat.ltb cnt n); [|exact H].
    apply IH, set_row_shape; [exact H|apply strncpy_length].
Qed.

Lemma zero_rows_shape size n : rows_shape size n (zero_rows size n).
Proof.
  unfold rows_shape, zero_rows. rewrite repeat_length. split; [reflexivity|].
  apply Forall_forall. intros r Hr. apply repeat_spec in Hr. subst r.
  apply repeat_length.
Qed.

Lemma concat_shape_length size n rows :
  rows_shape size n rows -> List.length (List.concat rows) = size * n.
Proof.
  intros [Hlen Hall]. subst n.
  induction Hall as [|r rows Hr Hall IH]; simpl; [lia|].
  rewrite length_app, IH, Hr. lia.
Qed.

Lemma concat_zero_rows size n :
  List.concat (zero_rows size n) = repeat NUL (size * n).
Proof.
  unfold zero_rows. induction n as [|n IH]; simpl.
  - rewrite Nat.mul_0_r. reflexivity.
  - rewrite IH, <- repeat_app. f_equal. lia.
Qed.

(** A copy one row further on, past a first row of the width. *)
Lemma strncpy_at_next_row r0 bytes off src n :
  strncpy_at (r0 ++ bytes) (List.length r0 + off) src n
  = match strncpy_at bytes off src n with
    | Some bytes' => Some (r0 ++ bytes')
    | None => None
    end.
Proof.
  unfold strncpy_at. rewrite length_app.
  destruct (Nat.leb_spec (off + n) (List.length bytes)) as [Hin|Hout].
  - destruct (Nat.leb_spec (List.length r0 + off + n)
                (List.length r0 + List.length bytes)); [|lia].
    rewrite firstn_app_2, <- app_assoc, skipn_app, skipn_all2 by lia.
    replace (List.length r0 + off + n - List.length r0) with (off + n) by lia.
    reflexivity.
  - destruct (Nat.leb_spec (List.length r0 + off + n)
                (List.length r0 + List.length bytes)); [lia|reflexivity].
Qed.

(** A copy to a row that the array has lies inside the array, and leaves
    the array with that row replaced. *)
Lemma strncpy_at_row size n rows cnt src :
  rows_shape size n rows -> cnt < n ->
  strncpy_at (List.concat rows) (cnt * size) src size
  = Some (List.concat (set_row rows cnt (strncpy src size))).
Proof.
  intros [Hlen Hall] Hcnt. subst n. revert cnt Hcnt.
  induction Hall as [|r0 rows Hr0 Hall IH]; intros cnt Hcnt;
    [simpl in Hcnt; lia|].
  destruct cnt as [|cnt]; cbn [set_row List.concat].
  - unfold strncpy_at. cbn [Nat.mul Nat.add firstn app].
    rewrite length_app, Hr0.
    destruct (Nat.leb_spec size (size + List.length (List.concat rows)));
      [|lia].
    rewrite skipn_app, skipn_all2 by lia.
    rewrite Hr0, Nat.sub_diag. reflexivity.
  - cbn [Nat.mul]. rewrite <- Hr0 at 1.
    rewrite strncpy_at_next_row, IH by (simpl in Hcnt; lia). reflexivity.
Qed.

(** On arrays of [numAddresses] rows, with each pointer at the row of its
    counter, the loop on the bytes goes the way of the loop on the rows: no
    copy of it lies outside its array. *)
Lemma GetLeaseAddresses_loop_bytes_rows fuel rest s4 s6 n v4 c4 v6 c6 :
  rows_shape s4 n v4 -> rows_shape s6 n v6 ->
  GetLeaseAddresses_loop_bytes fuel rest s4 s6 n
    (List.concat v4) (c4 * s4) c4 (List.concat v6) (c6 * s6) c6
  = match GetLeaseAddresses_loop fuel rest s4 s6 n v4 c4 v6 c6 with
    | Some (v4', v6') => Some (List.concat v4', List.concat v6')
    | None => None
    end.
Proof.
  revert rest v4 c4 v6 c6.
  induction fuel as [|fuel IH]; intros rest v4 c4 v6 c6 H4 H6; [reflexivity|].
  cbn [GetLeaseAddresses_loop_bytes GetLeaseAddresses_loop].
  destruct (strtok_r rest) as [[token rest']|]; [|reflexivity].
  destruct (strchr token colon) as [pos|]; cbn [negb andb].
  - destruct (Nat.ltb_spec c6 n) as [Hc|Hc]; [|apply IH; assumption].
    rewrite (strncpy_at_row s6 n v6 c6 token H6 Hc).
    replace (c6 * s6 + s6) with (S c6 * s6) by (simpl; lia).
    apply IH; [assumption|]. apply set_row_shape; [assumption|].
    apply strncpy_length.
  - destruct (Nat.ltb_spec c4 n) as [Hc|Hc]; [|apply IH; assumption].
    rewrite (strncpy_at_row s4 n v4 c4 token H4 Hc).
    replace (c4 * s4 + s4) with (S c4 * s4) by (simpl; lia).
    apply IH; [|assumption]. apply set_row_shape; [assumption|].
    apply strncpy_length.
Qed.

(** X11. The copies of [GetLeaseAddresses] stay inside the two arrays. On
    arrays of [v4AddrSize * numAddresses] and [v6AddrSize * numAddresses]
    bytes, which is what its [memset] clears, with the two pointers at the
    start and advancing by one row per copy, the loop comes to its end
    whatever the value of the option holds: no [strncpy] of it reaches past
    the end of its array, however many addresses the value names and
    however long they are. The bytes it leaves are the rows that the
    operations of the file read, one after the other. *)
Theorem lease_addresses_stay_inside_the_arrays :
  forall (value : string) (v4AddrSize v6AddrSize numAddresses : nat),
  exists (v4 v6 : list (list ascii)),
    GetLeaseAddresses_loop_bytes (S (String.length value)) value
      v4AddrSize v6AddrSize numAddresses
      (repeat NUL (v4AddrSize * numAddresses)) 0 0
      (repeat NUL (v6AddrSize * numAddresses)) 0 0
    = Some (List.concat v4, List.concat v6)
    /\ GetLeaseAddresses_loop (S (String.length value)) value
         v4AddrSize v6AddrSize numAddresses
         (zero_rows v4AddrSize numAddresses) 0
         (zero_rows v6AddrSize numAddresses) 0
       = Some (v4, v6)
    /\ List.length (List.concat v4) = v4AddrSize * numAddresses
    /\ List.length (List.concat v6) = v6AddrSize * numAddresses.
Proof.
  intros value s4 s6 n.
  pose proof (GetLeaseAddresses_loop_bytes_rows (S (String.length value)) value
                s4 s6 n (zero_rows s4 n) 0 (zero_rows s6 n) 0
                (zero_rows_shape s4 n) (zero_rows_shape s6 n)) as Hbytes.
  rewrite !concat_zero_rows in Hbytes. cbn [Nat.mul] in Hbytes.
  rewrite GetLeaseAddresses_loop_fills in Hbytes by lia.
  eexists _, _. split; [exact Hbytes|].
  split; [apply GetLeaseAddresses_loop_fills; lia|].
  split; apply concat_shape_length, fill_rows_shape, zero_rows_shape.
Qed.

Lemma find_line_none lines key :
  Forall (fun line => strstr (c_trunc line) key = None) lines ->
  find_line lines key = None.
Proof.
  induction 1 as [|line lines Hline _ IH]; simpl; [reflexivity|].
  rewrite Hline. exact IH.
Qed.

(** A lease file that opens and holds no line with the option: the result
    is the one that [le_flock_TryOpenStream] left, and no byte of the two
    arrays is set. *)
Lemma GetLeaseAddresses_without_option E intf infoType path stream ro
    v4 s4 v6 s6 n l :
  n <= MAX_NUM_DNS_ADDRESS_BY_TYPE ->
  ans_GetDhcpLeaseFilePath E intf = (LE_OK, path) ->
  ans_TryOpenStream E path = (Some stream, ro) ->
  Forall (fun line =>
            strstr (c_trunc line)
              match infoType with
              | LE_NET_DNS_SERVER_ADDRESS => DNS_ADDRESS_OPTION
              | LE_NET_DEFAULT_GATEWAY_ADDRESS => DEFAULT_GW_OPTION
              end = None)
         (fgets_lines (LEASE_FILE_MAX_LINE_LENGTH_BYTES
                         PA_DCS_IPV4_ADDR_MAX_BYTES PA_DCS_IPV6_ADDR_MAX_BYTES)
            stream "") ->
  GetLeaseAddresses' E intf infoType v4 s4 v6 s6 n l
  = Some ((ro, zero_rows s4 n, zero_rows s6 n), l,
          [Ev_pa_dcs_GetDhcpLeaseFilePath intf; Ev_le_flock_TryOpenStream path]).
Proof.
  intros Hn Hpath Hopen Hlines. unfold GetLeaseAddresses.
  destruct (Nat.ltb_spec MAX_NUM_DNS_ADDRESS_BY_TYPE n) as [Hn'|_]; [lia|].
  unfold GetDhcpLeaseFileEntry, pa_dcs_GetDhcpLeaseFilePath,
    le_flock_TryOpenStream, bind, emit, ret. rewrite Hpath. simpl.
  rewrite Hopen. simpl.
  assert (Hfind : forall key,
             key = match infoType with
                   | LE_NET_DNS_SERVER_ADDRESS => DNS_ADDRESS_OPTION
                   | LE_NET_DEFAULT_GATEWAY_ADDRESS => DEFAULT_GW_OPTION
                   end ->
             find_line (fgets_lines (LEASE_FILE_MAX_LINE_LENGTH_BYTES
                                       PA_DCS_IPV4_ADDR_MAX_BYTES
                                       PA_DCS_IPV6_ADDR_MAX_BYTES) stream "")
               key = None).
  { intros key ->. apply find_line_none. exact Hlines. }
  destruct infoType; simpl; rewrite (Hfind _ eq_refl); simpl;
    destruct (le_result_eqb ro LE_OK); reflexivity.
Qed.

(** X12. When the lease file of the interface opens and none of its lines
    holds the [routers] option, [le_net_GetDefaultGW] returns the result
    that opening the file left, whatever it is, and both addresses of the
    caller are cleared to their last byte. *)
Theorem get_default_gateway_without_routers_option :
  forall (E : Env) (ch : le_dcs_ChannelRef_t)
         (a : le_net_DefaultGatewayAddresses_t) (db : le_dcs_channelDb_t)
         (intf path stream : string) (ro : le_result_t) (l : State),
    le_dcs_GetChannelDbFromRef E ch = Some db ->
    ans_GetNetInterface E (technology db) ch = (LE_OK, intf) ->
    ans_GetDhcpLeaseFilePath E intf = (LE_OK, path) ->
    ans_TryOpenStream E path = (Some stream, ro) ->
    Forall (fun line => strstr (c_trunc line) DEFAULT_GW_OPTION = None)
           (fgets_lines (LEASE_FILE_MAX_LINE_LENGTH_BYTES
                           PA_DCS_IPV4_ADDR_MAX_BYTES PA_DCS_IPV6_ADDR_MAX_BYTES)
              stream "") ->
    le_net_GetDefaultGW' E ch (Some a) l
    = Some ((ro, Some {| ipv4Addr := repeat NUL sizeof_ipv4Addr;
                         ipv6Addr := repeat NUL sizeof_ipv6Addr |}), l,
            [Ev_le_dcsTech_GetNetInterface (technology db) ch;
             Ev_pa_dcs_GetDhcpLeaseFilePath intf;
             Ev_le_flock_TryOpenStream path]).
Proof.
  intros E ch a db intf path stream ro l Hdb Hintf Hpath Hopen Hlines.
  unfold le_net_GetDefaultGW. rewrite Hdb.
  unfold le_dcsTech_GetNetInterface.
  unfold bind at 1. unfold bind at 1. unfold emit, ret at 1.
  rewrite Hintf. cbn [le_result_eqb negb]. unfold bind.
  rewrite (GetLeaseAddresses_without_option E intf
             LE_NET_DEFAULT_GATEWAY_ADDRESS path stream ro)
    by (auto; unfold MAX_NUM_DEFAULT_GATEWAY_ADDRESS_BY_TYPE,
                MAX_NUM_DNS_ADDRESS_BY_TYPE; lia).
  unfold ret, zero_rows, MAX_NUM_DEFAULT_GATEWAY_ADDRESS_BY_TYPE. simpl.
  rewrite !app_nil_r. reflexivity.
Qed.

(** X13. [le_net_GetDNS] returns [LE_OK] or [LE_FAULT] and nothing else,
    and it leaves the list of backups as it was. With [LE_FAULT] the
    caller's structure is untouched or cleared; with [LE_OK] each address
    fits its field with the terminator. *)
Theorem get_dns_is_ok_or_fault :
  forall (E : Env) (ch : le_dcs_ChannelRef_t)
         (addr : option le_net_DnsServerAddresses_t) (l : State)
         (r : le_result_t) (addr' : option le_net_DnsServerAddresses_t)
         (l' : State) (ev : list Event),
    le_net_GetDNS' E ch addr l = Some ((r, addr'), l', ev) ->
    l' = l
    /\ (r = LE_FAULT /\ (addr' = addr \/ addr' = Some zeroed_DnsServerAddresses)
        \/ r = LE_OK
           /\ exists a, addr' = Some a
                /\ String.length (ipv4Addr1 a) <= sizeof_ipv4Addr - 1
                /\ String.length (ipv4Addr2 a) <= sizeof_ipv4Addr - 1
                /\ String.length (ipv6Addr1 a) <= sizeof_ipv6Addr - 1
                /\ String.length (ipv6Addr2 a) <= sizeof_ipv6Addr - 1).
Proof.
  intros E ch addr l r addr' l' ev. unfold le_net_GetDNS.
  destruct addr as [a|]; [|unfold ret; invert_some; auto].
  destruct (le_dcs_GetChannelDbFromRef E ch) as [db|];
    [|unfold ret; invert_some; auto].
  intros H. apply bind_inv in H.
  destruct H as ([r0 intf] & st1 & ev1 & ev2 & H1 & H2 & ->).
  unfold le_dcsTech_GetNetInterface, bind, emit, ret in H1.
  inversion H1; subst st1 ev1; clear H1.
  destruct (negb (le_result_eqb r0 LE_OK)).
  { unfold ret in H2. inversion H2; subst. auto. }
  apply bind_inv in H2.
  destruct H2 as ([[r1 v4] v6] & st2 & ev3 & ev4 & H3 & H4 & ->).
  apply GetLeaseAddresses_inv in H3. destruct H3 as [-> _].
  destruct (negb (le_result_eqb r1 LE_OK)) eqn:Hr1.
  { unfold ret in H4. inversion H4; subst. auto. }
  apply negb_false_iff, le_result_eqb_eq in Hr1. subst r1.
  assert (Hcopy : forall src n,
             String.length (copied (le_utf8_Copy src n)) <= n - 1).
  { intros src n. unfold copied, le_utf8_Copy.
    destruct (Nat.ltb_spec (String.length src) n); simpl.
    - lia.
    - apply length_substring_le. }
  destruct (row_str v4 0), (row_str v4 1), (row_str v6 0), (row_str v6 1);
    try discriminate.
  unfold ret in H4. inversion H4; subst. split; [reflexivity|]. right.
  split; [reflexivity|]. eexists. split; [reflexivity|]. simpl. auto.
Qed.

(** ** Changing a route: every path through the operation *)

Lemma check_prefix_IPv4_returns p st :
  exists res w,
    check_prefix_IPv4 inet_pton_AF_INET6 p st = Some (res, st, w)
    /\ forallb is_warning w = true.
Proof.
  unfold check_prefix_IPv4, bind, emit, ret.
  destruct p as [p|]; [|eauto].
  destruct (prefix_out_of_range _); simpl.
  - destruct (le_result_eqb _ LE_OK); simpl; [|eauto].
    destruct (ConvertSubnetMaskToPrefixLength p 3) as [[] [buf|]]; simpl; eauto.
  - destruct (Z.eqb _ 0); eauto.
Qed.

Lemma check_prefix_IPv6_returns p st :
  exists res, check_prefix_IPv6 p st = Some (res, st, []).
Proof.
  unfold check_prefix_IPv6, ret. destruct p as [p|]; [|eauto].
  destruct (prefix_out_of_range _); [eauto|]. destruct (Z.eqb _ 0); eauto.
Qed.

Lemma warnings_are_no_calls w :
  forallb is_warning w = true ->
  filter is_change_route_call w = [] /\ no_set_call w.
Proof.
  intros H. rewrite forallb_forall in H. split.
  - induction w as [|e w IH]; simpl; [reflexivity|].
    pose proof (H e (or_introl eq_refl)) as He.
    destruct e; try discriminate. simpl. apply IH.
    intros x Hx. apply H. right. exact Hx.
  - intros i g f Hin. apply H in Hin. discriminate.
Qed.

(** X14. [le_net_ChangeRoute] returns on every input and leaves the list of
    backups as it was. It never asks the adapter to set a gateway, and it
    asks it to change a route at most once: for the destination without
    its leading white space, which is then an IPv4 or an IPv6 literal, on
    the interface that the technology gave for the channel; the result is
    then the adapter's answer. Without that call the result is not
    [LE_OK]. *)
Theorem change_route_asks_the_adapter_at_most_once :
  forall (E : Env) (ch : le_dcs_ChannelRef_t) (destAddr prefixLength : option string)
         (isAdd : bool) (l : State),
  exists r ev,
    le_net_ChangeRoute' E ch destAddr prefixLength isAdd l = Some (r, l, ev)
    /\ no_set_call ev
    /\ (filter is_change_route_call ev = [] /\ r <> LE_OK
        \/ exists d db intf p,
             destAddr = Some d
             /\ le_dcs_GetChannelDbFromRef E ch = Some db
             /\ ans_GetNetInterface E (technology db) ch = (LE_OK, intf)
             /\ (inet_pton_AF_INET (strip_leading_whitespaces d) <> None
                 \/ inet_pton_AF_INET6 (strip_leading_whitespaces d) = true)
             /\ filter is_change_route_call ev
                = [Ev_pa_dcs_ChangeRoute (route_action isAdd)
                     (strip_leading_whitespaces d) p intf]
             /\ r = ans_ChangeRoute E (route_action isAdd)
                      (strip_leading_whitespaces d) p intf).
Proof.
  intros E ch destAddr prefixLength isAdd l. unfold le_net_ChangeRoute.
  assert (Hearly : forall r0, r0 <> LE_OK ->
             exists r ev,
               Some (r0, l, @nil Event) = Some (r, l, ev)
               /\ no_set_call ev
               /\ (filter is_change_route_call ev = [] /\ r <> LE_OK
                   \/ exists d db intf p,
                       destAddr = Some d
                       /\ le_dcs_GetChannelDbFromRef E ch = Some db
                       /\ ans_GetNetInterface E (technology db) ch = (LE_OK, intf)
                       /\ (inet_pton_AF_INET (strip_leading_whitespaces d) <> None
                           \/ inet_pton_AF_INET6 (strip_leading_whitespaces d)
                              = true)
                       /\ filter is_change_route_call ev
                          = [Ev_pa_dcs_ChangeRoute (route_action isAdd)
                               (strip_leading_whitespaces d) p intf]
                       /\ r = ans_ChangeRoute E (route_action isAdd)
                                (strip_leading_whitespaces d) p intf)).
  { intros r0 Hr0. exists r0, []. split; [reflexivity|].
    split; [apply no_set_call_nil|]. left. auto. }
  destruct (le_dcs_GetChannelDbFromRef E ch) as [db|] eqn:Hdb;
    [|apply Hearly; discriminate].
  destruct (unsupported_technology _ _ _); [apply Hearly; discriminate|].
  destruct destAddr as [d|]; [|apply Hearly; discriminate].
  set (dest := strip_leading_whitespaces d).
  set (pfx := match prefixLength with
              | Some p => Some (strip_leading_whitespaces p)
              | None => None
              end).
  assert (Hcheck : exists res w,
             (if le_result_eqb
                   (DcsNetValidateIpAddress inet_pton_AF_INET6 AF_INET dest) LE_OK
              then check_prefix_IPv4 inet_pton_AF_INET6 pfx
              else if le_result_eqb
                        (DcsNetValidateIpAddress inet_pton_AF_INET6 AF_INET6 dest)
                        LE_OK
              then check_prefix_IPv6 pfx
              else ret (inl LE_BAD_PARAMETER)) l = Some (res, l, w)
             /\ forallb is_warning w = true
             /\ (match res with
                 | inl e => e = LE_BAD_PARAMETER
                 | inr _ => inet_pton_AF_INET dest <> None
                            \/ inet_pton_AF_INET6 dest = true
                 end)).
  { unfold DcsNetValidateIpAddress.
    destruct (inet_pton_AF_INET dest) as [bytes|] eqn:H4; cbn [le_result_eqb].
    - destruct (check_prefix_IPv4_returns pfx l) as (res & w & Hc & Hw).
      exists res, w. split; [exact Hc|]. split; [exact Hw|].
      destruct res as [e|q]; [|left; discriminate].
      revert Hc. unfold check_prefix_IPv4, bind, emit, ret.
      destruct pfx as [p|]; [|discriminate].
      destruct (prefix_out_of_range _); simpl.
      + destruct (le_result_eqb _ LE_OK); simpl; [|congruence].
        destruct (ConvertSubnetMaskToPrefixLength p 3) as [[] [buf|]]; simpl;
          congruence.
      + destruct (Z.eqb _ 0); discriminate.
    - destruct (inet_pton_AF_INET6 dest) eqn:H6; cbn [le_result_eqb].
      + destruct (check_prefix_IPv6_returns pfx l) as (res & Hc).
        exists res, []. split; [exact Hc|]. split; [reflexivity|].
        destruct res as [e|q]; [|right; reflexivity].
        revert Hc. unfold check_prefix_IPv6, ret.
        destruct pfx as [p|]; [|discriminate].
        destruct (prefix_out_of_range _); [congruence|].
        destruct (Z.eqb _ 0); discriminate.
      + exists (inl LE_BAD_PARAMETER), []. auto. }
  destruct Hcheck as (res & w & Hc & Hw & Hres).
  destruct (warnings_are_no_calls w Hw) as [Hwr Hws].
  unfold bind at 1. rewrite Hc.
  destruct res as [e|q].
  - subst e. unfold ret. exists LE_BAD_PARAMETER, (w ++ []).
    split; [reflexivity|]. rewrite app_nil_r. split; [exact Hws|].
    left. split; [exact Hwr|discriminate].
  - unfold le_dcsTech_GetNetInterface, bind, emit, ret.
    destruct (ans_GetNetInterface E (technology db) ch) as [r0 intf] eqn:Hintf.
    destruct (le_result_eqb r0 LE_OK) eqn:Hr0; cbn [negb].
    + apply le_result_eqb_eq in Hr0. subst r0.
      unfold DcsNetChangeRoute, pa_dcs_ChangeRoute, bind, emit, ret.
      fold (route_action isAdd).
      set (p := match q with Some p => p | None => EmptyString end).
      eexists _, _. split; [reflexivity|]. split.
      * apply no_set_call_app; [exact Hws|].
        intros i g f [Hin|[Hin|[]]]; discriminate.
      * right. exists d, db, intf, p. repeat split; auto.
        rewrite filter_app, Hwr. reflexivity.
    + eexists _, _. split; [reflexivity|]. split.
      * apply no_set_call_app; [exact Hws|].
        intros i g f [Hin|[]]; discriminate.
      * left. rewrite filter_app, Hwr. split; [reflexivity|].
        apply le_result_eqb_neq. exact Hr0.
Qed.

(** ** Changing a route: prefix lengths and network masks *)

Lemma count_set_bits_bounds n v acc :
  (acc <= count_set_bits n v acc <= acc + Z.of_nat n)%Z.
Proof.
  revert v acc. induction n as [|n IH]; intros v acc; cbn [count_set_bits].
  - lia.
  - destruct (Z.eqb v 0); [lia|].
    destruct (Z.eqb (Z.land v 1) 0).
    + specialize (IH (Z.shiftr v 1) acc). lia.
    + specialize (IH (Z.shiftr v 1) (acc + 1)%Z). lia.
Qed.

Lemma decimal_up_to_32_fits k :
  k <= 32 ->
  snprintf_d 3 (Z.of_nat k) = (decimal k, String.length (decimal k))
  /\ String.length (decimal k) <= 2.
Proof.
  intros Hk.
  assert (Hall : forallb (fun k =>
                   String.eqb (fst (snprintf_d 3 (Z.of_nat k))) (decimal k)
                   && Nat.eqb (snd (snprintf_d 3 (Z.of_nat k)))
                              (String.length (decimal k))
                   && Nat.leb (String.length (decimal k)) 2)
                 (seq 0 33) = true) by (vm_compute; reflexivity).
  rewrite forallb_forall in Hall.
  assert (Hin : In k (seq 0 33)) by (apply in_seq; lia).
  specialize (Hall k Hin).
  apply andb_prop in Hall. destruct Hall as [Hall Hlen].
  apply andb_prop in Hall. destruct Hall as [Hstr Hwritten].
  apply String.eqb_eq in Hstr. apply Nat.eqb_eq in Hwritten.
  apply Nat.leb_le in Hlen.
  split; [|exact Hlen].
  destruct (snprintf_d 3 (Z.of_nat k)) as [s w]. simpl in *. congruence.
Qed.

(** X15. With the three-byte buffer that [le_net_ChangeRoute] hands it,
    [ConvertSubnetMaskToPrefixLength] never returns [LE_OVERFLOW]: it
    fails with [LE_FAULT] exactly when [inet_aton] refuses the mask, and
    otherwise returns [LE_OK] with the whole decimal number of a count
    between 0 and 32. *)
Theorem netmask_conversion_never_overflows :
  forall subnetMask : string,
    (inet_aton subnetMask = None
     /\ ConvertSubnetMaskToPrefixLength subnetMask 3 = (LE_FAULT, None))
    \/ (exists bytes k,
           inet_aton subnetMask = Some bytes
           /\ Z.of_nat k = count_set_bits 32 (s_addr bytes) 0
           /\ k <= 32
           /\ ConvertSubnetMaskToPrefixLength subnetMask 3
              = (LE_OK, Some (decimal k))).
Proof.
  intros subnetMask. unfold ConvertSubnetMaskToPrefixLength.
  destruct (inet_aton subnetMask) as [bytes|]; [right|left; auto].
  pose proof (count_set_bits_bounds 32 (s_addr bytes) 0) as Hb.
  set (c := count_set_bits 32 (s_addr bytes) 0) in *.
  exists bytes, (Z.to_nat c).
  assert (Hk : Z.to_nat c <= 32) by lia.
  assert (Hc : Z.of_nat (Z.to_nat c) = c) by lia.
  split; [reflexivity|]. split; [exact Hc|]. split; [exact Hk|].
  destruct (decimal_up_to_32_fits _ Hk) as [Hs Hlen].
  rewrite <- Hc at 1. rewrite Hs.
  destruct (Nat.ltb_spec 3 (String.length (decimal (Z.to_nat c))));
    [lia|reflexivity].
Qed.

Lemma decimal_below_1000 n :
  n < 1000 ->
  strip_leading_whitespaces (decimal n) = decimal n
  /\ DcsConvertPrefixLengthString (Some (decimal n)) = Z.of_nat n
  /\ inet_pton_AF_INET (decimal n) = None.
Proof.
  intros Hn.
  assert (Hall : forallb (fun n =>
                   String.eqb (strip_leading_whitespaces (decimal n)) (decimal n)
                   && Z.eqb (DcsConvertPrefixLengthString (Some (decimal n)))
                            (Z.of_nat n)
                   && match inet_pton_AF_INET (decimal n) with
                      | None => true
                      | Some _ => false
                      end)
                 (seq 0 1000) = true) by (vm_compute; reflexivity).
  rewrite forallb_forall in Hall.
  assert (Hin : In n (seq 0 1000)) by (apply in_seq; lia).
  specialize (Hall n Hin).
  apply andb_prop in Hall. destruct Hall as [Hall H4].
  apply andb_prop in Hall. destruct Hall as [Hstrip Hconv].
  apply String.eqb_eq in Hstrip. apply Z.eqb_eq in Hconv.
  destruct (inet_pton_AF_INET (decimal n)); [discriminate|]. auto.
Qed.

(** X16. A prefix length written as a decimal number: for an IPv4 as for an
    IPv6 destination, every number from 1 to 128 is handed to the adapter
    as it is, and every number from 129 to 999 is refused with
    [LE_BAD_PARAMETER] before the adapter is asked anything. *)
Theorem change_route_accepts_prefix_lengths_up_to_128 :
  forall (E : Env) (ch : le_dcs_ChannelRef_t) (db : le_dcs_channelDb_t)
         (dest intf : string) (isAdd : bool) (l : State) (n : nat),
    le_dcs_GetChannelDbFromRef E ch = Some db ->
    unsupported_technology LE_DCS_TECH_UNKNOWN LE_DCS_TECH_MAX (technology db)
      = false ->
    inet_pton_AF_INET (strip_leading_whitespaces dest) <> None
    \/ inet_pton_AF_INET6 (strip_leading_whitespaces dest) = true ->
    ans_GetNetInterface E (technology db) ch = (LE_OK, intf) ->
    (1 <= n <= 128 ->
     le_net_ChangeRoute' E ch (Some dest) (Some (decimal n)) isAdd l
     = Some (ans_ChangeRoute E (route_action isAdd)
               (strip_leading_whitespaces dest) (decimal n) intf,
             l,
             [Ev_le_dcsTech_GetNetInterface (technology db) ch;
              Ev_pa_dcs_ChangeRoute (route_action isAdd)
                (strip_leading_whitespaces dest) (decimal n) intf]))
    /\ (128 < n < 1000 ->
        exists ev,
          le_net_ChangeRoute' E ch (Some dest) (Some (decimal n)) isAdd l
          = Some (LE_BAD_PARAMETER, l, ev)
          /\ filter is_change_route_call ev = []).
Proof.
  intros E ch db dest intf isAdd l n Hdb Htech Hdest Hintf.
  assert (Hchecks : n < 1000 ->
            (1 <= n <= 128 ->
             check_prefix_IPv4 inet_pton_AF_INET6 (Some (decimal n)) l
             = Some (inr (Some (decimal n)), l, [])
             /\ check_prefix_IPv6 (Some (decimal n)) l
                = Some (inr (Some (decimal n)), l, []))
            /\ (128 < n ->
                check_prefix_IPv4 inet_pton_AF_INET6 (Some (decimal n)) l
                = Some (inl LE_BAD_PARAMETER, l,
                        [Ev_LE_WARN (WARN_prefix_length_invalid (decimal n))])
                /\ check_prefix_IPv6 (Some (decimal n)) l
                   = Some (inl LE_BAD_PARAMETER, l, []))).
  { intros Hn. destruct (decimal_below_1000 n Hn) as (_ & Hconv & H4).
    unfold check_prefix_IPv4, check_prefix_IPv6, prefix_out_of_range,
      DcsNetValidateIpAddress, IPV6_PREFIX_LENGTH_MAX.
    rewrite Hconv, H4. cbn [le_result_eqb].
    destruct (Z.ltb_spec (Z.of_nat n) 0) as [Hneg|_]; [lia|]. cbn [orb].
    change (8 * 8 * 2)%Z with 128%Z.
    split; intros Hr.
    - destruct (Z.ltb_spec 128 (Z.of_nat n)); [lia|].
      destruct (Z.eqb_spec (Z.of_nat n) 0); [lia|]. split; reflexivity.
    - destruct (Z.ltb_spec 128 (Z.of_nat n)); [|lia]. split; reflexivity. }
  assert (Hgo : forall n, n < 1000 ->
            le_net_ChangeRoute' E ch (Some dest) (Some (decimal n)) isAdd l
            = bind (if le_result_eqb
                          (DcsNetValidateIpAddress inet_pton_AF_INET6 AF_INET
                             (strip_leading_whitespaces dest)) LE_OK
                    then check_prefix_IPv4 inet_pton_AF_INET6 (Some (decimal n))
                    else check_prefix_IPv6 (Some (decimal n)))
                (fun checked =>
                   match checked with
                   | inl e => ret e
                   | inr prefixLength =>
                       bind (le_dcsTech_GetNetInterface E (technology db) ch)
                         (fun x => match x with
                                   | (r, intfName) =>
                                       if negb (le_result_eqb r LE_OK) then ret r
                                       else DcsNetChangeRoute E
                                              (strip_leading_whitespaces dest)
                                              prefixLength intfName isAdd
                                   end)
                   end) l).
  { intros m Hm. destruct (decimal_below_1000 m Hm) as (Hstrip & _).
    unfold le_net_ChangeRoute. rewrite Hdb, Htech, Hstrip.
    unfold DcsNetValidateIpAddress.
    destruct (inet_pton_AF_INET (strip_leading_whitespaces dest));
      cbn [le_result_eqb]; [reflexivity|].
    destruct Hdest as [Hd|Hd]; [contradiction|]. rewrite Hd. reflexivity. }
  split; intros Hr.
  - assert (Hn : n < 1000) by lia. rewrite (Hgo n Hn).
    destruct (Hchecks Hn) as [Hok _]. destruct (Hok Hr) as [H4 H6].
    assert (Hc : (if le_result_eqb
                       (DcsNetValidateIpAddress inet_pton_AF_INET6 AF_INET
                          (strip_leading_whitespaces dest)) LE_OK
                  then check_prefix_IPv4 inet_pton_AF_INET6 (Some (decimal n))
                  else check_prefix_IPv6 (Some (decimal n))) l
                 = Some (inr (Some (decimal n)), l, []))
      by (destruct (le_result_eqb _ LE_OK); assumption).
    unfold bind at 1. rewrite Hc.
    unfold le_dcsTech_GetNetInterface, bind, emit, ret. rewrite Hintf.
    cbn [le_result_eqb negb]. rewrite DcsNetChangeRoute_eq. reflexivity.
  - assert (Hn : n < 1000) by lia. rewrite (Hgo n Hn).
    destruct (Hchecks Hn) as [_ Hbad]. destruct (Hbad (proj1 Hr)) as [H4 H6].
    unfold bind.
    destruct (le_result_eqb _ LE_OK); [rewrite H4|rewrite H6];
      eexists; split; reflexivity.
Qed.

(** ** Setting and restoring the DNS servers *)

Lemma bindD_inv {A B : Type} (m : MD A) (k : A -> MD B) b st x b' st' ev :
  bindD m k b st = Some (x, b', st', ev) ->
  exists a b1 st1 ev1 ev2,
    m b st = Some (a, b1, st1, ev1)
    /\ k a b1 st1 = Some (x, b', st', ev2)
    /\ ev = ev1 ++ ev2.
Proof.
  unfold bindD. destruct (m b st) as [[[[a b1] st1] ev1]|]; [|discriminate].
  destruct (k a b1 st1) as [[[[y b2] st2] ev2]|] eqn:Hk; [|discriminate].
  intros H. inversion H; subst. exists a, b1, st1, ev1, ev2. auto.
Qed.

Lemma liftD_inv {A : Type} (m : M A) b st x b' st' ev :
  liftD m b st = Some (x, b', st', ev) ->
  exists ev0, m st = Some (x, st', ev0) /\ b' = b /\ ev = map Ev_dcs ev0.
Proof.
  unfold liftD. destruct (m st) as [[[a st1] ev0]|]; [|discriminate].
  intros H. inversion H; subst. exists ev0. auto.
Qed.

Lemma DcsNetSetDNS_eq D isIpv6 dns1 dns2 n b st :
  DcsNetSetDNS D isIpv6 dns1 dns2 n b st
  = Some (ans_SetDnsNameServers D isIpv6 dns1 dns2,
          (if le_result_eqb (ans_SetDnsNameServers D isIpv6 dns1 dns2) LE_OK
           then
             if isIpv6
             then {| newDnsIPv4 := newDnsIPv4 b;
                     newDnsIPv6 := (copied (le_utf8_Copy dns1 n),
                                    copied (le_utf8_Copy dns2 n)) |}
             else {| newDnsIPv4 := (copied (le_utf8_Copy dns1 n),
                                    copied (le_utf8_Copy dns2 n));
                     newDnsIPv6 := newDnsIPv6 b |}
           else b),
          st,
          [Ev_pa_dcs_SetDnsNameServers isIpv6 dns1 dns2]).
Proof.
  unfold DcsNetSetDNS, pa_dcs_SetDnsNameServers, bindD, emitD, retD, getD, putD.
  destruct (ans_SetDnsNameServers D isIpv6 dns1 dns2); reflexivity.
Qed.

Lemma no_dns_call_lifted ev :
  forallb (fun e => negb (is_set_dns_call e)) (map Ev_dcs ev) = true.
Proof. induction ev as [|e ev IH]; simpl; auto. Qed.

Lemma no_dns_call_filter (p : DnsEvent -> bool) ev :
  (forall e, p e = true -> is_set_dns_call e = true) ->
  forallb (fun e => negb (is_set_dns_call e)) ev = true ->
  filter p ev = [] /\ existsb p ev = false.
Proof.
  intros Hp. induction ev as [|e ev IH]; simpl; [auto|].
  intros H. apply andb_prop in H. destruct H as [He Hev].
  destruct (IH Hev) as [Hf Hx]. rewrite Hx.
  destruct (p e) eqn:Hpe; [|auto].
  rewrite (Hp e Hpe) in He. discriminate.
Qed.

(** The stages of [le_net_SetDNS]: an early return, which is not [LE_OK]
    and leaves the record alone, or the two families, IPv6 first, each
    asked of the adapter when it has an address. *)
Lemma le_net_SetDNS_stages E D ch b l r b' l' ev :
  le_net_SetDNS' E D ch b l = Some (r, b', l', ev) ->
  l' = l
  /\ ((b' = b /\ r <> LE_OK
       /\ forallb (fun e => negb (is_set_dns_call e)) ev = true)
      \/ exists a1 a2 b1 b2 evp e6 e4 v6Ret v4Ret bm,
           forallb (fun e => negb (is_set_dns_call e)) evp = true
           /\ ev = evp ++ e6 ++ e4
           /\ (if Nat.ltb 0 (String.length b1) || Nat.ltb 0 (String.length b2)
               then DcsNetSetDNS D true b1 b2 PA_DCS_IPV6_ADDR_MAX_BYTES
               else retD LE_FAULT) b l = Some (v6Ret, bm, l, e6)
           /\ (if Nat.ltb 0 (String.length a1) || Nat.ltb 0 (String.length a2)
               then DcsNetSetDNS D false a1 a2 PA_DCS_IPV4_ADDR_MAX_BYTES
               else retD LE_FAULT) bm l = Some (v4Ret, b', l, e4)
           /\ r = if le_result_eqb v4Ret LE_DUPLICATE
                     || le_result_eqb v6Ret LE_DUPLICATE
                  then LE_DUPLICATE
                  else if le_result_eqb v4Ret LE_OK || le_result_eqb v6Ret LE_OK
                  then LE_OK else LE_FAULT).
Proof.
  unfold le_net_SetDNS.
  assert (Hearly : forall (r0 : le_result_t) b0 (l0 : State) ev0,
             r0 <> LE_OK -> b0 = b -> l0 = l ->
             forallb (fun e => negb (is_set_dns_call e)) ev0 = true ->
             Some (r0, b0, l0, ev0) = Some (r, b', l', ev) ->
             l' = l
             /\ ((b' = b /\ r <> LE_OK
                  /\ forallb (fun e => negb (is_set_dns_call e)) ev = true)
                 \/ exists a1 a2 b1 b2 evp e6 e4 v6Ret v4Ret bm,
                      forallb (fun e => negb (is_set_dns_call e)) evp = true
                      /\ ev = evp ++ e6 ++ e4
                      /\ (if Nat.ltb 0 (String.length b1)
                             || Nat.ltb 0 (String.length b2)
                          then DcsNetSetDNS D true b1 b2 PA_DCS_IPV6_ADDR_MAX_BYTES
                          else retD LE_FAULT) b l = Some (v6Ret, bm, l, e6)
                      /\ (if Nat.ltb 0 (String.length a1)
                             || Nat.ltb 0 (String.length a2)
                          then DcsNetSetDNS D false a1 a2 PA_DCS_IPV4_ADDR_MAX_BYTES
                          else retD LE_FAULT) bm l = Some (v4Ret, b', l, e4)
                      /\ r = if le_result_eqb v4Ret LE_DUPLICATE
                                || le_result_eqb v6Ret LE_DUPLICATE
                             then LE_DUPLICATE
                             else if le_result_eqb v4Ret LE_OK
                                     || le_result_eqb v6Ret LE_OK
                             then LE_OK else LE_FAULT)).
  { intros r0 b0 l0 ev0 Hr0 -> -> Hev0 H. inversion H; subst. auto. }
  destruct (le_dcs_GetChannelDbFromRef E ch) as [db|].
  2:{ unfold retD. apply Hearly; auto. discriminate. }
  destruct (unsupported_technology _ _ _).
  { unfold retD. apply Hearly; auto. discriminate. }
  intros H. apply bindD_inv in H.
  destruct H as (fetched & b1 & st1 & ev1 & ev2 & Hfetch & Hrest & ->).
  assert (Hf : b1 = b /\ st1 = l
               /\ forallb (fun e => negb (is_set_dns_call e)) ev1 = true).
  { destruct (Z.eqb _ _).
    - unfold le_dcsTech_GetDNSAddresses, bindD, emitD, retD in Hfetch.
      inversion Hfetch; subst. auto.
    - apply bindD_inv in Hfetch.
      destruct Hfetch as ([r0 intf] & b2 & st2 & ev3 & ev4 & H1 & H2 & ->).
      apply liftD_inv in H1. destruct H1 as (ev0 & H1 & -> & ->).
      unfold le_dcsTech_GetNetInterface, bind, emit, ret in H1.
      inversion H1; subst st2 ev0; clear H1.
      destruct (negb (le_result_eqb r0 LE_OK)).
      + unfold retD in H2. inversion H2; subst. auto.
      + apply bindD_inv in H2.
        destruct H2 as (x & b3 & st3 & ev5 & ev6 & H3 & H4 & ->).
        apply liftD_inv in H3. destruct H3 as (ev7 & H3 & -> & ->).
        destruct x as [[rx v4x] v6x].
        apply GetLeaseAddresses_inv in H3. destruct H3 as [-> _].
        unfold retD in H4. inversion H4; subst.
        rewrite !forallb_app, !no_dns_call_lifted. auto. }
  destruct Hf as (-> & -> & Hev1).
  destruct fetched as [e|[[r1 v4] v6]].
  { clear Hearly. unfold retD in Hrest. inversion Hrest; subst.
    rewrite app_nil_r. split; [reflexivity|]. left.
    split; [reflexivity|]. split; [|exact Hev1].
    revert Hfetch. destruct (Z.eqb _ _).
    - unfold le_dcsTech_GetDNSAddresses, bindD, emitD, retD. discriminate.
    - intros Hfetch. apply bindD_inv in Hfetch.
      destruct Hfetch as ([r0 intf] & b2 & st2 & ev3 & ev4 & _ & H2 & _).
      destruct (negb (le_result_eqb r0 LE_OK)).
      + unfold retD in H2. inversion H2; subst. discriminate.
      + apply bindD_inv in H2.
        destruct H2 as (x & b3 & st3 & ev5 & ev6 & _ & H4 & _).
        unfold retD in H4. discriminate. }
  destruct (negb (le_result_eqb r1 LE_OK)) eqn:Hr1.
  { unfold retD in Hrest. inversion Hrest; subst. rewrite app_nil_r.
    split; [reflexivity|]. left. split; [reflexivity|]. split; [|exact Hev1].
    intros ->. discriminate. }
  destruct (row_str v4 0) as [a1|]; [|discriminate].
  destruct (row_str v4 1) as [a2|]; [|discriminate].
  destruct (row_str v6 0) as [c1|]; [|discriminate].
  destruct (row_str v6 1) as [c2|]; [|discriminate].
  destruct (_ && _ && _ && _).
  { unfold retD in Hrest. inversion Hrest; subst. rewrite app_nil_r.
    split; [reflexivity|]. left. split; [reflexivity|]. split; [|exact Hev1].
    discriminate. }
  clear Hearly. apply bindD_inv in Hrest.
  destruct Hrest as (v6Ret & bm & st6 & e6 & x6 & H6 & Hrest & ->).
  apply bindD_inv in Hrest.
  destruct Hrest as (v4Ret & bn & st4 & e4 & x4 & H4 & Hrest & ->).
  assert (Hst6 : st6 = l).
  { revert H6.
    destruct (Nat.ltb 0 (String.length c1) || Nat.ltb 0 (String.length c2));
      [rewrite DcsNetSetDNS_eq|unfold retD];
      intros H6; inversion H6; reflexivity. }
  subst st6.
  assert (Hst4 : st4 = l).
  { revert H4.
    destruct (Nat.ltb 0 (String.length a1) || Nat.ltb 0 (String.length a2));
      [rewrite DcsNetSetDNS_eq|unfold retD];
      intros H4; inversion H4; reflexivity. }
  subst st4.
  assert (Hend : bn = b' /\ l = l' /\ x4 = []
                 /\ r = if le_result_eqb v4Ret LE_DUPLICATE
                           || le_result_eqb v6Ret LE_DUPLICATE
                        then LE_DUPLICATE
                        else if le_result_eqb v4Ret LE_OK
                                || le_result_eqb v6Ret LE_OK
                        then LE_OK else LE_FAULT).
  { revert Hrest. unfold retD.
    destruct (le_result_eqb v4Ret LE_DUPLICATE
              || le_result_eqb v6Ret LE_DUPLICATE);
      [|destruct (le_result_eqb v4Ret LE_OK || le_result_eqb v6Ret LE_OK)];
      intros Hrest; inversion Hrest; auto. }
  destruct Hend as (-> & <- & -> & Hr).
  split; [reflexivity|]. right.
  exists a1, a2, c1, c2, ev1, e6, e4, v6Ret, v4Ret, bm.
  rewrite app_nil_r. auto 10.
Qed.

Lemma SetDNS_family_inv D isIpv6 dns1 dns2 n b l v bm e :
  (if Nat.ltb 0 (String.length dns1) || Nat.ltb 0 (String.length dns2)
   then DcsNetSetDNS D isIpv6 dns1 dns2 n
   else retD LE_FAULT) b l = Some (v, bm, l, e) ->
  (v = LE_FAULT /\ bm = b /\ e = [])
  \/ ((dns1 <> EmptyString \/ dns2 <> EmptyString)
      /\ v = ans_SetDnsNameServers D isIpv6 dns1 dns2
      /\ e = [Ev_pa_dcs_SetDnsNameServers isIpv6 dns1 dns2]
      /\ slots (negb isIpv6) bm = slots (negb isIpv6) b
      /\ slots isIpv6 bm
         = if le_result_eqb v LE_OK
           then (copied (le_utf8_Copy dns1 n), copied (le_utf8_Copy dns2 n))
           else slots isIpv6 b).
Proof.
  destruct (Nat.ltb 0 (String.length dns1) || Nat.ltb 0 (String.length dns2))
    eqn:Hhas.
  - rewrite DcsNetSetDNS_eq. intros H. inversion H; subst. right. split.
    { destruct dns1; [|left; discriminate].
      destruct dns2; [discriminate|right; discriminate]. }
    split; [reflexivity|]. split; [reflexivity|].
    destruct (le_result_eqb _ LE_OK), isIpv6; split; reflexivity.
  - unfold retD. intros H. inversion H; subst. left. auto.
Qed.

(** What [le_net_SetDNS] leaves in the record, family by family. *)
Lemma le_net_SetDNS_record E D ch b l r b' l' ev :
  le_net_SetDNS' E D ch b l = Some (r, b', l', ev) ->
  forall isIpv6,
    (forall dns1 dns2,
        In (Ev_pa_dcs_SetDnsNameServers isIpv6 dns1 dns2) ev ->
        ans_SetDnsNameServers D isIpv6 dns1 dns2 = LE_OK ->
        slots isIpv6 b'
        = (copied (le_utf8_Copy dns1
                     (dns_row_width PA_DCS_IPV4_ADDR_MAX_BYTES
                        PA_DCS_IPV6_ADDR_MAX_BYTES isIpv6)),
           copied (le_utf8_Copy dns2
                     (dns_row_width PA_DCS_IPV4_ADDR_MAX_BYTES
                        PA_DCS_IPV6_ADDR_MAX_BYTES isIpv6))))
    /\ (existsb (fun e => is_set_dns_call_for isIpv6 e && dns_answered D LE_OK e)
          ev = false ->
        slots isIpv6 b' = slots isIpv6 b).
Proof.
  intros H F. apply le_net_SetDNS_stages in H.
  destruct H as [_ [(-> & _ & Hno)
                   |(a1 & a2 & c1 & c2 & evp & e6 & e4 & v6Ret & v4Ret & bm
                     & Hno & -> & H6 & H4 & _)]].
  - split; [|reflexivity]. intros d1 d2 Hin _.
    rewrite forallb_forall in Hno. apply Hno in Hin. discriminate.
  - assert (Hevp : forall f d1 d2,
               ~ In (Ev_pa_dcs_SetDnsNameServers f d1 d2) evp).
    { intros f d1 d2 Hin. rewrite forallb_forall in Hno.
      apply Hno in Hin. discriminate. }
    assert (Hevp' : existsb (fun e => is_set_dns_call_for F e
                                      && dns_answered D LE_OK e) evp = false).
    { apply (no_dns_call_filter _ evp); [|exact Hno].
      intros [] He; try discriminate. reflexivity. }
    apply SetDNS_family_inv in H6, H4. simpl negb in H6, H4.
    rewrite !existsb_app, Hevp'.
    destruct H6 as [(-> & -> & ->)|(_ & -> & -> & Ho6 & Hs6)],
             H4 as [(-> & -> & ->)|(_ & -> & -> & Ho4 & Hs4)];
      (split;
       [intros d1 d2 Hin Hok; apply in_app_or in Hin;
        destruct Hin as [Hin|Hin]; [destruct (Hevp _ _ _ Hin)|];
        simpl in Hin;
        repeat match goal with
               | H : _ \/ _ |- _ => destruct H as [H|H]
               | H : False |- _ => destruct H
               | H : Ev_pa_dcs_SetDnsNameServers _ _ _
                     = Ev_pa_dcs_SetDnsNameServers _ _ _ |- _ =>
                   inversion H; subst; clear H
               end
       |simpl; destruct F; simpl]);
      try reflexivity;
      try (rewrite Hok in *; simpl in *; congruence);
      try (destruct (le_result_eqb _ LE_OK); simpl in *; congruence);
      try (rewrite ?Bool.orb_false_r; intros Hx; rewrite ?Hx in *;
           unfold slots in *; simpl in *; congruence).
Qed.

(** X17. The result of [le_net_SetDNS] once the adapter was asked is fixed
    by the answers of the adapter: [LE_DUPLICATE] when one of them was
    [LE_DUPLICATE], even when the servers of the other family were
    installed; otherwise [LE_OK] when one of them was [LE_OK]; otherwise
    [LE_FAULT], whatever the answers were. Asked or not, the result is
    [LE_OK] exactly when no answer was [LE_DUPLICATE] and one was [LE_OK].
    The adapter is asked at most twice, never with two empty addresses, and
    the list of gateway backups is not touched. *)
Theorem set_dns_result_follows_the_adapter :
  forall (E : Env) (D : DnsEnv) (ch : le_dcs_ChannelRef_t)
         (b : pa_dcs_DnsBackup_t) (l : State) (r : le_result_t)
         (b' : pa_dcs_DnsBackup_t) (l' : State) (ev : list DnsEvent),
    le_net_SetDNS' E D ch b l = Some (r, b', l', ev) ->
    l' = l
    /\ (existsb (dns_answered D LE_DUPLICATE) ev = true -> r = LE_DUPLICATE)
    /\ (r = LE_OK <->
        existsb (dns_answered D LE_DUPLICATE) ev = false
        /\ existsb (dns_answered D LE_OK) ev = true)
    /\ (filter is_set_dns_call ev <> [] ->
        r = if existsb (dns_answered D LE_DUPLICATE) ev then LE_DUPLICATE
            else if existsb (dns_answered D LE_OK) ev then LE_OK
            else LE_FAULT)
    /\ List.length (filter is_set_dns_call ev) <= 2
    /\ (forall isIpv6 dns1 dns2,
           In (Ev_pa_dcs_SetDnsNameServers isIpv6 dns1 dns2) ev ->
           dns1 <> EmptyString \/ dns2 <> EmptyString).
Proof.
  intros E D ch b l r b' l' ev H. apply le_net_SetDNS_stages in H.
  destruct H as [-> [(_ & Hr & Hno)
                    |(a1 & a2 & c1 & c2 & evp & e6 & e4 & v6Ret & v4Ret & bm
                      & Hno & -> & H6 & H4 & ->)]];
    (split; [reflexivity|]).
  - destruct (no_dns_call_filter (dns_answered D LE_DUPLICATE) ev) as [_ Hd];
      [intros [] He; try discriminate; reflexivity|exact Hno|].
    destruct (no_dns_call_filter (dns_answered D LE_OK) ev) as [_ Ho];
      [intros [] He; try discriminate; reflexivity|exact Hno|].
    destruct (no_dns_call_filter is_set_dns_call ev) as [Hf _];
      [auto|exact Hno|].
    rewrite Hd, Ho, Hf. repeat split; try discriminate; try contradiction.
    + intros [_ Hx]. discriminate.
    + simpl. lia.
    + intros F d1 d2 Hin. rewrite forallb_forall in Hno.
      apply Hno in Hin. discriminate.
  - destruct (no_dns_call_filter (dns_answered D LE_DUPLICATE) evp) as [_ Hd];
      [intros [] He; try discriminate; reflexivity|exact Hno|].
    destruct (no_dns_call_filter (dns_answered D LE_OK) evp) as [_ Ho];
      [intros [] He; try discriminate; reflexivity|exact Hno|].
    destruct (no_dns_call_filter is_set_dns_call evp) as [Hf _];
      [auto|exact Hno|].
    apply SetDNS_family_inv in H6, H4.
    rewrite !existsb_app, !filter_app, !length_app, Hd, Ho, Hf.
    assert (Hin : forall isIpv6 dns1 dns2,
               In (Ev_pa_dcs_SetDnsNameServers isIpv6 dns1 dns2)
                  (evp ++ e6 ++ e4) ->
               dns1 <> EmptyString \/ dns2 <> EmptyString).
    { intros F d1 d2 Hin. apply in_app_or in Hin. destruct Hin as [Hin|Hin].
      { rewrite forallb_forall in Hno. apply Hno in Hin. discriminate. }
      apply in_app_or in Hin.
      destruct H6 as [(_ & _ & ->)|(Hne6 & _ & -> & _)],
               H4 as [(_ & _ & ->)|(Hne4 & _ & -> & _)];
        simpl in Hin;
        repeat match goal with
               | H : _ \/ _ |- _ => destruct H as [H|H]
               | H : False |- _ => destruct H
               | H : Ev_pa_dcs_SetDnsNameServers _ _ _
                     = Ev_pa_dcs_SetDnsNameServers _ _ _ |- _ =>
                   inversion H; subst; clear H
               end; auto. }
    destruct H6 as [(-> & _ & ->)|(_ & -> & -> & _)],
             H4 as [(-> & _ & ->)|(_ & -> & -> & _)]; simpl;
      repeat match goal with
             | |- context [ans_SetDnsNameServers D ?f ?x ?y] =>
                 destruct (ans_SetDnsNameServers D f x y)
             end; simpl;
      (repeat split; try exact Hin; try discriminate; try lia; auto;
       try (intros [Hx Hy]; discriminate); try (intros Hx; discriminate);
       try (intros Hx; exfalso; apply Hx; reflexivity)).
Qed.

(** X18. What [le_net_SetDNS] leaves in the record of name servers: for
    each family, when the adapter answered [LE_OK] to the call for that
    family, the two slots hold the two addresses of the call, cut to the
    width of a row; when it did not ([LE_DUPLICATE] included), the two slots
    are as they were. *)
Theorem set_dns_records_what_the_adapter_accepted :
  forall (E : Env) (D : DnsEnv) (ch : le_dcs_ChannelRef_t)
         (b : pa_dcs_DnsBackup_t) (l : State) (r : le_result_t)
         (b' : pa_dcs_DnsBackup_t) (l' : State) (ev : list DnsEvent)
         (isIpv6 : bool),
    le_net_SetDNS' E D ch b l = Some (r, b', l', ev) ->
    (forall dns1 dns2,
        In (Ev_pa_dcs_SetDnsNameServers isIpv6 dns1 dns2) ev ->
        ans_SetDnsNameServers D isIpv6 dns1 dns2 = LE_OK ->
        slots isIpv6 b'
        = (copied (le_utf8_Copy dns1
                     (dns_row_width PA_DCS_IPV4_ADDR_MAX_BYTES
                        PA_DCS_IPV6_ADDR_MAX_BYTES isIpv6)),
           copied (le_utf8_Copy dns2
                     (dns_row_width PA_DCS_IPV4_ADDR_MAX_BYTES
                        PA_DCS_IPV6_ADDR_MAX_BYTES isIpv6))))
    /\ (existsb (fun e => is_set_dns_call_for isIpv6 e && dns_answered D LE_OK e)
          ev = false ->
        slots isIpv6 b' = slots isIpv6 b).
Proof.
  intros E D ch b l r b' l' ev F H.
  exact (le_net_SetDNS_record E D ch b l r b' l' ev H F).
Qed.

(** X19. [le_net_SetDNS] followed by [le_net_RestoreDNS]: the restore asks
    the adapter once, and the record that it hands over holds, for each
    family that the adapter accepted in the set, the addresses of that
    call. *)
Theorem restore_dns_hands_over_what_set_dns_recorded :
  forall (E : Env) (D D' : DnsEnv) (ch : le_dcs_ChannelRef_t)
         (b : pa_dcs_DnsBackup_t) (l : State)
         (b'' : pa_dcs_DnsBackup_t) (l'' : State) (ev : list DnsEvent),
    bindD (le_net_SetDNS' E D ch) (fun _ => le_net_RestoreDNS D') b l
    = Some (tt, b'', l'', ev) ->
    exists r b' ev1,
      le_net_SetDNS' E D ch b l = Some (r, b', l, ev1)
      /\ ev = ev1 ++ [Ev_pa_dcs_RestoreInitialDnsNameServers b']
      /\ b'' = ans_RestoreInitialDnsNameServers D' b'
      /\ l'' = l
      /\ forall isIpv6 dns1 dns2,
           In (Ev_pa_dcs_SetDnsNameServers isIpv6 dns1 dns2) ev1 ->
           ans_SetDnsNameServers D isIpv6 dns1 dns2 = LE_OK ->
           slots isIpv6 b'
           = (copied (le_utf8_Copy dns1
                        (dns_row_width PA_DCS_IPV4_ADDR_MAX_BYTES
                           PA_DCS_IPV6_ADDR_MAX_BYTES isIpv6)),
              copied (le_utf8_Copy dns2
                        (dns_row_width PA_DCS_IPV4_ADDR_MAX_BYTES
                           PA_DCS_IPV6_ADDR_MAX_BYTES isIpv6))).
Proof.
  intros E D D' ch b l b'' l'' ev H. apply bindD_inv in H.
  destruct H as (r & b' & l' & ev1 & ev2 & Hset & Hrestore & ->).
  pose proof (le_net_SetDNS_stages _ _ _ _ _ _ _ _ _ Hset) as [Hl _].
  subst l'.
  unfold le_net_RestoreDNS, bindD, getD, emitD, putD in Hrestore.
  inversion Hrestore; subst.
  exists r, b', ev1. split; [exact Hset|]. split; [reflexivity|].
  split; [reflexivity|]. split; [reflexivity|].
  intros F. apply (le_net_SetDNS_record _ _ _ _ _ _ _ _ _ Hset F).
Qed.

(** ** The backup that a session holds after a sequence of operations *)

Lemma step_holds_backup ref o cur l l' ev :
  one_per_session l ->
  holds_backup ref cur l ->
  step' o l = Some (tt, l', ev) ->
  holds_backup ref (last_backup ref [o] cur) l'.
Proof.
  intros Hone Hcur H. apply step_inv in H. destruct o as [E|E ch|E]; simpl.
  - subst l'. destruct (N.eqb_spec (DcsNetGetSessionRef E) ref) as [<-|Hne].
    + exists (backed_up (DcsNetGetSessionRef E) (ans_GetDefaultGateway E)).
      split; [|auto]. unfold snapshot_of. simpl. rewrite N.eqb_refl.
      reflexivity.
    + assert (Hsame : snapshot_of ref
                        (backed_up (DcsNetGetSessionRef E)
                           (ans_GetDefaultGateway E)
                           :: without_snapshot_of (DcsNetGetSessionRef E) l)
                      = snapshot_of ref l).
      { rewrite snapshot_of_cons_other by (simpl; exact Hne).
        apply snapshot_of_without_other. exact Hne. }
      unfold holds_backup in *. rewrite Hsame. exact Hcur.
  - destruct H as (b4 & b6 & ->).
    unfold holds_backup in *. rewrite snapshot_of_raise_flags.
    destruct cur as [gw|].
    + destruct Hcur as (d & -> & Harch).
      eexists. split; [reflexivity|]. intros F.
      destruct (N.eqb _ ref); [|apply Harch].
      destruct (Harch F) as [Hg Hi]. destruct F; simpl in *; auto.
    + rewrite Hcur. reflexivity.
  - subst l'. destruct (N.eqb_spec (DcsNetGetSessionRef E) ref) as [->|Hne].
    + simpl. unfold snapshot_of.
      rewrite (snapshots_none_scan _ _
                 (snapshots_of_without_same ref l (Hone ref))).
      reflexivity.
    + unfold holds_backup in *.
      rewrite (snapshot_of_without_other _ _ l Hne). exact Hcur.
Qed.

Lemma run_holds_backup ref ops cur l l' ev :
  one_per_session l ->
  holds_backup ref cur l ->
  run' ops l = Some (tt, l', ev) ->
  holds_backup ref (last_backup ref ops cur) l'.
Proof.
  revert cur l ev. induction ops as [|o ops IH]; intros cur l ev Hone Hcur H.
  - apply run_nil_inv in H. subst. exact Hcur.
  - apply run_cons_inv in H. destruct H as (l1 & ev1 & ev2 & H1 & H2 & _).
    assert (Hone1 : one_per_session l1)
      by (eapply step_one_per_session; eauto).
    pose proof (step_holds_backup ref o cur l l1 ev1 Hone Hcur H1) as Hcur1.
    specialize (IH _ _ _ Hone1 Hcur1 H2).
    destruct o; exact IH.
Qed.

(** X20. After any sequence of backups, settings and restores since
    initialisation, by whatever sessions: a session has a backup on the
    list exactly when its last backup was followed by no restore of its
    own, and that backup then archives the gateways and interfaces that
    the adapter reported at that last backup, whatever the other sessions
    did in between. *)
Theorem session_holds_what_its_last_backup_archived :
  forall (ops : list Op) (l : State) (ev : list Event)
         (ref : le_msg_SessionRef_t),
    run' ops LE_DLS_LIST_INIT = Some (tt, l, ev) ->
    holds_backup ref (last_backup ref ops None) l.
Proof.
  intros ops l ev ref H.
  apply (run_holds_backup ref ops None LE_DLS_LIST_INIT l ev);
    [apply one_per_session_init|reflexivity|exact H].
Qed.

(** ** Reading back the servers of a lease line *)

Lemma plain_cons c t :
  plain (String c t) = true ->
  Ascii.eqb c NUL = false /\ Ascii.eqb c space = false
  /\ Ascii.eqb c semicolon = false /\ Ascii.eqb c colon = false
  /\ plain t = true.
Proof.
  simpl. intros H.
  repeat match goal with
         | H : _ && _ = true |- _ => apply andb_prop in H; destruct H
         | H : negb _ = true |- _ => apply negb_true_iff in H
         end.
  auto.
Qed.

Lemma c_trunc_plain_app t y :
  plain t = true -> c_trunc (t ++ y) = (t ++ c_trunc y)%string.
Proof.
  induction t as [|c t IH]; intros H; [reflexivity|].
  apply plain_cons in H. destruct H as (Hn & _ & _ & _ & Ht).
  simpl. rewrite Hn, (IH Ht). reflexivity.
Qed.

Lemma c_trunc_plain t : plain t = true -> c_trunc t = t.
Proof.
  induction t as [|c t IH]; intros H; [reflexivity|].
  apply plain_cons in H. destruct H as (Hn & _ & _ & _ & Ht).
  simpl. rewrite Hn, (IH Ht). reflexivity.
Qed.

Lemma strchr_plain_app t y c :
  (c = semicolon \/ c = colon) -> plain t = true ->
  strchr (t ++ y) c
  = match strchr y c with
    | Some i => Some (String.length t + i)
    | None => None
    end.
Proof.
  intros Hc. induction t as [|b t IH]; intros H.
  - simpl. destruct (strchr y c); reflexivity.
  - apply plain_cons in H. destruct H as (_ & _ & Hsemi & Hcol & Ht).
    cbn [String.append]. rewrite strchr_cons, (IH Ht).
    assert (Hcb : Ascii.eqb c b = false).
    { rewrite Ascii.eqb_sym. destruct Hc; subst c; assumption. }
    rewrite Hcb. destruct (strchr y c); reflexivity.
Qed.

Lemma substring_app_prefix t y :
  String.substring 0 (String.length t) (t ++ y) = t.
Proof.
  induction t as [|c t IH]; simpl.
  - destruct y; reflexivity.
  - rewrite IH. reflexivity.
Qed.

Lemma string_app_assoc (s1 s2 s3 : string) :
  ((s1 ++ s2) ++ s3 = s1 ++ (s2 ++ s3))%string.
Proof. induction s1 as [|c s1 IH]; simpl; [reflexivity|]. rewrite IH. reflexivity. Qed.

Lemma string_length_app (s1 s2 : string) :
  String.length (s1 ++ s2) = String.length s1 + String.length s2.
Proof. induction s1 as [|c s1 IH]; simpl; [reflexivity|]. rewrite IH. lia. Qed.

Lemma cut_at_space_plain t :
  plain t = true ->
  (forall y, cut_at_space (t ++ String space y) = (t, y))
  /\ cut_at_space t = (t, EmptyString).
Proof.
  induction t as [|c t IH]; intros H.
  - split; [intros y|]; reflexivity.
  - apply plain_cons in H. destruct H as (_ & Hsp & _ & _ & Ht).
    destruct (IH Ht) as [IH1 IH2].
    split; [intros y|]; simpl; rewrite Hsp, ?IH1, ?IH2; reflexivity.
Qed.

Lemma strtok_r_plain c t :
  plain (String c t) = true ->
  (forall y, strtok_r (String c t ++ String space y) = Some (String c t, y))
  /\ strtok_r (String c t) = Some (String c t, EmptyString).
Proof.
  intros H. destruct (cut_at_space_plain _ H) as [H1 H2].
  apply plain_cons in H. destruct H as (_ & Hsp & _).
  unfold strtok_r. split; [intros y|];
    cbn [String.append skip_spaces]; rewrite Hsp.
  - specialize (H1 y). cbn [String.append] in H1. rewrite H1. reflexivity.
  - rewrite H2. reflexivity.
Qed.

Lemma has_colon_plain t : plain t = true -> has_colon t = false.
Proof.
  intros H. unfold has_colon.
  pose proof (strchr_plain_app t EmptyString colon (or_intror eq_refl) H) as Hc.
  assert (Ht : (t ++ "")%string = t)
    by (clear; induction t as [|c t IH]; simpl; [|rewrite IH]; reflexivity).
  rewrite Ht in Hc. rewrite Hc. reflexivity.
Qed.

Lemma tokens_of_two t1 t2 fuel :
  plain t1 = true -> plain t2 = true ->
  t1 <> EmptyString -> t2 <> EmptyString ->
  tokens_upto (S (S (S fuel))) (t1 ++ String space t2) = [t1; t2].
Proof.
  intros H1 H2 Hn1 Hn2.
  destruct t1 as [|c1 t1]; [contradiction|].
  destruct t2 as [|c2 t2]; [contradiction|].
  cbn [tokens_upto].
  rewrite (proj1 (strtok_r_plain c1 t1 H1)), (proj2 (strtok_r_plain c2 t2 H2)).
  reflexivity.
Qed.

(** X21. The servers of a lease line are read back as they were written:
    when the first line of the lease file that holds the option reads
    [domain-name-servers], a space, two IPv4 servers separated by a space and
    a semicolon, and each server is shorter than a row of the array and
    than the caller's field, [le_net_GetDNS] returns [LE_OK] with exactly
    these two servers and no IPv6 server, whatever the two servers are and
    whatever follows the semicolon within the address buffer. *)
Theorem get_dns_reads_back_the_servers_of_the_lease_line :
  forall (E : Env) (ch : le_dcs_ChannelRef_t) (db : le_dcs_channelDb_t)
         (a : le_net_DnsServerAddresses_t) (intf path stream : string)
         (result0 : le_result_t) (pre : list string)
         (t1 t2 rest : string) (post : list string) (st : State),
    plain t1 = true -> plain t2 = true ->
    t1 <> EmptyString -> t2 <> EmptyString ->
    String.length t1 < PA_DCS_IPV4_ADDR_MAX_BYTES ->
    String.length t2 < PA_DCS_IPV4_ADDR_MAX_BYTES ->
    String.length t1 < sizeof_ipv4Addr ->
    String.length t2 < sizeof_ipv4Addr ->
    1 <= PA_DCS_IPV6_ADDR_MAX_BYTES -> 1 <= sizeof_ipv6Addr ->
    le_dcs_GetChannelDbFromRef E ch = Some db ->
    ans_GetNetInterface E (technology db) ch = (LE_OK, intf) ->
    ans_GetDhcpLeaseFilePath E intf = (LE_OK, path) ->
    ans_TryOpenStream E path = (Some stream, result0) ->
    fgets_lines
      (LEASE_FILE_MAX_LINE_LENGTH_BYTES PA_DCS_IPV4_ADDR_MAX_BYTES
         PA_DCS_IPV6_ADDR_MAX_BYTES) stream ""
    = pre ++ ("domain-name-servers " ++ t1 ++ String space t2
              ++ String semicolon rest)%string :: post ->
    Forall (fun l => strstr (c_trunc l) DNS_ADDRESS_OPTION = None) pre ->
    String.length t1 + String.length t2 + 2 + String.length (c_trunc rest)
      < MAX_NUM_DNS_ADDRESS_BY_TYPE
        * (PA_DCS_IPV4_ADDR_MAX_BYTES + PA_DCS_IPV6_ADDR_MAX_BYTES + 1) ->
    le_net_GetDNS' E ch (Some a) st
    = Some (LE_OK,
            Some {| ipv4Addr1 := t1; ipv4Addr2 := t2;
                    ipv6Addr1 := ""; ipv6Addr2 := "" |},
            st,
            [Ev_le_dcsTech_GetNetInterface (technology db) ch;
             Ev_pa_dcs_GetDhcpLeaseFilePath intf;
             Ev_le_flock_TryOpenStream path]).
Proof.
  intros E ch db a intf path stream result0 pre t1 t2 rest post st
    Hp1 Hp2 Hn1 Hn2 Hr1 Hr2 Hf1 Hf2 H6 Hs6 Hdb Hintf Hpath Hopen Hlines Hpre
    Hfit.
  set (value := (t1 ++ String space t2)%string).
  set (tail := (value ++ String semicolon rest)%string).
  assert (Htail : (t1 ++ String space t2 ++ String semicolon rest)%string = tail).
  { unfold tail, value. symmetry. apply string_app_assoc. }
  assert (Hct : c_trunc tail = (value ++ String semicolon (c_trunc rest))%string).
  { rewrite <- Htail. unfold value. clear - Hp1 Hp2.
    rewrite c_trunc_plain_app by exact Hp1. cbn [c_trunc String.append].
    change (Ascii.eqb space NUL) with false. cbv iota.
    rewrite c_trunc_plain_app by exact Hp2. cbn [c_trunc].
    change (Ascii.eqb semicolon NUL) with false. cbv iota.
    symmetry. apply string_app_assoc. }
  assert (Hlen : String.length value = String.length t1 + 1 + String.length t2).
  { unfold value. rewrite string_length_app. simpl. lia. }
  assert (Hsemi : strchr (value ++ String semicolon (c_trunc rest)) semicolon
                  = Some (String.length value)).
  { unfold value.
    assert (Happ : forall y, ((t1 ++ String space t2) ++ y)%string
                             = (t1 ++ String space (t2 ++ y))%string).
    { intros y. apply string_app_assoc. }
    rewrite Happ, strchr_plain_app by auto.
    rewrite strchr_cons. change (Ascii.eqb semicolon space) with false.
    cbv iota. rewrite strchr_plain_app by auto.
    rewrite strchr_cons, Ascii.eqb_refl, string_length_app. simpl.
    f_equal. lia. }
  assert (Hentry :
            GetDhcpLeaseFileEntry' E intf LE_NET_DNS_SERVER_ADDRESS
              (MAX_NUM_DNS_ADDRESS_BY_TYPE
               * (PA_DCS_IPV4_ADDR_MAX_BYTES + PA_DCS_IPV6_ADDR_MAX_BYTES + 1)) st
            = Some (LE_OK, value,
                    String.length value + 1 + String.length (c_trunc rest) - 1,
                    st,
                    [Ev_pa_dcs_GetDhcpLeaseFilePath intf;
                     Ev_le_flock_TryOpenStream path])).
  { unfold GetDhcpLeaseFileEntry, pa_dcs_GetDhcpLeaseFilePath,
      le_flock_TryOpenStream, bind, emit, ret.
    rewrite Hpath. cbn [le_result_eqb negb].
    change (le_utf8_Copy DNS_ADDRESS_OPTION DHCP_LEASE_OPTION_MAX_LEN_BYTES)
      with (LE_OK, DNS_ADDRESS_OPTION, 19).
    cbv iota. rewrite Hopen, Hlines, Htail.
    rewrite (find_line_first pre _ post DNS_ADDRESS_OPTION 0 Hpre).
    2:{ unfold DNS_ADDRESS_OPTION, strstr. simpl. reflexivity. }
    change (0 + Nat.min (String.length DNS_ADDRESS_OPTION)
                  DHCP_LEASE_OPTION_MAX_LEN_BYTES + 1) with 20.
    change (string_drop 20 ("domain-name-servers " ++ tail)) with tail.
    assert (Hlt : Nat.ltb (String.length ("domain-name-servers " ++ tail)) 20
                  = false).
    { apply Nat.ltb_ge. rewrite string_length_app. simpl. lia. }
    rewrite Hlt, Hct.
    rewrite le_utf8_Copy_fits
      by (rewrite string_length_app, Hlen; simpl;
          unfold MAX_NUM_DNS_ADDRESS_BY_TYPE in *; clear - Hfit; lia).
    rewrite Hsemi, substring_app_prefix, string_length_app. simpl.
    match goal with
    | |- Some (_, _, ?x, _, _) = Some (_, _, ?y, _, _) =>
        replace x with y by lia
    end.
    reflexivity. }
  unfold le_net_GetDNS. rewrite Hdb.
  assert (Hni : le_dcsTech_GetNetInterface E (technology db) ch st
                = Some (LE_OK, intf, st,
                        [Ev_le_dcsTech_GetNetInterface (technology db) ch])).
  { unfold le_dcsTech_GetNetInterface, bind, emit, ret. rewrite Hintf.
    reflexivity. }
  rewrite (bind_eq _ _ _ _ _ _ Hni). cbn [le_result_eqb negb].
  assert (Hlease :
            GetLeaseAddresses' E intf LE_NET_DNS_SERVER_ADDRESS
              (zero_rows PA_DCS_IPV4_ADDR_MAX_BYTES 2) PA_DCS_IPV4_ADDR_MAX_BYTES
              (zero_rows PA_DCS_IPV6_ADDR_MAX_BYTES 2) PA_DCS_IPV6_ADDR_MAX_BYTES
              MAX_NUM_DNS_ADDRESS_BY_TYPE st
            = Some (LE_OK,
                    [strncpy t1 PA_DCS_IPV4_ADDR_MAX_BYTES;
                     strncpy t2 PA_DCS_IPV4_ADDR_MAX_BYTES],
                    zero_rows PA_DCS_IPV6_ADDR_MAX_BYTES 2,
                    st,
                    [Ev_pa_dcs_GetDhcpLeaseFilePath intf;
                     Ev_le_flock_TryOpenStream path])).
  { unfold GetLeaseAddresses.
    change (Nat.ltb MAX_NUM_DNS_ADDRESS_BY_TYPE MAX_NUM_DNS_ADDRESS_BY_TYPE)
      with false. cbv iota.
    rewrite (bind_eq _ _ _ _ _ _ Hentry). cbn [le_result_eqb].
    rewrite GetLeaseAddresses_loop_fills by lia.
    rewrite Hlen. replace (S (String.length t1 + 1 + String.length t2))
      with (S (S (S (String.length t1 + String.length t2 - 1)))).
    2:{ destruct t1; [contradiction|]. simpl. lia. }
    unfold value. rewrite tokens_of_two by assumption.
    cbn [filter]. rewrite !has_colon_plain by assumption. cbn [negb filter].
    unfold ret, MAX_NUM_DNS_ADDRESS_BY_TYPE, zero_rows. simpl. reflexivity. }
  rewrite (bind_eq _ _ _ _ _ _ Hlease).
  cbn [le_result_eqb negb]. unfold row_str, zero_rows.
  cbn [skipn List.concat repeat].
  rewrite !c_str_strncpy by (auto using c_trunc_plain).
  rewrite !c_str_zero_row by lia.
  rewrite !le_utf8_Copy_fits by (simpl; lia).
  reflexivity.
Qed.
End FurtherProperties.

(** * The further properties on the small system *)

(** Both families of the backup of session 7 are marked as installed and the
    adapter fails for both: [LE_FAULT]. *)
Lemma restore_result_is_fault_only_when_both_families_fail_witness :
  exists r l' ev,
    le_net_RestoreDefaultGW example_A_failing [example_snapshot_of 7%N true true]
    = Some (r, l', ev)
    /\ r = LE_FAULT
    /\ (r = LE_NOT_FOUND <->
        snapshot_of (DcsNetGetSessionRef example_A_failing)
          [example_snapshot_of 7%N true true] = None)
    /\ (r = LE_OK \/ r = LE_NOT_FOUND \/ r = LE_FAULT).
Proof.
  eexists _, _, _. split; [reflexivity|]. split; [reflexivity|].
  destruct (restore_result_is_fault_only_when_both_families_fail
              example_A_failing [example_snapshot_of 7%N true true]
              LE_FAULT []
              [Ev_pa_dcs_SetDefaultGateway "eth0" "10.0.0.1" false;
               Ev_pa_dcs_SetDefaultGateway "eth0" "fe80::1" true]
              eq_refl) as (Hnf & _ & Hrange).
  split; [exact Hnf|exact Hrange].
Defined.

(** Session 7 restores while the backup of session 9 stands before its
    own: the backup of session 9 stays, and the warning is logged. *)
Lemma restore_unlinks_one_backup_and_warns_out_of_order_witness :
  exists r l' ev,
    le_net_RestoreDefaultGW example_A
      [example_snapshot_of 9%N false false; example_snapshot true]
    = Some (r, l', ev)
    /\ l' = [example_snapshot_of 9%N false false]
    /\ (snapshot_of (DcsNetGetSessionRef example_A)
          [example_snapshot_of 9%N false false; example_snapshot true] = None
        /\ l' = [example_snapshot_of 9%N false false; example_snapshot true]
        /\ ev = []
        \/ exists l1 d l2,
             [example_snapshot_of 9%N false false; example_snapshot true]
             = l1 ++ d :: l2
             /\ l' = l1 ++ l2
             /\ appSessionRef d = DcsNetGetSessionRef example_A
             /\ snapshots_of (DcsNetGetSessionRef example_A) l1 = []
             /\ (In (Ev_LE_WARN WARN_restored_out_of_order) ev <-> l1 <> [])).
Proof.
  eexists _, _, _. split; [reflexivity|]. split; [reflexivity|].
  eapply (restore_unlinks_one_backup_and_warns_out_of_order example_A
           [example_snapshot_of 9%N false false; example_snapshot true]).
  reflexivity.
Defined.

(** Session 7 sets the gateway of its channel while session 9 holds the
    most recent backup: only the IPv4 flag of session 7 changes. *)
Lemma set_only_raises_flags_of_the_caller_witness :
  exists r l' ev,
    le_net_SetDefaultGW 16 46 0%Z 2%Z 3%Z example_A 1%N
      [example_snapshot_of 9%N false false; example_snapshot false]
    = Some (r, l', ev)
    /\ l' = [example_snapshot_of 9%N false false; example_snapshot true]
    /\ Forall2 (flags_raised_for (DcsNetGetSessionRef example_A))
         [example_snapshot_of 9%N false false; example_snapshot false] l'.
Proof.
  eexists _, _, _. split; [reflexivity|]. split; [reflexivity|].
  eapply (set_only_raises_flags_of_the_caller 16 46 0%Z 2%Z 3%Z example_A 1%N).
  reflexivity.
Defined.

(** On the cellular channel the adapter accepts both gateways. *)
Lemma set_is_ok_iff_the_adapter_accepted_a_gateway_witness :
  exists r l' ev,
    le_net_SetDefaultGW 16 46 0%Z 2%Z 3%Z example_A_cellular 1%N
      [example_snapshot false]
    = Some (r, l', ev)
    /\ ev = [Ev_le_dcsTech_GetNetInterface 2%Z 1%N;
             Ev_le_dcsTech_GetDefaultGWAddress 2%Z 5%N;
             Ev_pa_dcs_SetDefaultGateway "eth0" "2001:db8::1" true;
             Ev_pa_dcs_SetDefaultGateway "eth0" "192.0.2.1" false]
    /\ (r = LE_OK <-> existsb (accepted example_A_cellular) ev = true)
    /\ List.length (filter is_set_call ev) <= 2
    /\ forall intf gw f,
         In (Ev_pa_dcs_SetDefaultGateway intf gw f) ev ->
         gw <> EmptyString
         /\ exists db,
              le_dcs_GetChannelDbFromRef example_A_cellular 1%N = Some db
              /\ ans_GetNetInterface example_A_cellular (technology db) 1%N
                 = (LE_OK, intf).
Proof.
  eexists _, _, _. split; [reflexivity|]. split; [reflexivity|].
  eapply (set_is_ok_iff_the_adapter_accepted_a_gateway 16 46 0%Z 2%Z 3%Z
            example_A_cellular 1%N [example_snapshot false]).
  reflexivity.
Defined.

Lemma set_marks_the_families_the_adapter_accepted_witness :
  exists r l' ev,
    le_net_SetDefaultGW 16 46 0%Z 2%Z 3%Z example_A 1%N [example_snapshot false]
    = Some (r, l', ev)
    /\ l' = [example_snapshot true]
    /\ exists d',
         snapshot_of (DcsNetGetSessionRef example_A) l' = Some d'
         /\ forall isIpv6,
              installed isIpv6 d'
              = installed isIpv6 (example_snapshot false)
                || existsb (fun e => is_set_call_for isIpv6 e
                                     && accepted example_A e) ev.
Proof.
  eexists _, _, _. split; [reflexivity|]. split; [reflexivity|].
  eapply (set_marks_the_families_the_adapter_accepted 16 46 0%Z 2%Z 3%Z
            example_A 1%N [example_snapshot false]).
  - reflexivity.
  - reflexivity.
Defined.

(** Session 7 backs up and restores at once: its older backup is gone, the
    one of session 9 is left. *)
Lemma backup_then_restore_forgets_the_session_witness :
  run 16 46 0%Z 2%Z 3%Z [OpBackup example_A; OpRestore example_A]
    [example_snapshot_of 9%N false false; example_snapshot true]
  = Some (tt,
          without_snapshot_of (DcsNetGetSessionRef example_A)
            [example_snapshot_of 9%N false false; example_snapshot true],
          [Ev_pa_dcs_GetDefaultGateway])
  /\ snapshots_of (DcsNetGetSessionRef example_A)
       (without_snapshot_of (DcsNetGetSessionRef example_A)
          [example_snapshot_of 9%N false false; example_snapshot true])
     = match snapshots_of (DcsNetGetSessionRef example_A)
               [example_snapshot_of 9%N false false; example_snapshot true] with
       | [] => []
       | _ :: others => others
       end.
Proof.
  eapply (backup_then_restore_forgets_the_session 16 46 0%Z 2%Z 3%Z
           example_A example_A).
  reflexivity.
Defined.

Lemma second_backup_replaces_the_first_witness :
  exists ev,
    run 16 46 0%Z 2%Z 3%Z [OpBackup example_A; OpBackup example_A_cellular]
      [example_snapshot_of 9%N false false]
    = Some (tt,
            backed_up (DcsNetGetSessionRef example_A_cellular)
              (ans_GetDefaultGateway example_A_cellular)
              :: without_snapshot_of (DcsNetGetSessionRef example_A_cellular)
                   [example_snapshot_of 9%N false false],
            ev)
    /\ run 16 46 0%Z 2%Z 3%Z [OpBackup example_A_cellular]
         [example_snapshot_of 9%N false false]
       = Some (tt,
               backed_up (DcsNetGetSessionRef example_A_cellular)
                 (ans_GetDefaultGateway example_A_cellular)
                 :: without_snapshot_of (DcsNetGetSessionRef example_A_cellular)
                      [example_snapshot_of 9%N false false],
               [Ev_pa_dcs_GetDefaultGateway]).
Proof.
  eapply (second_backup_replaces_the_first 16 46 0%Z 2%Z 3%Z
           example_A example_A_cellular).
  reflexivity.
Defined.

(** The cellular channel: the technology is asked, the lease file is not. *)
Lemma set_asks_one_source_for_the_addresses_witness :
  exists r l' ev,
    le_net_SetDefaultGW 16 46 0%Z 2%Z 3%Z example_A_cellular 1%N
      [example_snapshot false]
    = Some (r, l', ev)
    /\ (technology (example_channel 2%Z) = 2%Z ->
        filter is_lease_event ev = [])
    /\ (technology (example_channel 2%Z) <> 2%Z ->
        filter is_technology_query ev = []).
Proof.
  eexists _, _, _. split; [reflexivity|].
  eapply (set_asks_one_source_for_the_addresses 16 46 0%Z 2%Z 3%Z
            example_A_cellular 1%N [example_snapshot false]).
  - reflexivity.
  - reflexivity.
Defined.

Lemma lease_value_fits_and_has_no_semicolon_witness :
  exists r dest k l' ev,
    GetDhcpLeaseFileEntry 16 46 example_A "eth0" LE_NET_DNS_SERVER_ADDRESS 94 []
    = Some ((r, dest, k), l', ev)
    /\ dest = "1.1.1.1 8.8.8.8"
    /\ strchr dest semicolon = None
    /\ String.length dest <= 94 - 1
    /\ l' = [].
Proof.
  eexists _, _, _, _, _. split; [reflexivity|]. split; [reflexivity|].
  eapply (lease_value_fits_and_has_no_semicolon 16 46 example_A "eth0"
            LE_NET_DNS_SERVER_ADDRESS 94 []).
  reflexivity.
Defined.

(** Three servers for two rows of four bytes: the first two are copied, cut
    to the row, and the third is not copied. *)
Lemma lease_addresses_stay_inside_the_arrays_witness :
  GetLeaseAddresses_loop_bytes (S (String.length "1.1.1.1 8.8.8.8 9.9.9.9"))
    "1.1.1.1 8.8.8.8 9.9.9.9" 4 46 2
    (repeat NUL (4 * 2)) 0 0 (repeat NUL (46 * 2)) 0 0
  = Some (strncpy "1.1." 4 ++ strncpy "8.8." 4, repeat NUL (46 * 2)).
Proof.
  destruct (lease_addresses_stay_inside_the_arrays
              "1.1.1.1 8.8.8.8 9.9.9.9" 4 46 2)
    as (v4 & v6 & Hbytes & Hrows & _).
  vm_compute in Hrows. inversion Hrows; subst v4 v6. exact Hbytes.
Defined.

(** The lease file names no router: [LE_OK] and two empty addresses. *)
Lemma get_default_gateway_without_routers_option_witness :
  le_net_GetDefaultGW 16 46 16 46 example_A_no_router 1%N
    (Some {| ipv4Addr := strncpy "10.0.0.1" 16; ipv6Addr := repeat NUL 46 |}) []
  = Some (LE_OK,
          Some {| ipv4Addr := repeat NUL 16; ipv6Addr := repeat NUL 46 |},
          [],
          [Ev_le_dcsTech_GetNetInterface 1%Z 1%N;
           Ev_pa_dcs_GetDhcpLeaseFilePath "eth0";
           Ev_le_flock_TryOpenStream "/var/run/eth0"]).
Proof.
  eapply (get_default_gateway_without_routers_option 16 46 16 46
           example_A_no_router 1%N _ (example_channel 1%Z)
           "eth0" "/var/run/eth0"
           ("domain-name-servers 1.1.1.1 8.8.8.8;" ++ String newline "")%string
           LE_OK []).
  - reflexivity.
  - reflexivity.
  - reflexivity.
  - reflexivity.
  - repeat constructor.
Defined.

Lemma get_dns_is_ok_or_fault_witness :
  exists r addr' l' ev,
    le_net_GetDNS 16 46 16 46 example_A 1%N (Some zeroed_DnsServerAddresses) []
    = Some ((r, addr'), l', ev)
    /\ l' = []
    /\ (r = LE_FAULT
        /\ (addr' = Some zeroed_DnsServerAddresses
            \/ addr' = Some zeroed_DnsServerAddresses)
        \/ r = LE_OK
           /\ exists a, addr' = Some a
                /\ String.length (ipv4Addr1 a) <= 16 - 1
                /\ String.length (ipv4Addr2 a) <= 16 - 1
                /\ String.length (ipv6Addr1 a) <= 46 - 1
                /\ String.length (ipv6Addr2 a) <= 46 - 1).
Proof.
  eexists _, _, _, _. split; [reflexivity|].
  eapply (get_dns_is_ok_or_fault 16 46 16 46 example_A 1%N
            (Some zeroed_DnsServerAddresses) []).
  reflexivity.
Defined.

(** The prefix length 33 for an IPv4 destination is handed to the adapter. *)
Lemma change_route_accepts_prefix_lengths_up_to_128_witness :
  le_net_ChangeRoute 0%Z 3%Z example_inet_pton6 example_A 1%N
    (Some "10.0.0.0") (Some "33") true []
  = Some (LE_OK, [],
          [Ev_le_dcsTech_GetNetInterface 1%Z 1%N;
           Ev_pa_dcs_ChangeRoute PA_DCS_ROUTE_ADD "10.0.0.0" "33" "eth0"]).
Proof.
  refine (proj1 (change_route_accepts_prefix_lengths_up_to_128 0%Z 3%Z
                  example_inet_pton6 example_A 1%N (example_channel 1%Z)
                  "10.0.0.0" "eth0" true [] 33 _ _ _ _) _).
  - reflexivity.
  - reflexivity.
  - left. discriminate.
  - reflexivity.
  - lia.
Defined.

(** The adapter finds the IPv6 server installed and installs the IPv4
    server: the result is [LE_DUPLICATE]. *)
Lemma set_dns_result_follows_the_adapter_witness :
  exists r b' l' ev,
    le_net_SetDNS 16 46 0%Z 2%Z 3%Z example_A_cellular example_dns 1%N
      example_DnsBackup []
    = Some (r, b', l', ev)
    /\ r = LE_DUPLICATE
    /\ l' = []
    /\ (existsb (dns_answered example_dns LE_DUPLICATE) ev = true ->
        r = LE_DUPLICATE)
    /\ (r = LE_OK <->
        existsb (dns_answered example_dns LE_DUPLICATE) ev = false
        /\ existsb (dns_answered example_dns LE_OK) ev = true)
    /\ (filter is_set_dns_call ev <> [] ->
        r = if existsb (dns_answered example_dns LE_DUPLICATE) ev
            then LE_DUPLICATE
            else if existsb (dns_answered example_dns LE_OK) ev then LE_OK
            else LE_FAULT)
    /\ List.length (filter is_set_dns_call ev) <= 2
    /\ (forall isIpv6 dns1 dns2,
           In (Ev_pa_dcs_SetDnsNameServers isIpv6 dns1 dns2) ev ->
           dns1 <> EmptyString \/ dns2 <> EmptyString).
Proof.
  eexists _, _, _, _. split; [reflexivity|]. split; [reflexivity|].
  eapply (set_dns_result_follows_the_adapter 16 46 0%Z 2%Z 3%Z
            example_A_cellular example_dns 1%N example_DnsBackup []).
  reflexivity.
Defined.

(** The record then holds the IPv4 server of the call, and its IPv6 slots
    are as they were. *)
Lemma set_dns_records_what_the_adapter_accepted_witness :
  exists r b' l' ev,
    le_net_SetDNS 16 46 0%Z 2%Z 3%Z example_A_cellular example_dns 1%N
      example_DnsBackup []
    = Some (r, b', l', ev)
    /\ b' = {| newDnsIPv4 := ("192.0.2.53", ""); newDnsIPv6 := ("", "") |}
    /\ (forall dns1 dns2,
           In (Ev_pa_dcs_SetDnsNameServers false dns1 dns2) ev ->
           ans_SetDnsNameServers example_dns false dns1 dns2 = LE_OK ->
           slots false b'
           = (copied (le_utf8_Copy dns1 (dns_row_width 16 46 false)),
              copied (le_utf8_Copy dns2 (dns_row_width 16 46 false))))
    /\ (existsb (fun e => is_set_dns_call_for false e
                          && dns_answered example_dns LE_OK e) ev = false ->
        slots false b' = slots false example_DnsBackup).
Proof.
  eexists _, _, _, _. split; [reflexivity|]. split; [reflexivity|].
  eapply (set_dns_records_what_the_adapter_accepted 16 46 0%Z 2%Z 3%Z
            example_A_cellular example_dns 1%N example_DnsBackup []).
  reflexivity.
Defined.

Lemma restore_dns_hands_over_what_set_dns_recorded_witness :
  exists r b' ev1,
    le_net_SetDNS 16 46 0%Z 2%Z 3%Z example_A_cellular example_dns 1%N
      example_DnsBackup []
    = Some (r, b', [], ev1)
    /\ [Ev_le_dcsTech_GetDNSAddresses 2%Z 5%N;
        Ev_pa_dcs_SetDnsNameServers true "2001:db8::53" "";
        Ev_pa_dcs_SetDnsNameServers false "192.0.2.53" "";
        Ev_pa_dcs_RestoreInitialDnsNameServers
          {| newDnsIPv4 := ("192.0.2.53", ""); newDnsIPv6 := ("", "") |}]
       = ev1 ++ [Ev_pa_dcs_RestoreInitialDnsNameServers b']
    /\ {| newDnsIPv4 := ("192.0.2.53", ""); newDnsIPv6 := ("", "") |}
       = ans_RestoreInitialDnsNameServers example_dns b'
    /\ @nil DcsDefaultGwConfigDb_t = []
    /\ forall isIpv6 dns1 dns2,
         In (Ev_pa_dcs_SetDnsNameServers isIpv6 dns1 dns2) ev1 ->
         ans_SetDnsNameServers example_dns isIpv6 dns1 dns2 = LE_OK ->
         slots isIpv6 b'
         = (copied (le_utf8_Copy dns1 (dns_row_width 16 46 isIpv6)),
            copied (le_utf8_Copy dns2 (dns_row_width 16 46 isIpv6))).
Proof.
  eapply (restore_dns_hands_over_what_set_dns_recorded 16 46 0%Z 2%Z 3%Z
           example_A_cellular example_dns example_dns 1%N example_DnsBackup []).
  reflexivity.
Defined.

(** Session 9 backed up once and did not restore; session 7 backed up,
    set and restored. *)
Lemma session_holds_what_its_last_backup_archived_witness :
  holds_backup 9%N (Some (ans_GetDefaultGateway example_B))
    [example_snapshot_of 9%N false false]
  /\ holds_backup 7%N None [example_snapshot_of 9%N false false].
Proof.
  split.
  - eapply (session_holds_what_its_last_backup_archived 16 46 0%Z 2%Z 3%Z
             [OpBackup example_A; OpSet example_A 1%N; OpBackup example_B;
              OpRestore example_A]
             [example_snapshot_of 9%N false false] _ 9%N).
    reflexivity.
  - eapply (session_holds_what_its_last_backup_archived 16 46 0%Z 2%Z 3%Z
             [OpBackup example_A; OpSet example_A 1%N; OpBackup example_B;
              OpRestore example_A]
             [example_snapshot_of 9%N false false] _ 7%N).
    reflexivity.
Defined.

Lemma get_dns_reads_back_the_servers_of_the_lease_line_witness :
  le_net_GetDNS 16 46 16 46 example_A 1%N (Some zeroed_DnsServerAddresses) []
  = Some (LE_OK,
          Some {| ipv4Addr1 := "1.1.1.1"; ipv4Addr2 := "8.8.8.8";
                  ipv6Addr1 := ""; ipv6Addr2 := "" |},
          [],
          [Ev_le_dcsTech_GetNetInterface 1%Z 1%N;
           Ev_pa_dcs_GetDhcpLeaseFilePath "eth0";
           Ev_le_flock_TryOpenStream "/var/run/eth0"]).
Proof.
  eapply (get_dns_reads_back_the_servers_of_the_lease_line 16 46 16 46
           example_A 1%N (example_channel 1%Z)
           zeroed_DnsServerAddresses "eth0" "/var/run/eth0" example_lease_file
           LE_OK
           [("routers 10.0.0.1;" ++ String newline "")%string]
           "1.1.1.1" "8.8.8.8" (String newline "") [] []).
  - reflexivity.
  - reflexivity.
  - discriminate.
  - discriminate.
  - simpl. lia.
  - simpl. lia.
  - simpl. lia.
  - simpl. lia.
  - lia.
  - lia.
  - reflexivity.
  - reflexivity.
  - reflexivity.
  - reflexivity.
  - reflexivity.
  - repeat constructor.
  - simpl. lia.
Defined.
